(** * FireWorks launchpad on a document store: checkout, checkin, update,
      timeout detection, duplicate merging and workflow rewrite.

    The development embeds [fireworks/core/mongo_launchpad.py].  Python
    dictionaries are association lists in insertion order, stored documents
    are records with a JSON view against which queries are evaluated, and
    every method of [MongoLaunchPad] is a function in a state-and-exception
    monad over the launchpad's collections. *)

From Stdlib Require Import List ZArith String Ascii Bool Lia.
Import ListNotations.

Local Open Scope string_scope.
Local Open Scope list_scope.
Local Open Scope Z_scope.

Set Implicit Arguments.
Set Warnings "-register-all".

(* ===================================================================== *)
(** ** Python values *)
(* ===================================================================== *)

(** JSON-like values, as they sit in specs, documents and queries.
    [JTime] is a timestamp (a [datetime], or its ISO-8601 text: both are
    ordered chronologically, which is all the code relies on). *)
Inductive J : Type :=
| JNull
| JBool (b : bool)
| JInt (z : Z)
| JStr (s : string)
| JTime (t : Z)
| JList (l : list J)
| JDict (d : list (string * J)).

(** A Python [dict] with string keys. *)
Definition Dict := list (string * J).

Fixpoint J_eqb (a b : J) {struct a} : bool :=
  match a, b with
  | JNull, JNull => true
  | JBool x, JBool y => Bool.eqb x y
  | JInt x, JInt y => Z.eqb x y
  | JStr x, JStr y => String.eqb x y
  | JTime x, JTime y => Z.eqb x y
  | JList xs, JList ys =>
      (fix go (xs ys : list J) {struct xs} : bool :=
         match xs, ys with
         | [], [] => true
         | x :: xs', y :: ys' => J_eqb x y && go xs' ys'
         | _, _ => false
         end) xs ys
  | JDict xs, JDict ys =>
      (fix go (xs ys : list (string * J)) {struct xs} : bool :=
         match xs, ys with
         | [], [] => true
         | (k, x) :: xs', (k', y) :: ys' =>
             String.eqb k k' && J_eqb x y && go xs' ys'
         | _, _ => false
         end) xs ys
  | _, _ => false
  end.

Module Py.

(** [d.get(k)] *)
Fixpoint get {V : Type} (k : string) (d : list (string * V)) : option V :=
  match d with
  | [] => None
  | (k', v) :: d' => if String.eqb k k' then Some v else get k d'
  end.

(** [k in d] *)
Definition contains {V : Type} (k : string) (d : list (string * V)) : bool :=
  match get k d with Some _ => true | None => false end.

(** [d[k] = v]: an existing key keeps its place, a new one goes last. *)
Fixpoint set {V : Type} (k : string) (v : V) (d : list (string * V))
  : list (string * V) :=
  match d with
  | [] => [(k, v)]
  | (k', v') :: d' =>
      if String.eqb k k' then (k, v) :: d' else (k', v') :: set k v d'
  end.

(** [d.pop(k)] seen from the dictionary: the binding is gone. *)
Fixpoint remove {V : Type} (k : string) (d : list (string * V))
  : list (string * V) :=
  match d with
  | [] => []
  | (k', v') :: d' =>
      if String.eqb k k' then d' else (k', v') :: remove k d'
  end.

(** [l[i]] with Python's negative indices; [None] is [IndexError]. *)
Definition index {A : Type} (l : list A) (i : Z) : option A :=
  let n := Z.of_nat (List.length l) in
  if (i >=? n) || (i <? - n) then None
  else nth_error l (Z.to_nat (if i <? 0 then n + i else i)).

(** [x in l] for strings and for integers. *)
Definition str_in (x : string) (l : list string) : bool :=
  existsb (String.eqb x) l.

Definition int_in (x : Z) (l : list Z) : bool :=
  existsb (Z.eqb x) l.

(** Truth value of a Python object: [None], [False], [0], [''], [[]] and
    [{}] are false. *)
Definition truthy (v : J) : bool :=
  match v with
  | JNull => false
  | JBool b => b
  | JInt z => negb (z =? 0)
  | JStr s => negb (String.eqb s EmptyString)
  | JTime _ => true
  | JList l => match l with [] => false | _ => true end
  | JDict d => match d with [] => false | _ => true end
  end.

Definition upper_ascii (c : ascii) : ascii :=
  let n := nat_of_ascii c in
  if (Nat.leb 97 n && Nat.leb n 122)%bool then ascii_of_nat (n - 32) else c.

(** [s.upper()] *)
Fixpoint upper (s : string) : string :=
  match s with
  | EmptyString => EmptyString
  | String c s' => String (upper_ascii c) (upper s')
  end.

(** Exceptions the embedded code can raise. *)
Inductive Exc : Type :=
| NameError (name : string)
| KeyError (key : string)
| IndexError
| ValueError (msg : string)
| AssertionError
| TypeError (msg : string)
| AttributeError (msg : string)
| NotImplementedError
| NoFile (oid : string)
| DocumentTooLarge (msg : string)
| DuplicateKeyError (key : string).

Inductive Result (A : Type) : Type :=
| Ok (a : A)
| Raise (e : Exc).

Arguments Ok {A} a.
Arguments Raise {A} e.

End Py.

Import Py.

(* ===================================================================== *)
(** ** The document store: queries, sorting, find-and-modify *)
(* ===================================================================== *)

Module Mongo.

(** The right-hand side of one key of a query document. *)
Inductive Clause : Type :=
| QEq (v : J)                                (* {k: v} *)
| QExists (b : bool)                         (* {k: {"$exists": b}} *)
| QIn (vs : list J)                          (* {k: {"$in": vs}} *)
| QLte (v : J)                               (* {k: {"$lte": v}} *)
| QElemMatch (q : list (string * Clause))    (* {k: {"$elemMatch": q}} *)
| QList (qs : list (list (string * Clause))).  (* the list under $or, $and *)

(** A query document: its keys are conjoined. *)
Definition Query := list (string * Clause).

(** ["a.b.c"] as the path [a; b; c]. *)
Fixpoint split_dots (s : string) : list string :=
  match s with
  | EmptyString => [EmptyString]
  | String c s' =>
      if Ascii.eqb c "."%char then EmptyString :: split_dots s'
      else match split_dots s' with
           | [] => [String c EmptyString]
           | h :: t => String c h :: t
           end
  end.

Fixpoint get_path (p : list string) (d : J) : option J :=
  match p with
  | [] => Some d
  | k :: p' =>
      match d with
      | JDict kv =>
          match Py.get k kv with
          | Some v => get_path p' v
          | None => None
          end
      | _ => None
      end
  end.

(** The value of a (dotted) field of a document; [None] when missing. *)
Definition field (k : string) (d : J) : option J := get_path (split_dots k) d.

(** [{k: v}]: the field equals [v], or is an array holding [v]; a query
    for null also matches a missing field. *)
Definition eq_match (fv : option J) (v : J) : bool :=
  match fv with
  | None => J_eqb v JNull
  | Some x =>
      J_eqb x v
      || match x with
         | JList xs => existsb (fun e => J_eqb e v) xs
         | _ => false
         end
  end.

(** Comparison inside one type bracket; values of different types never
    compare. *)
Definition lte1 (x v : J) : bool :=
  match x, v with
  | JInt a, JInt b => a <=? b
  | JTime a, JTime b => a <=? b
  | JStr a, JStr b => String.leb a b
  | _, _ => false
  end.

Definition lte_match (fv : option J) (v : J) : bool :=
  match fv with
  | None => false
  | Some x =>
      lte1 x v
      || match x with
         | JList xs => existsb (fun e => lte1 e v) xs
         | _ => false
         end
  end.

Fixpoint holds (k : string) (c : Clause) (d : J) {struct c} : bool :=
  match c with
  | QEq v => eq_match (field k d) v
  | QExists b =>
      Bool.eqb (match field k d with Some _ => true | None => false end) b
  | QIn vs => existsb (eq_match (field k d)) vs
  | QLte v => lte_match (field k d) v
  | QElemMatch q =>
      match field k d with
      | Some (JList items) =>
          existsb
            (fun item =>
               (fix all (q : list (string * Clause)) : bool :=
                  match q with
                  | [] => true
                  | (k', c') :: q' => holds k' c' item && all q'
                  end) q)
            items
      | _ => false
      end
  | QList qs =>
      let each :=
        (fix each (qs : list (list (string * Clause))) : list bool :=
           match qs with
           | [] => []
           | q :: qs' =>
               (fix all (q : list (string * Clause)) : bool :=
                  match q with
                  | [] => true
                  | (k', c') :: q' => holds k' c' d && all q'
                  end) q
               :: each qs'
           end) qs in
      if String.eqb k "$or" then existsb (fun b => b) each
      else if String.eqb k "$and" then forallb (fun b => b) each
      else false
  end.

(** A document matches a query when every key's clause holds. *)
Definition matches (q : Query) (d : J) : bool :=
  forallb (fun kc => holds (fst kc) (snd kc) d) q.

(** Sort directions of pymongo. *)
Inductive Direction : Type := ASCENDING | DESCENDING.

(** The store's order on sort values: missing and null first, then
    numbers by value, then timestamps by value; values of the remaining
    types are bracketed by type only. *)
Definition sort_key (fv : option J) : Z * Z :=
  match fv with
  | None => (0, 0)
  | Some JNull => (0, 0)
  | Some (JInt z) => (1, z)
  | Some (JStr _) => (2, 0)
  | Some (JDict _) => (3, 0)
  | Some (JList _) => (4, 0)
  | Some (JBool b) => (5, if b then 1 else 0)
  | Some (JTime t) => (6, t)
  end.

Definition signed (dir : Direction) (z : Z) : Z :=
  match dir with ASCENDING => z | DESCENDING => - z end.

(** The sort specification applied to a document: one pair of integers
    per sort key, to be compared lexicographically. *)
Fixpoint sort_vector (sortby : list (string * Direction)) (d : J) : list Z :=
  match sortby with
  | [] => []
  | (k, dir) :: rest =>
      let '(r, v) := sort_key (field k d) in
      signed dir r :: signed dir v :: sort_vector rest d
  end.

Fixpoint lex_lt (a b : list Z) : bool :=
  match a, b with
  | x :: a', y :: b' => (x <? y) || ((x =? y) && lex_lt a' b')
  | _, _ => false
  end.

(** [a] comes strictly before [b] in the cursor's order. *)
Definition before (sortby : list (string * Direction)) (a b : J) : bool :=
  lex_lt (sort_vector sortby a) (sort_vector sortby b).

Section Collection.

Variable D : Type.
(** The JSON view of a stored document. *)
Variable view : D -> J.

Fixpoint enum_from (i : nat) (l : list D) : list (nat * D) :=
  match l with
  | [] => []
  | x :: t => (i, x) :: enum_from (S i) t
  end.

(** The first element in sort order; among equals, the first met. *)
Fixpoint pick_first (sortby : list (string * Direction))
  (l : list (nat * D)) : option (nat * D) :=
  match l with
  | [] => None
  | x :: t =>
      match pick_first sortby t with
      | None => Some x
      | Some y =>
          if before sortby (view (snd y)) (view (snd x)) then Some y
          else Some x
      end
  end.

(** [coll.find(q)]: the matching documents in natural order. *)
Definition find (q : Query) (coll : list D) : list D :=
  filter (fun d => matches q (view d)) coll.

(** Position and content of the document [find_one(q, sort=sortby)]
    returns. *)
Definition find_one_at (q : Query) (sortby : list (string * Direction))
  (coll : list D) : option (nat * D) :=
  pick_first sortby
    (filter (fun p => matches q (view (snd p))) (enum_from 0 coll)).

Definition find_one (q : Query) (sortby : list (string * Direction))
  (coll : list D) : option D :=
  option_map snd (find_one_at q sortby coll).

Fixpoint replace_at (i : nat) (f : D -> D) (l : list D) : list D :=
  match l, i with
  | [], _ => []
  | x :: t, O => f x :: t
  | x :: t, S i' => x :: replace_at i' f t
  end.

(** [coll.find_one_and_update(q, upd, sort=sortby)]: one atomic step that
    rewrites the selected document and returns it as it was before. *)
Definition find_one_and_update (q : Query)
  (sortby : list (string * Direction)) (upd : D -> D) (coll : list D)
  : option D * list D :=
  match find_one_at q sortby coll with
  | None => (None, coll)
  | Some (i, d) => (Some d, replace_at i upd coll)
  end.

(** [coll.update_one(q, upd)] *)
Definition update_one (q : Query) (upd : D -> D) (coll : list D) : list D :=
  snd (find_one_and_update q [] upd coll).

(** [coll.find_one_and_replace(q, doc)] without upsert. *)
Definition find_one_and_replace (q : Query) (doc : D) (coll : list D)
  : list D :=
  snd (find_one_and_update q [] (fun _ => doc) coll).

(** [coll.find_one_and_replace(q, doc, upsert=True)] *)
Definition find_one_and_replace_upsert (q : Query) (doc : D)
  (coll : list D) : list D :=
  match find_one_at q [] coll with
  | None => coll ++ [doc]
  | Some (i, _) => replace_at i (fun _ => doc) coll
  end.

End Collection.

End Mongo.

Import Mongo.

(* ===================================================================== *)
(** ** Data model *)
(* ===================================================================== *)

(** A document of the [fireworks] collection. *)
Module FwDoc.
Record t : Type := mk {
  fw_id : Z;
  state : string;
  created_on : Z;
  updated_on : Z;
  spec : Dict;
  launches : list Z
}.

Definition view (d : t) : J :=
  JDict [("fw_id", JInt (fw_id d));
         ("state", JStr (state d));
         ("created_on", JTime (created_on d));
         ("updated_on", JTime (updated_on d));
         ("spec", JDict (spec d));
         ("launches", JList (map JInt (launches d)))].
End FwDoc.

(** One entry of a launch's [state_history]. *)
Module Hist.
Record t : Type := mk {
  state : string;
  created_on : Z;
  updated_on : Z
}.

Definition view (h : t) : J :=
  JDict [("state", JStr (state h));
         ("created_on", JTime (created_on h));
         ("updated_on", JTime (updated_on h))].
End Hist.

(** A launch: the dictionary [m_fw.launch] in memory, and a document of
    the [launches] collection once written. *)
Module Launch.
Record t : Type := mk {
  launch_id : Z;
  fw_id : Z;
  state : string;
  state_history : list Hist.t;
  trackers : list J;
  action : option Dict
}.

Definition view (l : t) : J :=
  JDict [("launch_id", JInt (launch_id l));
         ("fw_id", JInt (fw_id l));
         ("state", JStr (state l));
         ("state_history", JList (map Hist.view (state_history l)));
         ("trackers", JList (trackers l));
         ("action", match action l with Some a => JDict a | None => JNull end)].

(** [launch['launch_id'] = i] *)
Definition set_launch_id (i : Z) (l : t) : t :=
  mk i (fw_id l) (state l) (state_history l) (trackers l) (action l).

(** [launch['action'] = a] *)
Definition set_action (a : option Dict) (l : t) : t :=
  mk (launch_id l) (fw_id l) (state l) (state_history l) (trackers l) a.

(** [{'$set': {'state_history': h, 'trackers': tr}}] *)
Definition set_history (h : list Hist.t) (tr : list J) (l : t) : t :=
  mk (launch_id l) (fw_id l) (state l) h tr (action l).
End Launch.

(** The [Firework] object the methods receive and return. *)
Module Firework.
Record t : Type := mk {
  fw_id : Z;
  state : string;
  created_on : Z;
  updated_on : Z;
  spec : Dict;
  launch : Launch.t;
  launch_idx : option Z;
  launches : list Launch.t
}.

(** [fw.launches.append(l)] *)
Definition append_launch (l : Launch.t) (fw : t) : t :=
  mk (fw_id fw) (state fw) (created_on fw) (updated_on fw) (spec fw)
     (launch fw) (launch_idx fw) (launches fw ++ [l]).
End Firework.

(** The blob store behind [gridfs_fallback]. *)
Module GridFS.
Record file : Type := mk_file {
  oid : string;
  data : string;
  metadata_launch_id : Z
}.

Definition t := list file.

(** [fs.get(ObjectId(i)).read()] *)
Fixpoint get (i : string) (fs : t) : option string :=
  match fs with
  | [] => None
  | f :: fs' => if String.eqb i (oid f) then Some (data f) else get i fs'
  end.

(** Does the store hold a file for the launch [i]? *)
Definition has_launch (i : Z) (fs : t) : bool :=
  existsb (fun f => metadata_launch_id f =? i) fs.
End GridFS.

(** The worker configuration [self.fworker]. *)
Module FWorker.
Record t : Type := mk {
  name : J;
  category : J;
  query : Query
}.
End FWorker.

(** The [Workflow] object: the map from node id to firework, in
    insertion order, and the rest of the object. *)
Module Workflow.
Record t : Type := mk {
  id_fw : list (Z * Firework.t);
  body : Dict
}.
End Workflow.

(** The launchpad: its collections, the blob store when one is
    configured, the id counters and the clock. *)
Module LP.
Record t : Type := mk {
  fireworks : list FwDoc.t;
  launches : list Launch.t;
  workflows : list Dict;
  gridfs_fallback : option GridFS.t;
  fw_id_assigner : option (Z * Z);
  utcnow : Z
}.

Definition with_fireworks (c : list FwDoc.t) (lp : t) : t :=
  mk c (launches lp) (workflows lp) (gridfs_fallback lp)
     (fw_id_assigner lp) (utcnow lp).

Definition with_launches (c : list Launch.t) (lp : t) : t :=
  mk (fireworks lp) c (workflows lp) (gridfs_fallback lp)
     (fw_id_assigner lp) (utcnow lp).

Definition with_workflows (c : list Dict) (lp : t) : t :=
  mk (fireworks lp) (launches lp) c (gridfs_fallback lp)
     (fw_id_assigner lp) (utcnow lp).

Definition with_gridfs (g : option GridFS.t) (lp : t) : t :=
  mk (fireworks lp) (launches lp) (workflows lp) g
     (fw_id_assigner lp) (utcnow lp).

Definition with_assigner (a : option (Z * Z)) (lp : t) : t :=
  mk (fireworks lp) (launches lp) (workflows lp) (gridfs_fallback lp)
     a (utcnow lp).
End LP.

(** Computations of the launchpad: a result or an exception, and the
    launchpad as it is left (writes made before an exception stay). *)
Definition M (A : Type) : Type := LP.t -> Result A * LP.t.

Definition ret {A : Type} (a : A) : M A := fun lp => (Ok a, lp).

Definition raise {A : Type} (e : Exc) : M A := fun lp => (Raise e, lp).

Definition bind {A B : Type} (c : M A) (k : A -> M B) : M B :=
  fun lp =>
    match c lp with
    | (Ok a, lp') => k a lp'
    | (Raise e, lp') => (Raise e, lp')
    end.

(** A computation that only reads the launchpad. *)
Definition read {A : Type} (f : LP.t -> Result A) : M A :=
  fun lp => (f lp, lp).

Definition modify (f : LP.t -> LP.t) : M unit := fun lp => (Ok tt, f lp).

Notation "x <- c ;; k" := (bind c (fun x => k))
  (at level 61, c at next level, right associativity).
Notation "c ;;; k" := (bind c (fun _ => k))
  (at level 61, right associativity).

(** [try: c except DocumentTooLarge as err: h err] *)
Definition try_too_large {A : Type} (c : M A) (h : string -> M A) : M A :=
  fun lp =>
    match c lp with
    | (Raise (DocumentTooLarge msg), lp') => h msg lp'
    | r => r
    end.

(** The error monad alone, for code that touches no collection. *)
Definition rbind {A B : Type} (r : Result A) (k : A -> Result B) : Result B :=
  match r with
  | Ok a => k a
  | Raise e => Raise e
  end.

(* ===================================================================== *)
(** ** [worker_query] *)
(* ===================================================================== *)

(** The names bound at module level in [mongo_launchpad.py]: its imports,
    the type variable and the definitions of the file. *)
Definition module_globals : list string :=
  ["unicode_literals"; "zopen"; "zpath"; "datetime"; "json"; "os"; "random";
   "time"; "traceback"; "shutil"; "gridfs"; "OrderedDict"; "defaultdict";
   "chain"; "tqdm"; "ObjectId"; "MongoClient"; "DESCENDING"; "ASCENDING";
   "DocumentTooLarge"; "loadfn"; "Collection"; "Firework"; "Workflow";
   "Firetask"; "LaunchPad"; "LockedWorkflowError"; "WFLock"; "LAUNCHPAD_LOC";
   "SORT_FWS"; "RESERVATION_EXPIRATION_SECS"; "RUN_EXPIRATION_SECS";
   "MAINTAIN_INTERVAL"; "WFLOCK_EXPIRATION_SECS"; "WFLOCK_EXPIRATION_KILL";
   "MONGO_SOCKET_TIMEOUT_MS"; "GRIDFS_FALLBACK_COLLECTION"; "FWORKER_LOC";
   "FWSerializable"; "reconstitute_dates"; "FWAction"; "Tracker";
   "get_fw_logger"; "recursive_dict"; "_recursive_load"; "TypeVar"; "List";
   "Tuple"; "Dict"; "Union"; "Optional"; "Any"; "Num"; "MongoLaunchPad";
   "LazyFirework"; "get_action_from_gridfs"].

(** Evaluating a global name: [NameError] when the module binds no such
    name. *)
Definition global_name (n : string) : Result unit :=
  if Py.str_in n module_globals then Ok tt else Raise (NameError n).

(** The three alternatives of the worker-affinity clause. *)
Definition fworker_check (fworker : FWorker.t) : list Query :=
  [ [("spec._fworker", QExists false)];
    [("spec._fworker", QEq JNull)];
    [("spec._fworker", QEq (FWorker.name fworker))] ].

Definition as_list (v : J) : list J :=
  match v with JList l => l | _ => [] end.

Definition worker_query (fworker : FWorker.t) : Result Query :=
  let q := FWorker.query fworker in
  let category := FWorker.category fworker in
  rbind
    (match Py.get "$or" q with
     | Some old_or =>
         match Py.get "$and" q with
         | Some (QList l) =>
             Ok (Py.set "$and"
                   (QList (l ++ [[("$or", old_or)];
                                 [("$or", QList (fworker_check fworker))]]))
                   (Py.remove "$or" q))
         | Some _ => Raise (AttributeError "extend")
         | None =>
             Ok (Py.set "$and"
                   (QList [[("$or", old_or)];
                           [("$or", QList (fworker_check fworker))]])
                   (Py.remove "$or" q))
         end
     | None => Ok (Py.set "$or" (QList (fworker_check fworker)) q)
     end)
    (fun q =>
       if Py.truthy category then
         (* [isinstance(..., six.string_types)]: the name [six] is looked
            up before the test can be made *)
         rbind (global_name "six")
           (fun _ =>
              match category with
              | JStr c =>
                  if String.eqb c "__none__"
                  then Ok (Py.set "spec._category" (QExists false) q)
                  else Ok (Py.set "spec._category" (QEq category) q)
              | _ => Ok (Py.set "spec._category" (QIn (as_list category)) q)
              end)
       else Ok q).

(* ===================================================================== *)
(** ** The methods of [MongoLaunchPad] *)
(* ===================================================================== *)

(** A duplicate finder: the query that narrows the candidates and the
    verification of a pair of specs, which the base class leaves
    unimplemented ([NotImplementedError]). *)
Record DupeFinder : Type := mkDupeFinder {
  df_query : Dict -> Query;
  df_verify : Dict -> Dict -> Result bool
}.

(** The first argument of [_update_fw]: a firework id or the object. *)
Inductive FwArg : Type :=
| ById (i : Z)
| Obj (fw : Firework.t).

(** The [allowed_states] argument of [_update_fw]. *)
Inductive Allowed : Type :=
| AllowedNone
| AllowedStr (s : string)
| AllowedList (l : list string).

(** [{'$set': {'state': 'RESERVED', 'updated_on': now}}] *)
Definition reserve (now : Z) (d : FwDoc.t) : FwDoc.t :=
  FwDoc.mk (FwDoc.fw_id d) "RESERVED" (FwDoc.created_on d) now
    (FwDoc.spec d) (FwDoc.launches d).

(** [{'$set': {'state': s, 'updated_on': u}}] *)
Definition set_state_updated (s : string) (u : Z) (d : FwDoc.t) : FwDoc.t :=
  FwDoc.mk (FwDoc.fw_id d) s (FwDoc.created_on d) u
    (FwDoc.spec d) (FwDoc.launches d).

(** [while True: body], the body saying whether to return; [None] when
    the iterations allowed are used up. *)
Fixpoint while_true {A : Type} (fuel : nat) (body : M (option A))
  (lp : LP.t) : option (Result A * LP.t) :=
  match fuel with
  | O => None
  | S fuel' =>
      match body lp with
      | (Raise e, lp') => Some (Raise e, lp')
      | (Ok (Some a), lp') => Some (Ok a, lp')
      | (Ok None, lp') => while_true fuel' body lp'
      end
  end.

(** [list(set(l))], up to the order of a Python set. *)
Definition py_set (l : list Z) : list Z := nodup Z.eq_dec l.

Fixpoint zget (k : Z) (d : list (Z * Z)) : option Z :=
  match d with
  | [] => None
  | (k', v) :: d' => if k =? k' then Some v else zget k d'
  end.

Fixpoint id_fw_get (k : Z) (d : list (Z * Firework.t)) : option Firework.t :=
  match d with
  | [] => None
  | (k', v) :: d' => if k =? k' then Some v else id_fw_get k d'
  end.

Section Methods.

(** [SORT_FWS] of [fw_config]. *)
Variable SORT_FWS : string.
(** [Firework.STATE_RANKS]; [None] where the table has no entry. *)
Variable STATE_RANKS : string -> option Z.
(** The store's size limit: the launch documents it refuses to write. *)
Variable too_large : Launch.t -> bool.
(** [json.dumps] and [json.loads] on action dictionaries; [None] is a
    decoding error. *)
Variable json_dumps : Dict -> string.
Variable json_loads : string -> option Dict.
(** The identifier the blob store gives to a new file. *)
Variable new_object_id : GridFS.t -> string.
(** [LaunchPad.get_fw_by_id(fw_id, launch_idx)], of the base class: it
    reads the store and builds the object. *)
Variable get_fw_by_id : Z -> Z -> LP.t -> Result Firework.t.
(** [LaunchPad._check_fw_for_uniqueness(m_fw)], of the base class: true
    when the firework is unique; it may write to the store, and the
    object it was given comes back as it left it. *)
Variable _check_fw_for_uniqueness : Firework.t -> M (bool * Firework.t).
(** The setter of [Firework.state]. *)
Variable Firework_set_state : string -> Firework.t -> Firework.t.
(** The duplicate finder object a spec's [_dupefinder] entry stands for. *)
Variable load_dupefinder : J -> DupeFinder.
(** [LaunchPad._upsert_fws], [Workflow._reassign_ids] and
    [Workflow.to_db_dict]. *)
Variable _upsert_fws : list Firework.t -> M (list (Z * Z)).
Variable _reassign_ids : list (Z * Z) -> Workflow.t -> Workflow.t.
Variable Workflow_to_db_dict : Workflow.t -> Dict.

(* --------------------------------------------------------------------- *)
(** *** [_get_a_fw_to_run] *)

Definition sortby : list (string * Direction) :=
  [("spec._priority", DESCENDING)]
  ++ (if String.eqb (Py.upper SORT_FWS) "FIFO"
      then [("created_on", ASCENDING)]
      else if String.eqb (Py.upper SORT_FWS) "FILO"
           then [("created_on", DESCENDING)]
           else []).

Definition checkout_query (query : option Query) (fw_id : option Z) : Query :=
  let m_query := match query with Some q => q | None => [] end in
  let m_query := Py.set "state" (QEq (JStr "READY")) m_query in
  match fw_id with
  | Some i =>
      if i =? 0 then m_query
      else [("fw_id", QEq (JInt i));
            ("state", QIn [JStr "READY"; JStr "RESERVED"])]
  | None => m_query
  end.

(** The atomic find-and-modify of the checkout. *)
Definition reserve_one (m_query : Query) : M (option FwDoc.t) :=
  fun lp =>
    let '(m_fw, coll) :=
      find_one_and_update FwDoc.view m_query sortby
        (reserve (LP.utcnow lp)) (LP.fireworks lp) in
    (Ok m_fw, LP.with_fireworks coll lp).

(** One turn of the loop; [None] asks for another turn. *)
Definition checkout_turn (m_query : Query) (checkout : bool)
  : M (option (option Firework.t)) :=
  m_fw <- (if checkout then reserve_one m_query
           else read (fun lp =>
                  Ok (find_one FwDoc.view m_query sortby (LP.fireworks lp))));;
  match m_fw with
  | None => ret (Some None)
  | Some d =>
      m_fw <- read (get_fw_by_id (FwDoc.fw_id d) (-1));;
      r <- _check_fw_for_uniqueness m_fw;;
      if fst r then ret (Some (Some (snd r))) else ret None
  end.

Definition _get_a_fw_to_run (fuel : nat) (query : option Query)
  (fw_id : option Z) (launch_idx : Z) (checkout : bool)
  : LP.t -> option (Result (option Firework.t) * LP.t) :=
  while_true fuel (checkout_turn (checkout_query query fw_id) checkout).

(* --------------------------------------------------------------------- *)
(** *** [_find_timeout_fws] *)

Definition lostruns_query (state : string) (cutoff : Z) : Query :=
  [("state", QEq (JStr state));
   ("state_history",
    QElemMatch [("state", QEq (JStr state));
                ("updated_on", QLte (JTime cutoff))])].

Definition _find_timeout_fws (state : string) (expiration_secs : Z)
  (query : option Query) (lp : LP.t) : list Z :=
  let now_time := LP.utcnow lp in
  let cutoff := now_time - expiration_secs in
  let q := lostruns_query state cutoff in
  let q :=
    match query with
    | Some (c :: rest) =>
        let fw_ids :=
          map FwDoc.fw_id (find FwDoc.view (c :: rest) (LP.fireworks lp)) in
        Py.set "fw_id" (QIn (map JInt fw_ids)) q
    | _ => q
    end in
  py_set (map Launch.fw_id (find Launch.view q (LP.launches lp))).

(* --------------------------------------------------------------------- *)
(** *** [_checkin_fw] and [get_action_from_gridfs] *)

Definition too_large_msg : string := "BSON document too large".

Definition gridfs_hint : string :=
  ". Set GRIDFS_FALLBACK_COLLECTION in FW_config.yaml to a value different from None".

(** [self.launches.find_one_and_replace({'launch_id': i}, doc,
    upsert=True)], which the store refuses for a document over its size
    limit. *)
Definition launches_replace (i : Z) (doc : Launch.t) : M unit :=
  fun lp =>
    if too_large doc then (Raise (DocumentTooLarge too_large_msg), lp)
    else (Ok tt,
          LP.with_launches
            (find_one_and_replace_upsert Launch.view
               [("launch_id", QEq (JInt i))] doc (LP.launches lp)) lp).

(** [self.gridfs_fallback.put(data, metadata={"launch_id": i})]: the
    file is added under a new id, unless the store holds a file for the
    launch already: [tuneup] builds a unique index on
    [metadata.launch_id] of the files, so a second file for the same
    launch is refused and none is added. *)
Definition gridfs_put (data : string) (i : Z) : M string :=
  fun lp =>
    match LP.gridfs_fallback lp with
    | None => (Raise (AttributeError "put"), lp)
    | Some fs =>
        if GridFS.has_launch i fs
        then (Raise (DuplicateKeyError "metadata.launch_id"), lp)
        else
          let action_id := new_object_id fs in
          (Ok action_id,
           LP.with_gridfs (Some (fs ++ [GridFS.mk_file action_id data i])) lp)
    end.

(** The reference that replaces an action moved to the blob store. *)
Definition gridfs_token (action_id : string) : Dict :=
  [("gridfs_id", JStr action_id)].

Definition _checkin_fw (m_fw : Firework.t) (action : option Dict)
  (state : string) : M (Launch.t * list Z) :=
  let m_launch := Firework.launch m_fw in
  launch_ids <-
    read (fun lp =>
            match find_one FwDoc.view
                    [("fw_id", QEq (JInt (Firework.fw_id m_fw)))] []
                    (LP.fireworks lp) with
            | Some d => Ok (FwDoc.launches d)
            | None => Raise (TypeError "NoneType")
            end);;
  match Firework.launch_idx m_fw with
  | None => ret (m_launch, [])
  | Some idx =>
      match Py.index launch_ids idx with
      | None => raise IndexError
      | Some lid =>
          let m_launch := Launch.set_launch_id lid m_launch in
          m_launch <-
            try_too_large
              (launches_replace lid m_launch ;;; ret m_launch)
              (fun msg =>
                 let launch_db_dict := m_launch in
                 let action_dict := Launch.action launch_db_dict in
                 match action_dict with
                 | Some (kv :: rest) =>
                     fs <- read (fun lp => Ok (LP.gridfs_fallback lp));;
                     match fs with
                     | None =>
                         raise (DocumentTooLarge
                                  (String.append msg gridfs_hint))
                     | Some _ =>
                         action_id <- gridfs_put (json_dumps (kv :: rest)) lid;;
                         let launch_db_dict :=
                           Launch.set_action
                             (Some (gridfs_token action_id)) launch_db_dict in
                         launches_replace lid launch_db_dict ;;;
                         ret launch_db_dict
                     end
                 | _ => raise (DocumentTooLarge msg)
                 end);;
          ids_to_refresh <-
            read (fun lp =>
                    Ok (map FwDoc.fw_id
                          (find FwDoc.view [("launches", QEq (JInt lid))]
                             (LP.fireworks lp))));;
          ret (m_launch, ids_to_refresh)
      end
  end.

Definition get_action_from_gridfs (action_dict : option Dict)
  (fallback_fs : option GridFS.t) : Result (option Dict) :=
  match action_dict with
  | Some (kv :: rest) =>
      match Py.get "gridfs_id" (kv :: rest) with
      | None => Ok action_dict
      | Some (JStr action_gridfs_id) =>
          match fallback_fs with
          | None => Raise (AttributeError "get")
          | Some fs =>
              match GridFS.get action_gridfs_id fs with
              | None => Raise (NoFile action_gridfs_id)
              | Some action_data =>
                  match json_loads action_data with
                  | Some d => Ok (Some d)
                  | None => Raise (ValueError "JSONDecodeError")
                  end
              end
          end
      | Some _ => Raise (TypeError "ObjectId")
      end
  | _ => Ok action_dict
  end.

(* --------------------------------------------------------------------- *)
(** *** [_update_fw] *)

(** [reset_launch]: the requested state outranks the current one and the
    current one ranks at most 0. *)
Definition reset_launch_of (state : option string) (current : string)
  : Result bool :=
  match state with
  | None => Ok false
  | Some s =>
      match STATE_RANKS s with
      | None => Raise (KeyError s)
      | Some rs =>
          match STATE_RANKS current with
          | None => Raise (KeyError current)
          | Some rc => Ok ((rs >? rc) && (rc <=? 0))
          end
      end
  end.

(** [self.fireworks.find_one_and_update(query_dict, command_dict_fw,
    projection={'launches': 1})] *)
Definition fireworks_update (query_dict : Query) (upd : FwDoc.t -> FwDoc.t)
  : M (option FwDoc.t) :=
  fun lp =>
    let '(old, coll) :=
      find_one_and_update FwDoc.view query_dict [] upd (LP.fireworks lp) in
    (Ok old, LP.with_fireworks coll lp).

(** [self.launches.update_one(query_dict, command_dict_launch)] *)
Definition launches_update_one (query_dict : Query)
  (upd : Launch.t -> Launch.t) : M unit :=
  modify (fun lp =>
            LP.with_launches
              (update_one Launch.view query_dict upd (LP.launches lp)) lp).

(** The part of [_update_fw] after the test of [allowed_states];
    [allowed] is the clause the test leaves for the [state] key. *)
Definition update_allowed (m_fw : Firework.t) (state : option string)
  (allowed : option Clause) (launch_idx : Z) (touch_history : bool)
  : M (option Firework.t) :=
  let query_dict := [("fw_id", QEq (JInt (Firework.fw_id m_fw)))] in
  let query_dict :=
    match allowed with
    | Some c => Py.set "state" c query_dict
    | None => query_dict
    end in
  reset_launch <- read (fun _ => reset_launch_of state (Firework.state m_fw));;
  let m_fw :=
    match state with
    | Some s => if touch_history then Firework_set_state s m_fw else m_fw
    | None => m_fw
    end in
  let launch := Firework.launch m_fw in
  let command_dict_launch :=
    Launch.set_history (Launch.state_history launch) (Launch.trackers launch) in
  let command_dict_fw :=
    set_state_updated (Firework.state m_fw) (Firework.updated_on m_fw) in
  if negb reset_launch then
    lids <- fireworks_update query_dict command_dict_fw;;
    match lids with
    | Some d =>
        match FwDoc.launches d with
        | [] => ret (Some m_fw)
        | _ :: _ =>
            match Py.index (FwDoc.launches d) launch_idx with
            | None => raise (ValueError "Bad launch index %d %d")
            | Some lid =>
                launches_update_one [("launch_id", QEq (JInt lid))]
                  command_dict_launch ;;;
                ret (Some m_fw)
            end
        end
    | None => ret (Some m_fw)
    end
  else
    (* edit: should NOT make a new launch in this function *)
    fireworks_update query_dict command_dict_fw ;;;
    ret (Some m_fw).

Definition _update_fw (m_fw : FwArg) (state : option string)
  (allowed_states : Allowed) (launch_idx : Z) (touch_history : bool)
  (checkpoint : option J) : M (option Firework.t) :=
  m_fw <- match m_fw with
          | ById i => read (get_fw_by_id i launch_idx)
          | Obj fw => ret fw
          end;;
  match allowed_states with
  | AllowedList l =>
      if negb (Py.str_in (Firework.state m_fw) l) then ret None
      else update_allowed m_fw state (Some (QIn (map JStr l)))
             launch_idx touch_history
  | AllowedStr s =>
      if negb (String.eqb (Firework.state m_fw) s) then ret None
      else update_allowed m_fw state (Some (QEq (JStr s)))
             launch_idx touch_history
  | AllowedNone =>
      update_allowed m_fw state None launch_idx touch_history
  end.

(** [get_new_fw_id] and [get_new_launch_id]: increment and read in one
    step; without the counter record the lookup fails. *)
Definition get_new_fw_id (quantity : Z) : M Z :=
  fun lp =>
    match LP.fw_id_assigner lp with
    | None => (Raise (ValueError "Could not get next FW id!"), lp)
    | Some (next_fw_id, next_launch_id) =>
        (Ok next_fw_id,
         LP.with_assigner (Some (next_fw_id + quantity, next_launch_id)) lp)
    end.

Definition get_new_launch_id : M Z :=
  fun lp =>
    match LP.fw_id_assigner lp with
    | None => (Raise (ValueError "Could not get next launch id!"), lp)
    | Some (next_fw_id, next_launch_id) =>
        (Ok next_launch_id,
         LP.with_assigner (Some (next_fw_id, next_launch_id + 1)) lp)
    end.

(* --------------------------------------------------------------------- *)
(** *** [_steal_launches] *)

(** Is [verify] left unimplemented?  The probe on two empty specs
    answers: only [NotImplementedError] lets the verification be
    skipped. *)
Definition verify_skipped (m_dupefinder : DupeFinder) : bool :=
  match df_verify m_dupefinder [] [] with
  | Raise NotImplementedError => true
  | _ => false
  end.

(** The victim's launches the thief does not hold yet. *)
Definition valuable_launches (thief_fw victim_fw : Firework.t)
  : list Launch.t :=
  let thief_launches := map Launch.launch_id (Firework.launches thief_fw) in
  filter (fun l => negb (Py.int_in (Launch.launch_id l) thief_launches))
    (Firework.launches victim_fw).

(** [for launch in valuable_launches: thief_fw.launches.append(launch);
    stolen = True] *)
Definition take_launches (valuable : list Launch.t)
  (acc : bool * Firework.t) : bool * Firework.t :=
  fold_left (fun a launch => (true, Firework.append_launch launch (snd a)))
    valuable acc.

(** The loop over the potential matches. *)
Fixpoint steal_loop (m_dupefinder : DupeFinder)
  (potential : list FwDoc.t) (lp : LP.t) (acc : bool * Firework.t)
  : Result (bool * Firework.t) :=
  match potential with
  | [] => Ok acc
  | potential_match :: rest =>
      let thief_fw := snd acc in
      rbind
        (if verify_skipped m_dupefinder then Ok true
         else df_verify m_dupefinder (Firework.spec thief_fw)
                (FwDoc.spec potential_match))
        (fun verified =>
           if verified then
             rbind (get_fw_by_id (FwDoc.fw_id potential_match) (-1) lp)
               (fun victim_fw =>
                  steal_loop m_dupefinder rest lp
                    (take_launches (valuable_launches thief_fw victim_fw)
                       acc))
           else steal_loop m_dupefinder rest lp acc)
  end.

(** The result is the flag [stolen] and the thief as the call leaves
    it. *)
Definition _steal_launches (thief_fw : Firework.t) (lp : LP.t)
  : Result (bool * Firework.t) :=
  if Py.str_in (Firework.state thief_fw) ["READY"; "RESERVED"]
     && Py.contains "_dupefinder" (Firework.spec thief_fw)
  then
    match Py.get "_dupefinder" (Firework.spec thief_fw) with
    | Some o =>
        let m_dupefinder := load_dupefinder o in
        let m_query := df_query m_dupefinder (Firework.spec thief_fw) in
        steal_loop m_dupefinder
          (find FwDoc.view m_query (LP.fireworks lp)) lp (false, thief_fw)
    | None => Raise (KeyError "_dupefinder")
    end
  else Ok (false, thief_fw).

(* --------------------------------------------------------------------- *)
(** *** [_update_wf] *)

(** The node on which the workflow document is looked up: the first node
    whose id did not change. *)
Definition find_query_node (wf : Workflow.t) (old_new : list (Z * Z))
  : option Z :=
  List.find
    (fun f =>
       negb (Py.int_in f (map snd old_new))
       || match zget f old_new with Some g => g =? f | None => false end)
    (map fst (Workflow.id_fw wf)).

Fixpoint collect_fws (wf : Workflow.t) (ids : list Z)
  : Result (list Firework.t) :=
  match ids with
  | [] => Ok []
  | fid :: rest =>
      match id_fw_get fid (Workflow.id_fw wf) with
      | None => Raise (KeyError "id_fw")
      | Some fw => rbind (collect_fws wf rest) (fun fws => Ok (fw :: fws))
      end
  end.

Definition wf_view (d : Dict) : J := JDict d.

Definition _update_wf (wf : Workflow.t) (updated_ids : list Z) : M unit :=
  updated_fws <- read (fun _ => collect_fws wf updated_ids);;
  old_new <- _upsert_fws updated_fws;;
  let wf := _reassign_ids old_new wf in
  match find_query_node wf old_new with
  | None => raise AssertionError
  | Some query_node =>
      found <-
        read (fun lp =>
                Ok (find_one wf_view [("nodes", QEq (JInt query_node))] []
                      (LP.workflows lp)));;
      match found with
      | None => raise (ValueError "BAD QUERY_NODE!")
      | Some _ =>
          let wf := Workflow_to_db_dict wf in
          let wf := Py.set "locked" (JBool true) wf in  (* preserve the lock! *)
          modify (fun lp =>
                    LP.with_workflows
                      (find_one_and_replace wf_view
                         [("nodes", QEq (JInt query_node))] wf
                         (LP.workflows lp)) lp)
      end
  end.

End Methods.

(* ===================================================================== *)
(** ** Facts about dictionaries and the store *)
(* ===================================================================== *)

Lemma get_set_same (V : Type) (k : string) (v : V) (d : list (string * V)) :
  Py.get k (Py.set k v d) = Some v.
Proof.
  induction d as [|[k' v'] d IH]; simpl.
  - now rewrite String.eqb_refl.
  - destruct (String.eqb k k') eqn:E; simpl.
    + now rewrite String.eqb_refl.
    + now rewrite E.
Qed.

Lemma str_in_In (x : string) (l : list string) :
  Py.str_in x l = true <-> In x l.
Proof.
  unfold Py.str_in. rewrite existsb_exists. split.
  - intros [y [Hy He]]. apply String.eqb_eq in He. now subst.
  - intros H. exists x. split; [assumption | apply String.eqb_refl].
Qed.

Lemma int_in_In (x : Z) (l : list Z) :
  Py.int_in x l = true <-> In x l.
Proof.
  unfold Py.int_in. rewrite existsb_exists. split.
  - intros [y [Hy He]]. apply Z.eqb_eq in He. now subst.
  - intros H. exists x. split; [assumption | apply Z.eqb_refl].
Qed.

(** The clauses of a sub-document query, read off the nested recursion of
    [holds]. *)
Lemma holds_all (q : Query) (d : J) :
  (fix all (q : list (string * Clause)) : bool :=
     match q with
     | [] => true
     | (k', c') :: q' => holds k' c' d && all q'
     end) q = matches q d.
Proof.
  induction q as [|[k c] q IH]; simpl; [reflexivity|].
  now rewrite IH.
Qed.

Lemma holds_each (qs : list Query) (d : J) :
  (fix each (qs : list (list (string * Clause))) : list bool :=
     match qs with
     | [] => []
     | q :: qs' =>
         (fix all (q : list (string * Clause)) : bool :=
            match q with
            | [] => true
            | (k', c') :: q' => holds k' c' d && all q'
            end) q :: each qs'
     end) qs = map (fun q => matches q d) qs.
Proof.
  induction qs as [|q qs IH]; simpl; [reflexivity|].
  now rewrite IH, holds_all.
Qed.

Lemma holds_or (qs : list Query) (d : J) :
  holds "$or" (QList qs) d = existsb (fun q => matches q d) qs.
Proof.
  cbn [holds]. rewrite holds_each. simpl String.eqb. cbv iota.
  induction qs as [|q qs IH]; simpl; [reflexivity|]. now rewrite IH.
Qed.

Lemma holds_and (qs : list Query) (d : J) :
  holds "$and" (QList qs) d = forallb (fun q => matches q d) qs.
Proof.
  cbn [holds]. rewrite holds_each. simpl String.eqb. cbv iota.
  induction qs as [|q qs IH]; simpl; [reflexivity|]. now rewrite IH.
Qed.

Lemma holds_elem_match (k : string) (q : Query) (d : J) :
  holds k (QElemMatch q) d =
  match field k d with
  | Some (JList items) => existsb (fun item => matches q item) items
  | _ => false
  end.
Proof.
  cbn [holds]. destruct (field k d) as [[| | | | |items|]|]; try reflexivity.
  induction items as [|it items IH]; simpl; [reflexivity|].
  now rewrite holds_all, IH.
Qed.

(** Setting a key of a query conjoins its clause with the other keys. *)
Lemma matches_set (k : string) (c : Clause) (q : Query) (d : J) :
  matches (Py.set k c q) d = holds k c d && matches (Py.remove k q) d.
Proof.
  unfold matches.
  induction q as [|[k' c'] q IH]; simpl.
  - reflexivity.
  - destruct (String.eqb k k') eqn:E; simpl.
    + reflexivity.
    + rewrite IH. 
      destruct (holds k c d), (holds k' c' d); reflexivity.
Qed.

(** *** The cursor's order *)

(** Case analysis on every integer comparison of the goal. *)
Ltac zbool :=
  repeat match goal with
         | |- context [(?x <? ?y)] => case (Z.ltb_spec x y); intro
         | |- context [(?x =? ?y)] => case (Z.eqb_spec x y); intro
         end.

Lemma lex_lt_asym (a b : list Z) :
  lex_lt a b = true -> lex_lt b a = false.
Proof.
  revert b. induction a as [|x a IH]; intros [|y b]; simpl; try reflexivity;
    try discriminate.
  intros H. apply orb_true_iff in H. apply orb_false_iff.
  destruct H as [H | H].
  - apply Z.ltb_lt in H. split.
    + apply Z.ltb_ge. lia.
    + apply andb_false_iff. left. apply Z.eqb_neq. lia.
  - apply andb_true_iff in H. destruct H as [He Hl].
    apply Z.eqb_eq in He. subst y. split.
    + apply Z.ltb_irrefl.
    + apply andb_false_iff. right. now apply IH.
Qed.

(** Whatever comes strictly before [c] comes before [b], or [b] itself
    comes before [c]. *)
Lemma lex_lt_split (a b c : list Z) :
  List.length a = List.length b -> List.length b = List.length c ->
  lex_lt a c = true -> lex_lt a b = true \/ lex_lt b c = true.
Proof.
  revert b c. induction a as [|x a IH]; intros [|y b] [|z c]; simpl;
    try discriminate.
  intros Hab Hbc H.
  injection Hab as Hab. injection Hbc as Hbc.
  apply orb_true_iff in H.
  destruct (Z.lt_trichotomy x y) as [Hxy | [Hxy | Hxy]].
  - left. apply orb_true_iff. left. now apply Z.ltb_lt.
  - subst y. destruct H as [H | H].
    + right. apply orb_true_iff. now left.
    + apply andb_true_iff in H. destruct H as [He Hl].
      apply Z.eqb_eq in He. subst z.
      destruct (IH b c Hab Hbc Hl) as [H1 | H1].
      * left. apply orb_true_iff. right.
        now rewrite Z.eqb_refl.
      * right. apply orb_true_iff. right.
        now rewrite Z.eqb_refl.
  - right. apply orb_true_iff. left. apply Z.ltb_lt.
    destruct H as [H | H].
    + apply Z.ltb_lt in H. lia.
    + apply andb_true_iff in H. destruct H as [He _].
      apply Z.eqb_eq in He. lia.
Qed.

Lemma sort_vector_length (sortby : list (string * Direction)) (a b : J) :
  List.length (sort_vector sortby a) = List.length (sort_vector sortby b).
Proof.
  induction sortby as [|[k dir] rest IH]; simpl; [reflexivity|].
  destruct (sort_key (field k a)), (sort_key (field k b)). simpl.
  now rewrite IH.
Qed.

Lemma before_asym (sortby : list (string * Direction)) (a b : J) :
  before sortby a b = true -> before sortby b a = false.
Proof. apply lex_lt_asym. Qed.

Lemma before_split (sortby : list (string * Direction)) (a b c : J) :
  before sortby a c = true ->
  before sortby a b = true \/ before sortby b c = true.
Proof. apply lex_lt_split; apply sort_vector_length. Qed.

(** *** Selection and replacement in a collection *)

Section CollectionFacts.

Variable D : Type.
Variable view : D -> J.

Lemma enum_from_In (l : list D) (s i : nat) (d : D) :
  In (i, d) (enum_from s l) <-> (s <= i)%nat /\ nth_error l (i - s) = Some d.
Proof.
  revert s. induction l as [|x l IH]; intros s; simpl.
  - split; [tauto|]. intros [_ H]. destruct (i - s)%nat; discriminate.
  - rewrite IH. split.
    + intros [H | [Hle Hn]].
      * injection H as <- <-. split; [lia|].
        now rewrite Nat.sub_diag.
      * split; [lia|].
        replace (i - s)%nat with (S (i - S s)) by lia. exact Hn.
    + intros [Hle Hn].
      destruct (Nat.eq_dec i s) as [-> | Hne].
      * left. rewrite Nat.sub_diag in Hn. simpl in Hn. now injection Hn as ->.
      * right. split; [lia|].
        replace (i - s)%nat with (S (i - S s)) in Hn by lia. exact Hn.
Qed.

Lemma pick_first_none (sortby : list (string * Direction))
  (l : list (nat * D)) :
  pick_first view sortby l = None -> l = [].
Proof.
  destruct l as [|x t]; simpl; [reflexivity|].
  destruct (pick_first view sortby t) as [y|]; [|discriminate].
  destruct (before sortby (view (snd y)) (view (snd x))); discriminate.
Qed.

Lemma pick_first_In (sortby : list (string * Direction))
  (l : list (nat * D)) (r : nat * D) :
  pick_first view sortby l = Some r -> In r l.
Proof.
  revert r. induction l as [|x t IH]; simpl; intros r H; [discriminate|].
  destruct (pick_first view sortby t) as [y|].
  - destruct (before sortby (view (snd y)) (view (snd x))).
    + injection H as <-. right. now apply IH.
    + injection H as <-. now left.
  - injection H as <-. now left.
Qed.

(** Nothing in the list comes strictly before the element picked. *)
Lemma pick_first_least (sortby : list (string * Direction))
  (l : list (nat * D)) (r : nat * D) :
  pick_first view sortby l = Some r ->
  forall x, In x l -> before sortby (view (snd x)) (view (snd r)) = false.
Proof.
  revert r. induction l as [|a t IH]; simpl; intros r H x Hx; [tauto|].
  destruct (pick_first view sortby t) as [y|] eqn:Ey.
  - destruct (before sortby (view (snd y)) (view (snd a))) eqn:Eb.
    + injection H as <-. destruct Hx as [<- | Hx].
      * now apply before_asym.
      * now apply (IH y).
    + injection H as <-. destruct Hx as [<- | Hx].
      * destruct (before sortby (view (snd a)) (view (snd a))) eqn:Ea;
          [|reflexivity].
        now rewrite (before_asym _ _ _ Ea) in Ea.
      * destruct (before sortby (view (snd x)) (view (snd a))) eqn:Ex;
          [|reflexivity].
        destruct (before_split sortby _ (view (snd y)) _ Ex) as [H1 | H1].
        -- now rewrite (IH y eq_refl x Hx) in H1.
        -- now rewrite Eb in H1.
  - injection H as <-. apply pick_first_none in Ey. subst t.
    destruct Hx as [<- | []].
    destruct (before sortby (view (snd a)) (view (snd a))) eqn:Ea;
      [|reflexivity].
    now rewrite (before_asym _ _ _ Ea) in Ea.
Qed.

(** What [find_one] selects: a matching document that no matching
    document precedes. *)
Lemma find_one_at_some (q : Query) (sortby : list (string * Direction))
  (coll : list D) (i : nat) (d : D) :
  find_one_at view q sortby coll = Some (i, d) ->
  nth_error coll i = Some d
  /\ matches q (view d) = true
  /\ forall d', In d' coll -> matches q (view d') = true ->
       before sortby (view d') (view d) = false.
Proof.
  unfold find_one_at. intros H.
  pose proof (pick_first_In _ _ H) as Hin.
  apply filter_In in Hin. destruct Hin as [Hin Hm].
  apply enum_from_In in Hin. destruct Hin as [_ Hn].
  rewrite Nat.sub_0_r in Hn. simpl in Hm.
  split; [exact Hn|]. split; [exact Hm|].
  intros d' Hd' Hm'.
  apply In_nth_error in Hd'. destruct Hd' as [j Hj].
  apply (pick_first_least _ _ H (j, d')).
  apply filter_In. split; [|exact Hm'].
  apply enum_from_In. split; [lia|]. now rewrite Nat.sub_0_r.
Qed.

Lemma find_one_at_none (q : Query) (sortby : list (string * Direction))
  (coll : list D) :
  find_one_at view q sortby coll = None ->
  forall d, In d coll -> matches q (view d) = false.
Proof.
  unfold find_one_at. intros H d Hd.
  apply pick_first_none in H.
  destruct (matches q (view d)) eqn:Em; [|reflexivity].
  apply In_nth_error in Hd. destruct Hd as [j Hj].
  assert (Hin : In (j, d)
            (filter (fun p => matches q (view (snd p))) (enum_from 0 coll))).
  { apply filter_In. split; [|exact Em].
    apply enum_from_In. split; [lia|]. now rewrite Nat.sub_0_r. }
  rewrite H in Hin. destruct Hin.
Qed.

Lemma find_one_at_is_some (q : Query) (sortby : list (string * Direction))
  (coll : list D) (d : D) :
  In d coll -> matches q (view d) = true ->
  exists r, find_one_at view q sortby coll = Some r.
Proof.
  intros Hd Hm. destruct (find_one_at view q sortby coll) as [r|] eqn:E.
  - now exists r.
  - rewrite (find_one_at_none _ _ _ E d Hd) in Hm. discriminate.
Qed.

End CollectionFacts.

Section ReplaceFacts.

Variable D : Type.

Lemma replace_at_length (i : nat) (f : D -> D) (l : list D) :
  List.length (replace_at i f l) = List.length l.
Proof.
  revert i. induction l as [|x l IH]; intros [|i]; simpl; auto.
Qed.

Lemma replace_at_same (i : nat) (f : D -> D) (l : list D) (d : D) :
  nth_error l i = Some d -> nth_error (replace_at i f l) i = Some (f d).
Proof.
  revert i. induction l as [|x l IH]; intros [|i]; simpl; try discriminate.
  - now intros [= ->].
  - apply IH.
Qed.

Lemma replace_at_other (i j : nat) (f : D -> D) (l : list D) :
  j <> i -> nth_error (replace_at i f l) j = nth_error l j.
Proof.
  revert i j. induction l as [|x l IH]; intros [|i] [|j] H; simpl;
    try reflexivity.
  - contradiction.
  - apply IH. congruence.
Qed.

(** A document of the rewritten collection is the rewritten one or was
    there before. *)
Lemma replace_at_In (i : nat) (f : D -> D) (l : list D) (x : D) :
  In x (replace_at i f l) ->
  In x l \/ exists d, nth_error l i = Some d /\ x = f d.
Proof.
  revert i. induction l as [|y l IH]; intros [|i]; simpl; try tauto.
  - intros [<- | H]; [right; now exists y | left; now right].
  - intros [<- | H]; [left; now left|].
    destruct (IH i H) as [H1 | H1]; [left; now right | now right].
Qed.

Lemma replace_at_id (i : nat) (f : D -> D) (l : list D) :
  (forall d, nth_error l i = Some d -> f d = d) -> replace_at i f l = l.
Proof.
  revert i. induction l as [|x l IH]; intros [|i] H; simpl; try reflexivity.
  - now rewrite (H x eq_refl).
  - now rewrite IH.
Qed.

(** A projection the rewriting leaves alone is the same on the whole
    collection. *)
Lemma replace_at_map (B : Type) (g : D -> B) (i : nat) (f : D -> D)
  (l : list D) :
  (forall d, g (f d) = g d) -> map g (replace_at i f l) = map g l.
Proof.
  intros H. revert i. induction l as [|x l IH]; intros [|i]; simpl;
    try reflexivity.
  - now rewrite H.
  - now rewrite IH.
Qed.

End ReplaceFacts.

(** *** Queries on firework and launch documents *)

Lemma holds_fw_state_eq (s : string) (d : FwDoc.t) :
  holds "state" (QEq (JStr s)) (FwDoc.view d) = String.eqb (FwDoc.state d) s.
Proof. cbn. now rewrite orb_false_r. Qed.

Lemma holds_fw_state_in (l : list string) (d : FwDoc.t) :
  holds "state" (QIn (map JStr l)) (FwDoc.view d)
  = Py.str_in (FwDoc.state d) l.
Proof.
  cbn. induction l as [|s l IH]; simpl; [reflexivity|].
  now rewrite IH, orb_false_r.
Qed.

Lemma holds_fw_id_eq (i : Z) (d : FwDoc.t) :
  holds "fw_id" (QEq (JInt i)) (FwDoc.view d) = (FwDoc.fw_id d =? i).
Proof. cbn. now rewrite orb_false_r. Qed.

Lemma field_fw_priority (d : FwDoc.t) :
  field "spec._priority" (FwDoc.view d) = Py.get "_priority" (FwDoc.spec d).
Proof.
  cbn. destruct (Py.get "_priority" (FwDoc.spec d)); reflexivity.
Qed.

Lemma field_fw_created_on (d : FwDoc.t) :
  field "created_on" (FwDoc.view d) = Some (JTime (FwDoc.created_on d)).
Proof. reflexivity. Qed.

Lemma holds_launch_id_eq (i : Z) (l : Launch.t) :
  holds "launch_id" (QEq (JInt i)) (Launch.view l) = (Launch.launch_id l =? i).
Proof. cbn. now rewrite orb_false_r. Qed.

Lemma holds_launch_fw_id_in (ids : list Z) (l : Launch.t) :
  holds "fw_id" (QIn (map JInt ids)) (Launch.view l)
  = Py.int_in (Launch.fw_id l) ids.
Proof.
  cbn. induction ids as [|i ids IH]; simpl; [reflexivity|].
  now rewrite IH, orb_false_r.
Qed.

(* ===================================================================== *)
(** ** Checkout *)
(* ===================================================================== *)

(** A firework in state READY that satisfies the caller's query (whose
    own [state] key, if any, the checkout overrides). *)
Definition ready_match (query : option Query) (d : FwDoc.t) : bool :=
  String.eqb (FwDoc.state d) "READY"
  && matches (Py.remove "state" (match query with Some q => q | None => [] end))
       (FwDoc.view d).

(** The sort value of [spec._priority]. *)
Definition priority (d : FwDoc.t) : Z * Z :=
  sort_key (Py.get "_priority" (FwDoc.spec d)).

(** [a] has a strictly higher sort value than [b]. *)
Definition outranks (a b : Z * Z) : Prop :=
  fst b < fst a \/ (fst b = fst a /\ snd b < snd a).

(** The ids of the fireworks stored in state READY. *)
Definition ready_ids (lp : LP.t) : list Z :=
  map FwDoc.fw_id
    (filter (fun d => String.eqb (FwDoc.state d) "READY") (LP.fireworks lp)).

(** Reserving a document adds no READY firework. *)
Lemma ready_ids_reserve (now : Z) (i : nat) (lp : LP.t) (x : Z) :
  In x (ready_ids
          (LP.with_fireworks
             (replace_at i (reserve now) (LP.fireworks lp)) lp)) ->
  In x (ready_ids lp).
Proof.
  unfold ready_ids. cbn [LP.with_fireworks LP.fireworks].
  rewrite !in_map_iff. intros [d [Hd Hin]].
  apply filter_In in Hin. destruct Hin as [Hin Hs].
  apply replace_at_In in Hin. destruct Hin as [Hin | [d0 [_ ->]]].
  - exists d. split; [exact Hd|]. apply filter_In. now split.
  - discriminate Hs.
Qed.

(** A rewrite that keeps the state and the id of the document keeps the
    READY ids. *)
Lemma ready_ids_replace_at (f : FwDoc.t -> FwDoc.t) (i : nat) (lp : LP.t) :
  (forall d, FwDoc.state (f d) = FwDoc.state d
             /\ FwDoc.fw_id (f d) = FwDoc.fw_id d) ->
  ready_ids (LP.with_fireworks (replace_at i f (LP.fireworks lp)) lp)
  = ready_ids lp.
Proof.
  intros Hf. unfold ready_ids. cbn [LP.with_fireworks LP.fireworks].
  generalize (LP.fireworks lp). intros l. revert i.
  induction l as [|x l IH]; intros [|i]; cbn [replace_at filter];
    try reflexivity.
  - destruct (Hf x) as [-> Hid].
    destruct (String.eqb (FwDoc.state x) "READY"); cbn [map];
      [now rewrite Hid | reflexivity].
  - destruct (String.eqb (FwDoc.state x) "READY"); cbn [map];
      now rewrite IH.
Qed.

Lemma matches_by_id (query : option Query) (i : Z) (d : FwDoc.t) :
  i <> 0 ->
  matches (checkout_query query (Some i)) (FwDoc.view d)
  = (FwDoc.fw_id d =? i) && Py.str_in (FwDoc.state d) ["READY"; "RESERVED"].
Proof.
  intros Hi. unfold checkout_query.
  destruct (Z.eqb_spec i 0) as [E|_]; [contradiction|].
  unfold matches. cbn [forallb fst snd].
  rewrite holds_fw_id_eq, andb_true_r.
  change [JStr "READY"; JStr "RESERVED"] with (map JStr ["READY"; "RESERVED"]).
  now rewrite holds_fw_state_in.
Qed.

Section Checkout.

Variable SORT_FWS : string.
Variable get_fw_by_id : Z -> Z -> LP.t -> Result Firework.t.
Variable _check_fw_for_uniqueness : Firework.t -> M (bool * Firework.t).

Local Abbreviation checkout :=
  (_get_a_fw_to_run SORT_FWS get_fw_by_id _check_fw_for_uniqueness).

Lemma checkout_query_matches (query : option Query) (d : FwDoc.t) :
  matches (checkout_query query None) (FwDoc.view d) = ready_match query d.
Proof.
  unfold checkout_query, ready_match.
  now rewrite matches_set, holds_fw_state_eq.
Qed.

(** The cursor's order under [sortby], spelled out: priority descending,
    then [created_on] as [SORT_FWS] says. *)
Lemma not_before_sortby (a b : FwDoc.t) :
  before (sortby SORT_FWS) (FwDoc.view a) (FwDoc.view b) = false ->
  ~ outranks (priority a) (priority b)
  /\ (priority a = priority b ->
      (Py.upper SORT_FWS = "FIFO" -> FwDoc.created_on b <= FwDoc.created_on a)
      /\ (Py.upper SORT_FWS = "FILO" ->
          FwDoc.created_on a <= FwDoc.created_on b)).
Proof.
  unfold before, sortby, outranks, priority.
  destruct (String.eqb_spec (Py.upper SORT_FWS) "FIFO") as [E1|E1];
    [|destruct (String.eqb_spec (Py.upper SORT_FWS) "FILO") as [E2|E2]];
    cbn [app sort_vector]; rewrite !field_fw_priority;
    try rewrite !field_fw_created_on;
    destruct (sort_key (Py.get "_priority" (FwDoc.spec a))) as [ra va];
    destruct (sort_key (Py.get "_priority" (FwDoc.spec b))) as [rb vb];
    cbn [sort_key signed lex_lt fst snd];
    zbool; simpl; intros Hfalse; try discriminate;
    (split;
     [ intros [Hr | [Hr Hv]]; lia
     | intros [= -> ->]; split; intros Hf; solve [lia | congruence] ]).
Qed.

Lemma reserve_one_none (m_query : Query) (lp : LP.t) :
  find_one_at FwDoc.view m_query (sortby SORT_FWS) (LP.fireworks lp) = None ->
  reserve_one SORT_FWS m_query lp = (Ok None, lp).
Proof.
  unfold reserve_one, find_one_and_update. intros ->.
  destruct lp; reflexivity.
Qed.

Lemma reserve_one_some (m_query : Query) (lp : LP.t) (i : nat) (d : FwDoc.t) :
  find_one_at FwDoc.view m_query (sortby SORT_FWS) (LP.fireworks lp)
  = Some (i, d) ->
  reserve_one SORT_FWS m_query lp
  = (Ok (Some d),
     LP.with_fireworks
       (replace_at i (reserve (LP.utcnow lp)) (LP.fireworks lp)) lp).
Proof.
  unfold reserve_one, find_one_and_update. now intros ->.
Qed.

(** One turn of the loop after a successful reservation. *)
Lemma checkout_after_reserve (fuel : nat) (query : option Query)
  (fw_id : option Z) (lp lp1 : LP.t) (d : FwDoc.t) :
  reserve_one SORT_FWS (checkout_query query fw_id) lp = (Ok (Some d), lp1) ->
  checkout (S fuel) query fw_id (-1) true lp =
  match get_fw_by_id (FwDoc.fw_id d) (-1) lp1 with
  | Raise e => Some (Raise e, lp1)
  | Ok m_fw =>
      match _check_fw_for_uniqueness m_fw lp1 with
      | (Raise e, lp2) => Some (Raise e, lp2)
      | (Ok (true, m_fw'), lp2) => Some (Ok (Some m_fw'), lp2)
      | (Ok (false, _), lp2) => checkout fuel query fw_id (-1) true lp2
      end
  end.
Proof.
  intros Hr. unfold _get_a_fw_to_run. cbn [while_true].
  unfold checkout_turn, bind at 1. rewrite Hr.
  unfold bind, read.
  destruct (get_fw_by_id (FwDoc.fw_id d) (-1) lp1) as [m_fw|e]; [|reflexivity].
  destruct (_check_fw_for_uniqueness m_fw lp1) as [[[[] m_fw']|e] lp2];
    reflexivity.
Qed.

(** C1.  A checkout without a specific [fw_id] either finds no READY
    firework matching the caller's query, returns [None] and writes
    nothing; or it selects, in one find-and-modify step, a READY matching
    document that no READY matching document precedes in the order
    'priority descending, then [created_on] ascending for FIFO, descending
    for FILO', and that step rewrites exactly this document, setting its
    state to RESERVED and its [updated_on] to the current time. *)
Theorem checkout_reserves_first_ready (query : option Query) (lp : LP.t)
  (fuel : nat) :
  let coll := LP.fireworks lp in
  let now := LP.utcnow lp in
  ((forall d, In d coll -> ready_match query d = false)
   /\ checkout (S fuel) query None (-1) true lp = Some (Ok None, lp))
  \/
  (exists i d,
      nth_error coll i = Some d
      /\ FwDoc.state d = "READY"
      /\ ready_match query d = true
      /\ (forall d', In d' coll -> ready_match query d' = true ->
            ~ outranks (priority d') (priority d)
            /\ (priority d' = priority d ->
                (Py.upper SORT_FWS = "FIFO" ->
                 FwDoc.created_on d <= FwDoc.created_on d')
                /\ (Py.upper SORT_FWS = "FILO" ->
                    FwDoc.created_on d' <= FwDoc.created_on d)))
      /\ let lp1 := LP.with_fireworks (replace_at i (reserve now) coll) lp in
         reserve_one SORT_FWS (checkout_query query None) lp
         = (Ok (Some d), lp1)
         /\ nth_error (LP.fireworks lp1) i
            = Some (FwDoc.mk (FwDoc.fw_id d) "RESERVED" (FwDoc.created_on d)
                      now (FwDoc.spec d) (FwDoc.launches d))
         /\ (forall j, j <> i ->
               nth_error (LP.fireworks lp1) j = nth_error coll j)
         /\ checkout (S fuel) query None (-1) true lp =
            match get_fw_by_id (FwDoc.fw_id d) (-1) lp1 with
            | Raise e => Some (Raise e, lp1)
            | Ok m_fw =>
                match _check_fw_for_uniqueness m_fw lp1 with
                | (Raise e, lp2) => Some (Raise e, lp2)
                | (Ok (true, m_fw'), lp2) => Some (Ok (Some m_fw'), lp2)
                | (Ok (false, _), lp2) =>
                    checkout fuel query None (-1) true lp2
                end
            end).
Proof.
  intros coll now.
  destruct (find_one_at FwDoc.view (checkout_query query None)
              (sortby SORT_FWS) coll) as [[i d]|] eqn:E.
  - right. exists i, d.
    destruct (find_one_at_some _ _ _ _ E) as [Hn [Hm Hleast]].
    rewrite checkout_query_matches in Hm.
    pose proof (reserve_one_some _ _ E) as Hr.
    split; [exact Hn|]. split.
    { unfold ready_match in Hm. apply andb_true_iff in Hm.
      now apply String.eqb_eq. }
    split; [exact Hm|]. split.
    { intros d' Hd' Hm'. apply not_before_sortby. apply Hleast; [exact Hd'|].
      now rewrite checkout_query_matches. }
    cbv zeta. split; [exact Hr|]. split.
    { cbn [LP.with_fireworks LP.fireworks].
      now rewrite (replace_at_same _ (reserve now) _ Hn). }
    split.
    { intros j Hj. cbn [LP.with_fireworks LP.fireworks].
      now apply replace_at_other. }
    now apply checkout_after_reserve.
  - left. split.
    + intros d Hd. rewrite <- checkout_query_matches.
      eapply find_one_at_none; [exact E | exact Hd].
    + unfold _get_a_fw_to_run. cbn [while_true].
      unfold checkout_turn, bind.
      now rewrite (reserve_one_none _ _ E).
Qed.

(** What the find-and-modify of the checkout can do. *)
Lemma reserve_one_inv (m_query : Query) (lp lp1 : LP.t)
  (r : Result (option FwDoc.t)) :
  reserve_one SORT_FWS m_query lp = (r, lp1) ->
  (r = Ok None /\ lp1 = lp)
  \/ exists i d,
       r = Ok (Some d)
       /\ nth_error (LP.fireworks lp) i = Some d
       /\ matches m_query (FwDoc.view d) = true
       /\ lp1 = LP.with_fireworks
                  (replace_at i (reserve (LP.utcnow lp)) (LP.fireworks lp)) lp.
Proof.
  destruct (find_one_at FwDoc.view m_query (sortby SORT_FWS)
              (LP.fireworks lp)) as [[i d]|] eqn:E.
  - rewrite (reserve_one_some _ _ E). intros [= <- <-]. right. exists i, d.
    destruct (find_one_at_some _ _ _ _ E) as [Hn [Hm _]]. auto.
  - rewrite (reserve_one_none _ _ E). intros [= <- <-]. now left.
Qed.

(** A turn of the loop that finds no document ends the call. *)
Lemma checkout_after_none (fuel : nat) (query : option Query)
  (fw_id : option Z) (lp : LP.t) :
  reserve_one SORT_FWS (checkout_query query fw_id) lp = (Ok None, lp) ->
  checkout (S fuel) query fw_id (-1) true lp = Some (Ok None, lp).
Proof.
  intros Hr. unfold _get_a_fw_to_run. cbn [while_true].
  unfold checkout_turn, bind at 1. now rewrite Hr.
Qed.

(** Without a specific [fw_id], a firework whose id is not among the
    READY ones is not reserved again, as long as the check puts no
    firework back to READY. *)
Lemma checkout_returns_other (query : option Query) (avoid : Z) :
  (forall c lpa i,
      In i (ready_ids (snd (_check_fw_for_uniqueness c lpa))) ->
      In i (ready_ids lpa)) ->
  forall n lp r lp3,
    ~ In avoid (ready_ids lp) ->
    checkout n query None (-1) true lp = Some (Ok (Some r), lp3) ->
    exists d' lpa lpb c,
      reserve_one SORT_FWS (checkout_query query None) lpa
      = (Ok (Some d'), lpb)
      /\ FwDoc.fw_id d' <> avoid
      /\ get_fw_by_id (FwDoc.fw_id d') (-1) lpb = Ok c
      /\ _check_fw_for_uniqueness c lpb = (Ok (true, r), lp3).
Proof.
  intros Hcheck. induction n as [|n IH]; intros lp r lp3 Hav H;
    [discriminate|].
  destruct (reserve_one SORT_FWS (checkout_query query None) lp)
    as [res lp1] eqn:Er.
  destruct (reserve_one_inv _ _ Er) as [[-> ->] | [i [d' [-> [Hn [Hm ->]]]]]].
  - rewrite (@checkout_after_none n query None lp Er) in H. discriminate.
  - rewrite (checkout_after_reserve n query None lp Er) in H.
    destruct (get_fw_by_id (FwDoc.fw_id d') (-1) _) as [c|e] eqn:Eg;
      [|discriminate].
    destruct (_check_fw_for_uniqueness c _) as [[[[] c']|e] lp2] eqn:Ec.
    + injection H as <- <-. eexists d', lp, _, c.
      split; [exact Er|]. split; [|split; [exact Eg | exact Ec]].
      intros Heq. apply Hav. unfold ready_ids. apply in_map_iff.
      exists d'. split; [exact Heq|]. apply filter_In.
      split; [now apply nth_error_In with (n := i)|].
      rewrite checkout_query_matches in Hm. unfold ready_match in Hm.
      now apply andb_true_iff in Hm.
    + apply (IH lp2); [|exact H]. intros Hin. apply Hav.
      apply (ready_ids_reserve (LP.utcnow lp) i lp).
      apply (Hcheck c). rewrite Ec. exact Hin.
    + discriminate.
Qed.

(** With a specific [fw_id], only that firework is ever reserved. *)
Lemma checkout_returns_same (query : option Query) (i : Z) :
  i <> 0 ->
  forall n lp r lp3,
    checkout n query (Some i) (-1) true lp = Some (Ok (Some r), lp3) ->
    exists d' lpa lpb c,
      reserve_one SORT_FWS (checkout_query query (Some i)) lpa
      = (Ok (Some d'), lpb)
      /\ FwDoc.fw_id d' = i
      /\ get_fw_by_id i (-1) lpb = Ok c
      /\ _check_fw_for_uniqueness c lpb = (Ok (true, r), lp3).
Proof.
  intros Hi. induction n as [|n IH]; intros lp r lp3 H; [discriminate|].
  destruct (reserve_one SORT_FWS (checkout_query query (Some i)) lp)
    as [res lp1] eqn:Er.
  destruct (reserve_one_inv _ _ Er) as [[-> ->] | [k [d' [-> [Hn [Hm ->]]]]]].
  - rewrite (@checkout_after_none n query (Some i) lp Er) in H. discriminate.
  - rewrite (checkout_after_reserve n query (Some i) lp Er) in H.
    rewrite matches_by_id in Hm by exact Hi.
    apply andb_true_iff in Hm. destruct Hm as [Hid _].
    apply Z.eqb_eq in Hid. rewrite Hid in H.
    destruct (get_fw_by_id i (-1) _) as [c|e] eqn:Eg; [|discriminate].
    destruct (_check_fw_for_uniqueness c _) as [[[[] c']|e] lp2] eqn:Ec.
    + injection H as <- <-. eexists d', lp, _, c.
      split; [exact Er|]. split; [exact Hid|]. split; [exact Eg | exact Ec].
    + now apply (IH lp2).
    + discriminate.
Qed.

(** C2, as the code has it.  A checkout without a specific [fw_id]
    reserves a candidate and the uniqueness check reports it a duplicate:
    the call does not return it but goes on, from the launchpad as the
    check left it, to the next turn of its loop.  The candidate is
    RESERVED by then and the query asks for READY: provided no READY
    firework shares its id and the check puts no firework back to READY,
    whatever firework the call returns was reserved under a different
    id, fetched for that id, and reported unique by the check.  A
    checkout for a specific [fw_id] asks for READY or RESERVED: whatever
    it returns was reserved and fetched under that very id and reported
    unique by the check, so that after a duplicate verdict it can only
    come back to the same firework. *)
Theorem checkout_skips_duplicates (fuel : nat) (query : option Query)
  (lp lp1 lp2 : LP.t) (d : FwDoc.t) (m_fw m_fw' : Firework.t) :
  reserve_one SORT_FWS (checkout_query query None) lp = (Ok (Some d), lp1) ->
  get_fw_by_id (FwDoc.fw_id d) (-1) lp1 = Ok m_fw ->
  _check_fw_for_uniqueness m_fw lp1 = (Ok (false, m_fw'), lp2) ->
  ~ In (FwDoc.fw_id d) (ready_ids lp1) ->
  (forall c lpa i,
      In i (ready_ids (snd (_check_fw_for_uniqueness c lpa))) ->
      In i (ready_ids lpa)) ->
  checkout (S fuel) query None (-1) true lp
  = checkout fuel query None (-1) true lp2
  /\ (forall n r lp3,
        checkout n query None (-1) true lp = Some (Ok (Some r), lp3) ->
        exists d' lpa lpb c,
          reserve_one SORT_FWS (checkout_query query None) lpa
          = (Ok (Some d'), lpb)
          /\ FwDoc.fw_id d' <> FwDoc.fw_id d
          /\ get_fw_by_id (FwDoc.fw_id d') (-1) lpb = Ok c
          /\ _check_fw_for_uniqueness c lpb = (Ok (true, r), lp3))
  /\ (forall i n lpx r lp3,
        i <> 0 ->
        checkout n query (Some i) (-1) true lpx = Some (Ok (Some r), lp3) ->
        exists d' lpa lpb c,
          reserve_one SORT_FWS (checkout_query query (Some i)) lpa
          = (Ok (Some d'), lpb)
          /\ FwDoc.fw_id d' = i
          /\ get_fw_by_id i (-1) lpb = Ok c
          /\ _check_fw_for_uniqueness c lpb = (Ok (true, r), lp3)).
Proof.
  intros Hr Hg Hc Hnot Hcheck.
  assert (Hstep : forall n,
             checkout (S n) query None (-1) true lp
             = checkout n query None (-1) true lp2).
  { intros n. rewrite (checkout_after_reserve n query None lp Hr), Hg, Hc.
    reflexivity. }
  split; [apply Hstep|]. split.
  - intros [|n] r lp3 H; [discriminate|]. rewrite Hstep in H.
    apply (@checkout_returns_other query (FwDoc.fw_id d) Hcheck n lp2);
      [|exact H].
    intros Hin. apply Hnot. apply (Hcheck m_fw). rewrite Hc. exact Hin.
  - intros i n lpx r lp3 Hi H.
    now apply (@checkout_returns_same query i Hi n lpx).
Qed.

End Checkout.

(* ===================================================================== *)
(** ** The worker's query *)
(* ===================================================================== *)

(** The worker-affinity test on a firework: its spec names no worker
    ([_fworker] absent or null) or names this one. *)
Definition affinity (name : J) (d : FwDoc.t) : bool :=
  match Py.get "_fworker" (FwDoc.spec d) with
  | None => true
  | Some v => eq_match (Some v) JNull || eq_match (Some v) name
  end.

Lemma remove_absent (V : Type) (k : string) (d : list (string * V)) :
  Py.get k d = None -> Py.remove k d = d.
Proof.
  induction d as [|[k' v] d IH]; simpl; [reflexivity|].
  destruct (String.eqb k k'); [discriminate|].
  intros H. now rewrite IH.
Qed.

Lemma holds_fworker_check (fworker : FWorker.t) (d : FwDoc.t) :
  holds "$or" (QList (fworker_check fworker)) (FwDoc.view d)
  = affinity (FWorker.name fworker) d.
Proof.
  rewrite holds_or. unfold fworker_check, affinity, matches.
  cbn [existsb forallb fst snd holds].
  replace (field "spec._fworker" (FwDoc.view d))
    with (Py.get "_fworker" (FwDoc.spec d))
    by (cbn; now destruct (Py.get "_fworker" (FwDoc.spec d))).
  destruct (Py.get "_fworker" (FwDoc.spec d)) as [v|]; cbn.
  - now rewrite !andb_true_r, orb_false_r.
  - reflexivity.
Qed.

(** With no category configured and no [$or] in the worker's own query,
    the query built is that query conjoined with the affinity test. *)
Lemma worker_query_without_category (fworker : FWorker.t) :
  Py.truthy (FWorker.category fworker) = false ->
  Py.get "$or" (FWorker.query fworker) = None ->
  exists q,
    worker_query fworker = Ok q
    /\ forall d,
         matches q (FwDoc.view d)
         = affinity (FWorker.name fworker) d
           && matches (FWorker.query fworker) (FwDoc.view d).
Proof.
  intros Hc Hor. unfold worker_query. rewrite Hor, Hc. cbn [rbind].
  eexists. split; [reflexivity|].
  intros d. now rewrite matches_set, holds_fworker_check, remove_absent.
Qed.

(** Once a category is configured, no query is built at all. *)
Lemma worker_query_category_fails (fworker : FWorker.t) :
  Py.truthy (FWorker.category fworker) = true ->
  worker_query fworker = Raise (NameError "six")
  \/ worker_query fworker = Raise (AttributeError "extend").
Proof.
  intros Hc. unfold worker_query. rewrite Hc.
  destruct (Py.get "$or" (FWorker.query fworker)) as [o|].
  - destruct (Py.get "$and" (FWorker.query fworker)) as [[]|];
      cbn; auto.
  - cbn. auto.
Qed.

(** C3, where the code departs from it.  For a worker that declares a
    category (a single one, the marker [__none__], or a list)
    [worker_query] builds no query: the test of the category's type
    refers to [six], which the module never imports, and the call ends in
    [NameError]. *)
Theorem worker_query_with_category_raises :
  worker_query (FWorker.mk (JStr "w1") (JStr "gpu") [])
  = Raise (NameError "six")
  /\ worker_query (FWorker.mk (JStr "w1") (JStr "__none__") [])
     = Raise (NameError "six")
  /\ worker_query (FWorker.mk (JStr "w1") (JList [JStr "gpu"; JStr "cpu"]) [])
     = Raise (NameError "six").
Proof. repeat split; reflexivity. Qed.

(* ===================================================================== *)
(** ** Timed-out launches *)
(* ===================================================================== *)

(** A launch whose current state is [s] and whose history has an entry
    for [s] stamped at or before [cutoff]. *)
Definition timed_out (s : string) (cutoff : Z) (l : Launch.t) : Prop :=
  Launch.state l = s
  /\ exists h, In h (Launch.state_history l)
               /\ Hist.state h = s /\ Hist.updated_on h <= cutoff.

(** The restriction an extra query puts on the firework ids reported:
    the id is that of a firework matching the query. *)
Definition admitted (query : option Query) (lp : LP.t) (fid : Z) : Prop :=
  match query with
  | Some (c :: rest) =>
      exists d, In d (LP.fireworks lp)
                /\ matches (c :: rest) (FwDoc.view d) = true
                /\ FwDoc.fw_id d = fid
  | _ => True
  end.

Lemma matches_hist_entry (s : string) (cutoff : Z) (h : Hist.t) :
  matches [("state", QEq (JStr s)); ("updated_on", QLte (JTime cutoff))]
    (Hist.view h)
  = String.eqb (Hist.state h) s && (Hist.updated_on h <=? cutoff).
Proof. cbn. now rewrite !orb_false_r, andb_true_r. Qed.

Lemma matches_lostruns (s : string) (cutoff : Z) (l : Launch.t) :
  matches (lostruns_query s cutoff) (Launch.view l) = true
  <-> timed_out s cutoff l.
Proof.
  unfold lostruns_query, matches, timed_out.
  cbn [forallb fst snd]. rewrite holds_elem_match.
  replace (field "state_history" (Launch.view l))
    with (Some (JList (map Hist.view (Launch.state_history l))))
    by reflexivity.
  replace (holds "state" (QEq (JStr s)) (Launch.view l))
    with (String.eqb (Launch.state l) s)
    by (cbn; now rewrite orb_false_r).
  rewrite andb_true_r, andb_true_iff, String.eqb_eq, existsb_exists.
  split; intros [Hs [x [Hx Hm]]]; (split; [exact Hs|]).
  - apply in_map_iff in Hx. destruct Hx as [h [<- Hh]].
    rewrite matches_hist_entry in Hm. apply andb_true_iff in Hm.
    destruct Hm as [H1 H2]. exists h.
    apply String.eqb_eq in H1. apply Z.leb_le in H2. auto.
  - destruct Hm as [H1 H2]. exists (Hist.view x). split.
    + now apply in_map.
    + rewrite matches_hist_entry. apply andb_true_iff.
      split; [now apply String.eqb_eq | now apply Z.leb_le].
Qed.

(** C8.  [_find_timeout_fws] returns, without repetition, exactly the
    firework ids of the launches whose current state is [state] and whose
    history holds an entry for [state] stamped at or before now minus the
    expiration window, among the fireworks the extra query admits when
    one is given.  In particular a firework whose only launch was
    reserved at time [T] and not touched since is reported for a window
    of 60 exactly from time [T + 60] on. *)
Theorem find_timeout_fws_exact (state : string) (expiration_secs : Z)
  (query : option Query) (lp : LP.t) :
  NoDup (_find_timeout_fws state expiration_secs query lp)
  /\ (forall fid,
        In fid (_find_timeout_fws state expiration_secs query lp)
        <-> admitted query lp fid
            /\ exists l, In l (LP.launches lp)
                         /\ Launch.fw_id l = fid
                         /\ timed_out state (LP.utcnow lp - expiration_secs) l)
  /\ (forall T l,
        In l (LP.launches lp) ->
        Launch.state l = "RESERVED" ->
        Launch.state_history l = [Hist.mk "RESERVED" T T] ->
        (forall l', In l' (LP.launches lp) ->
                    Launch.fw_id l' = Launch.fw_id l -> l' = l) ->
        (In (Launch.fw_id l) (_find_timeout_fws "RESERVED" 60 None lp)
         <-> T + 60 <= LP.utcnow lp)).
Proof.
  assert (Hgen : forall s e qr fid,
             In fid (_find_timeout_fws s e qr lp)
             <-> admitted qr lp fid
                 /\ exists l, In l (LP.launches lp)
                              /\ Launch.fw_id l = fid
                              /\ timed_out s (LP.utcnow lp - e) l).
  { intros s e qr fid. unfold _find_timeout_fws, py_set, find.
    rewrite nodup_In, in_map_iff.
    destruct qr as [[|c rest]|]; cbn [admitted].
    - split.
      + intros [l [Hf Hl]]. apply filter_In in Hl. destruct Hl as [Hl Hm].
        apply matches_lostruns in Hm. split; [exact I|]. now exists l.
      + intros [_ [l [Hl [Hf Ht]]]]. exists l. split; [exact Hf|].
        apply filter_In. split; [exact Hl|]. now apply matches_lostruns.
    - split.
      + intros [l [Hf Hl]]. apply filter_In in Hl. destruct Hl as [Hl Hm].
        rewrite matches_set, holds_launch_fw_id_in in Hm.
        apply andb_true_iff in Hm. destruct Hm as [Hi Hm].
        change (Py.remove "fw_id" (lostruns_query s (LP.utcnow lp - e)))
          with (lostruns_query s (LP.utcnow lp - e)) in Hm.
        apply matches_lostruns in Hm.
        apply int_in_In, in_map_iff in Hi. destruct Hi as [d [Hd Hin]].
        apply filter_In in Hin. destruct Hin as [Hin Hq].
        split; [|now exists l].
        exists d. repeat split; [exact Hin | exact Hq | congruence].
      + intros [[d [Hd [Hq Hdf]]] [l [Hl [Hf Ht]]]]. exists l.
        split; [exact Hf|]. apply filter_In. split; [exact Hl|].
        rewrite matches_set, holds_launch_fw_id_in. apply andb_true_iff.
        split.
        * apply int_in_In, in_map_iff. exists d. split; [congruence|].
          apply filter_In. now split.
        * change (Py.remove "fw_id" (lostruns_query s (LP.utcnow lp - e)))
            with (lostruns_query s (LP.utcnow lp - e)).
          now apply matches_lostruns.
    - split.
      + intros [l [Hf Hl]]. apply filter_In in Hl. destruct Hl as [Hl Hm].
        apply matches_lostruns in Hm. split; [exact I|]. now exists l.
      + intros [_ [l [Hl [Hf Ht]]]]. exists l. split; [exact Hf|].
        apply filter_In. split; [exact Hl|]. now apply matches_lostruns. }
  split; [apply NoDup_nodup|]. split; [apply Hgen|].
  intros T l Hl Hs Hh Huniq. rewrite Hgen. cbn [admitted]. split.
  - intros [_ [l' [Hl' [Hf [_ [h [Hin [_ Hle]]]]]]]].
    rewrite (Huniq l' Hl' Hf), Hh in Hin.
    destruct Hin as [<- | []]. cbn in Hle. lia.
  - intros Hle. split; [exact I|]. exists l.
    split; [exact Hl|]. split; [reflexivity|]. split; [exact Hs|].
    exists (Hist.mk "RESERVED" T T). rewrite Hh.
    split; [now left|]. split; [reflexivity|]. cbn. lia.
Qed.

(* ===================================================================== *)
(** ** Duplicate merging *)
(* ===================================================================== *)

(** The firework with [ls] appended to its launch list and nothing else
    changed. *)
Definition add_launches (ls : list Launch.t) (fw : Firework.t) : Firework.t :=
  Firework.mk (Firework.fw_id fw) (Firework.state fw) (Firework.created_on fw)
    (Firework.updated_on fw) (Firework.spec fw) (Firework.launch fw)
    (Firework.launch_idx fw) (Firework.launches fw ++ ls).

Definition launch_ids_of (fw : Firework.t) : list Z :=
  map Launch.launch_id (Firework.launches fw).

(** A potential match counts as verified in two cases: the duplicate
    finder does not implement [verify], which it shows by raising
    [NotImplementedError] on two empty specs; or [verify], called on the
    thief's spec and the candidate's, answers yes.  The property is
    stated on the answers of the duplicate finder alone. *)
Definition verified_match (m_dupefinder : DupeFinder) (thief_spec : Dict)
  (potential_match : FwDoc.t) : Prop :=
  df_verify m_dupefinder [] [] = Raise NotImplementedError
  \/ df_verify m_dupefinder thief_spec (FwDoc.spec potential_match) = Ok true.

(** The test the loop makes is the first of the two cases. *)
Lemma verify_skipped_iff (m_dupefinder : DupeFinder) :
  verify_skipped m_dupefinder = true
  <-> df_verify m_dupefinder [] [] = Raise NotImplementedError.
Proof.
  unfold verify_skipped.
  destruct (df_verify m_dupefinder [] []) as [b|e]; [split; discriminate|].
  destruct e; split; intros H; try discriminate H; reflexivity.
Qed.

(** What the loop computes for a candidate decides [verified_match]. *)
Lemma verified_match_iff (m_dupefinder : DupeFinder) (thief_spec : Dict)
  (potential_match : FwDoc.t) (r : Result bool) :
  (if verify_skipped m_dupefinder then Ok true
   else df_verify m_dupefinder thief_spec (FwDoc.spec potential_match)) = r ->
  verified_match m_dupefinder thief_spec potential_match <-> r = Ok true.
Proof.
  unfold verified_match. intros <-.
  destruct (verify_skipped m_dupefinder) eqn:Es.
  - apply verify_skipped_iff in Es. tauto.
  - split; [|now right]. intros [Hp | Hv]; [|exact Hv].
    apply verify_skipped_iff in Hp. congruence.
Qed.

Lemma add_launches_nil (fw : Firework.t) : add_launches [] fw = fw.
Proof. destruct fw. unfold add_launches. cbn. now rewrite app_nil_r. Qed.

Lemma add_launches_app (a b : list Launch.t) (fw : Firework.t) :
  add_launches b (add_launches a fw) = add_launches (a ++ b) fw.
Proof. unfold add_launches. cbn. now rewrite app_assoc. Qed.

Lemma take_launches_eq (valuable : list Launch.t) (b : bool)
  (fw : Firework.t) :
  take_launches valuable (b, fw)
  = (b || match valuable with [] => false | _ => true end,
     add_launches valuable fw).
Proof.
  unfold take_launches. revert b fw.
  induction valuable as [|l v IH]; intros b fw; cbn [fold_left snd].
  - now rewrite orb_false_r, add_launches_nil.
  - rewrite IH. rewrite orb_true_r.
    change (Firework.append_launch l fw) with (add_launches [l] fw).
    rewrite add_launches_app. reflexivity.
Qed.

Lemma valuable_launches_In (thief_fw victim_fw : Firework.t) (l : Launch.t) :
  In l (valuable_launches thief_fw victim_fw)
  <-> In l (Firework.launches victim_fw)
      /\ ~ In (Launch.launch_id l) (launch_ids_of thief_fw).
Proof.
  unfold valuable_launches. rewrite filter_In, negb_true_iff.
  rewrite <- not_true_iff_false, int_in_In. reflexivity.
Qed.

(** Filtering keeps a list free of repeated keys. *)
Lemma filter_keeps_distinct_keys (A B : Type) (key : A -> B)
  (keep : A -> bool) (xs : list A) (Hxs : NoDup (map key xs)) :
  NoDup (map key (filter keep xs)).
Proof.
  induction xs as [|x xs IH]; cbn; [constructor|].
  cbn in Hxs. apply NoDup_cons_iff in Hxs. destruct Hxs as [Hx Hrest].
  destruct (keep x); cbn; [|now apply IH].
  apply NoDup_cons; [|now apply IH].
  intros Hin. apply Hx. apply in_map_iff in Hin.
  destruct Hin as [y [Hy Hin]]. apply filter_In in Hin.
  apply in_map_iff. exists y. tauto.
Qed.

Lemma NoDup_app_disjoint (A : Type) (a b : list A) :
  NoDup a -> NoDup b -> (forall x, In x b -> ~ In x a) -> NoDup (a ++ b).
Proof.
  induction a as [|x a IH]; cbn; intros Ha Hb Hd; [exact Hb|].
  inversion Ha as [|? ? Hx Ha']; subst. constructor.
  - intros Hin. apply in_app_or in Hin. destruct Hin as [Hin | Hin].
    + contradiction.
    + apply (Hd x Hin). now left.
  - apply IH; [exact Ha' | exact Hb|].
    intros y Hy Hin. apply (Hd y Hy). now right.
Qed.

Section Steal.

Variable get_fw_by_id : Z -> Z -> LP.t -> Result Firework.t.
Variable load_dupefinder : J -> DupeFinder.

Local Abbreviation steal := (_steal_launches get_fw_by_id load_dupefinder).

(** A potential match the loop verifies: a document the duplicate
    finder's query returns, for which the verification answers yes. *)
Definition verified_candidate (thief_fw : Firework.t) (lp : LP.t)
  (potential_match : FwDoc.t) : Prop :=
  exists o,
    Py.get "_dupefinder" (Firework.spec thief_fw) = Some o
    /\ In potential_match
         (find FwDoc.view
            (df_query (load_dupefinder o) (Firework.spec thief_fw))
            (LP.fireworks lp))
    /\ verified_match (load_dupefinder o) (Firework.spec thief_fw)
         potential_match.

Lemma steal_loop_spec (df : DupeFinder) (lp : LP.t)
  (potential : list FwDoc.t) :
  forall (b : bool) (t : Firework.t) (b' : bool) (t' : Firework.t),
    steal_loop get_fw_by_id df potential lp (b, t) = Ok (b', t') ->
    exists added,
      t' = add_launches added t
      /\ b' = b || match added with [] => false | _ => true end
      /\ (forall l, In l added ->
            ~ In (Launch.launch_id l) (launch_ids_of t)
            /\ exists pm victim,
                 In pm potential
                 /\ verified_match df (Firework.spec t) pm
                 /\ get_fw_by_id (FwDoc.fw_id pm) (-1) lp = Ok victim
                 /\ In l (Firework.launches victim))
      /\ (forall pm victim l,
            In pm potential ->
            verified_match df (Firework.spec t) pm ->
            get_fw_by_id (FwDoc.fw_id pm) (-1) lp = Ok victim ->
            In l (Firework.launches victim) ->
            In (Launch.launch_id l) (launch_ids_of t'))
      /\ (NoDup (launch_ids_of t) ->
          (forall pm victim,
              In pm potential ->
              get_fw_by_id (FwDoc.fw_id pm) (-1) lp = Ok victim ->
              NoDup (launch_ids_of victim)) ->
          NoDup (launch_ids_of t'))
      /\ (forall pm victim,
            potential = [pm] ->
            verified_match df (Firework.spec t) pm ->
            get_fw_by_id (FwDoc.fw_id pm) (-1) lp = Ok victim ->
            added = valuable_launches t victim).
Proof.
  induction potential as [|pm rest IH]; intros b t b' t' H;
    cbn [steal_loop snd] in H.
  - injection H as <- <-. exists []. rewrite add_launches_nil, orb_false_r.
    split; [reflexivity|]. split; [reflexivity|].
    split; [intros a []|]. split; [intros ? ? ? []|].
    split; [intros Hn _; exact Hn|]. intros; discriminate.
  - destruct (if verify_skipped df then Ok true
              else df_verify df (Firework.spec t) (FwDoc.spec pm))
      as [[|]|e] eqn:Ev; cbn [rbind] in H; [| |discriminate].
    + destruct (get_fw_by_id (FwDoc.fw_id pm) (-1) lp) as [victim|e] eqn:Eg;
        cbn [rbind] in H; [|discriminate].
      rewrite take_launches_eq in H. apply IH in H.
      destruct H as [added [Ht [Hb [Hsound [Hcompl [Hnd Hone]]]]]].
      set (v := valuable_launches t victim) in *.
      assert (Hver : verified_match df (Firework.spec t) pm).
      { now apply (verified_match_iff _ _ _ Ev). }
      exists (v ++ added). rewrite add_launches_app in Ht.
      split; [exact Ht|]. split.
      { rewrite Hb. destruct v, added; cbn;
          now rewrite ?orb_true_r, ?orb_false_r. }
      split.
      { intros l Hl. apply in_app_or in Hl. destruct Hl as [Hl | Hl].
        - apply valuable_launches_In in Hl. destruct Hl as [Hl Hn].
          split; [exact Hn|]. exists pm, victim.
          repeat split; [now left | exact Hver | exact Eg | exact Hl].
        - destruct (Hsound l Hl) as [Hn [pm' [victim' [Hp [Hv [Hg Hi]]]]]].
          split.
          + intros Hin. apply Hn. unfold launch_ids_of, add_launches.
            cbn. rewrite map_app. apply in_or_app. now left.
          + exists pm', victim'. repeat split; auto. now right. }
      split.
      { intros pm' victim' l [<- | Hp] Hv Hg Hl.
        - rewrite Eg in Hg. injection Hg as <-. subst t'.
          unfold launch_ids_of, add_launches. cbn [Firework.launches].
          rewrite map_app.
          destruct (in_dec Z.eq_dec (Launch.launch_id l) (launch_ids_of t))
            as [Hin | Hnin].
          + apply in_or_app. now left.
          + apply in_or_app. right. rewrite map_app. apply in_or_app. left.
            apply in_map. now apply valuable_launches_In.
        - now apply (Hcompl pm' victim' l). }
      split.
      { intros Hndt Hndv. apply Hnd.
        - unfold launch_ids_of, add_launches. cbn [Firework.launches].
          rewrite map_app. apply NoDup_app_disjoint; [exact Hndt| |].
          + apply filter_keeps_distinct_keys. apply (Hndv pm victim); [now left|exact Eg].
          + intros x Hx. apply in_map_iff in Hx. destruct Hx as [l [<- Hl]].
            now apply valuable_launches_In in Hl.
        - intros pm' victim' Hp. apply Hndv. now right. }
      intros pm' victim' Heq _ Hg. injection Heq as <- ->.
      rewrite Eg in Hg. injection Hg as <-.
      destruct added as [|a added]; [now rewrite app_nil_r|].
      destruct (Hsound a (or_introl eq_refl)) as [_ [? [? [[] _]]]].
    + apply IH in H.
      destruct H as [added [Ht [Hb [Hsound [Hcompl [Hnd Hone]]]]]].
      assert (Hver : ~ verified_match df (Firework.spec t) pm).
      { intros Hv. apply (verified_match_iff _ _ _ Ev) in Hv.
        discriminate. }
      exists added. split; [exact Ht|]. split; [exact Hb|]. split.
      { intros l Hl.
        destruct (Hsound l Hl) as [Hn [pm' [victim' [Hp [Hv [Hg Hi]]]]]].
        split; [exact Hn|]. exists pm', victim'. repeat split; auto.
        now right. }
      split.
      { intros pm' victim' l [<- | Hp] Hv Hg Hl; [contradiction|].
        now apply (Hcompl pm' victim' l). }
      split.
      { intros Hndt Hndv. apply Hnd; [exact Hndt|].
        intros pm' victim' Hp. apply Hndv. now right. }
      intros pm' victim' Heq Hv _. injection Heq as <- ->. contradiction.
Qed.

(** C9.  For a thief in state READY or RESERVED whose spec declares a
    [_dupefinder], [_steal_launches] changes nothing but the thief's
    launch list, to which it appends launches of verified candidates
    only -- the documents the duplicate finder's query returns for which
    the finder leaves [verify] unimplemented or [verify] answers yes:
    each appended launch belongs to a verified victim and its
    [launch_id] was not in the thief's list; every launch of every
    verified victim ends up in the list by its [launch_id]; a list free
    of repeated ids stays so; with a single verified candidate the
    launches appended are exactly the victim's launches whose id the
    thief did not hold.  The flag returned is true if and only if at
    least one launch was appended.  A thief in another state or without
    a duplicate finder is returned unchanged with the flag false.  The
    call only reads the store: the launches are shared with the victim,
    none is written or created. *)
Theorem steal_launches_merges (thief_fw : Firework.t) (lp : LP.t)
  (stolen : bool) (thief' : Firework.t) :
  steal thief_fw lp = Ok (stolen, thief') ->
  exists added,
    thief' = add_launches added thief_fw
    /\ (stolen = true <-> added <> [])
    /\ (Py.str_in (Firework.state thief_fw) ["READY"; "RESERVED"] = false
        \/ Py.get "_dupefinder" (Firework.spec thief_fw) = None ->
        added = [])
    /\ (forall l, In l added ->
          ~ In (Launch.launch_id l) (launch_ids_of thief_fw)
          /\ exists pm victim,
               verified_candidate thief_fw lp pm
               /\ get_fw_by_id (FwDoc.fw_id pm) (-1) lp = Ok victim
               /\ In l (Firework.launches victim))
    /\ (forall pm victim l,
          Py.str_in (Firework.state thief_fw) ["READY"; "RESERVED"] = true ->
          verified_candidate thief_fw lp pm ->
          get_fw_by_id (FwDoc.fw_id pm) (-1) lp = Ok victim ->
          In l (Firework.launches victim) ->
          In (Launch.launch_id l) (launch_ids_of thief'))
    /\ (NoDup (launch_ids_of thief_fw) ->
        (forall pm victim,
            get_fw_by_id (FwDoc.fw_id pm) (-1) lp = Ok victim ->
            NoDup (launch_ids_of victim)) ->
        NoDup (launch_ids_of thief'))
    /\ (forall o pm victim,
          Py.str_in (Firework.state thief_fw) ["READY"; "RESERVED"] = true ->
          Py.get "_dupefinder" (Firework.spec thief_fw) = Some o ->
          find FwDoc.view
            (df_query (load_dupefinder o) (Firework.spec thief_fw))
            (LP.fireworks lp) = [pm] ->
          verified_match (load_dupefinder o) (Firework.spec thief_fw) pm ->
          get_fw_by_id (FwDoc.fw_id pm) (-1) lp = Ok victim ->
          added = valuable_launches thief_fw victim).
Proof.
  unfold _steal_launches, Py.contains.
  destruct (Py.str_in (Firework.state thief_fw) ["READY"; "RESERVED"])
    eqn:Est; cbn [andb];
    [destruct (Py.get "_dupefinder" (Firework.spec thief_fw)) as [o|] eqn:Eo|].
  - intros H. apply steal_loop_spec in H.
    destruct H as [added [Ht [Hb [Hsound [Hcompl [Hnd Hone]]]]]].
    exists added. split; [exact Ht|]. split.
    { rewrite Hb. destruct added; cbn; split; congruence. }
    split; [intros [? | ?]; discriminate|]. split.
    { intros l Hl.
      destruct (Hsound l Hl) as [Hn [pm [victim [Hp [Hv [Hg Hi]]]]]].
      split; [exact Hn|]. exists pm, victim.
      split; [|now split]. exists o. now repeat split. }
    split.
    { intros pm victim l _ [o' [Ho' [Hp Hv]]] Hg Hl.
      rewrite Eo in Ho'. injection Ho' as <-.
      now apply (Hcompl pm victim l). }
    split.
    { intros Hn Hv. apply Hnd; [exact Hn|]. intros pm victim _. apply Hv. }
    intros o' pm victim _ Ho' Hf Hv Hg. injection Ho' as <-.
    now apply (Hone pm victim).
  - intros [= <- <-]. exists []. rewrite add_launches_nil.
    split; [reflexivity|]. split; [split; [discriminate | congruence]|].
    split; [reflexivity|]. split; [intros l []|].
    split; [intros pm victim l _ [o [Ho _]]; congruence|].
    split; [intros Hn _; exact Hn|]. intros; congruence.
  - intros [= <- <-]. exists []. rewrite add_launches_nil.
    split; [reflexivity|]. split; [split; [discriminate | congruence]|].
    split; [reflexivity|]. split; [intros l []|].
    split; [intros; discriminate|].
    split; [intros Hn _; exact Hn|]. intros; discriminate.
Qed.

End Steal.

(* ===================================================================== *)
(** ** Workflow rewrite *)
(* ===================================================================== *)

Section WorkflowRewrite.

Variable _upsert_fws : list Firework.t -> M (list (Z * Z)).
Variable _reassign_ids : list (Z * Z) -> Workflow.t -> Workflow.t.
Variable Workflow_to_db_dict : Workflow.t -> Dict.

Local Abbreviation update_wf :=
  (_update_wf _upsert_fws _reassign_ids Workflow_to_db_dict).

(** The launchpad as [_upsert_fws] leaves it, which is where the rewrite
    of the workflow document starts from. *)
Definition after_upsert (wf : Workflow.t) (updated_ids : list Z) (lp : LP.t)
  : LP.t :=
  match collect_fws wf updated_ids with
  | Ok fws => snd (_upsert_fws fws lp)
  | Raise _ => lp
  end.

(** C10.  [_update_wf] itself writes to the workflows collection at most
    once, and what it writes is a document whose [locked] field is True:
    after the call the collection is as [_upsert_fws] left it, or differs
    from that in one place, where the workflow's document now stands with
    [locked] set. *)
Theorem update_wf_writes_locked (wf : Workflow.t) (updated_ids : list Z)
  (lp : LP.t) :
  let res := update_wf wf updated_ids lp in
  let mid := after_upsert wf updated_ids lp in
  (fst res <> Ok tt /\ LP.workflows (snd res) = LP.workflows mid)
  \/ (exists i old doc,
         fst res = Ok tt
         /\ nth_error (LP.workflows mid) i = Some old
         /\ LP.workflows (snd res)
            = replace_at i (fun _ => doc) (LP.workflows mid)
         /\ nth_error (LP.workflows (snd res)) i = Some doc
         /\ Py.get "locked" doc = Some (JBool true)
         /\ forall d, In d (LP.workflows (snd res)) ->
                      In d (LP.workflows mid)
                      \/ Py.get "locked" d = Some (JBool true)).
Proof.
  cbv zeta. unfold _update_wf, after_upsert, bind, read.
  destruct (collect_fws wf updated_ids) as [fws|e]; cbn [fst snd].
  2:{ left. split; [discriminate | reflexivity]. }
  destruct (_upsert_fws fws lp) as [[old_new|e] mid]; cbn [fst snd].
  2:{ left. split; [discriminate | reflexivity]. }
  destruct (find_query_node (_reassign_ids old_new wf) old_new)
    as [query_node|]; cbn [fst snd raise].
  2:{ left. split; [discriminate | reflexivity]. }
  unfold find_one.
  destruct (find_one_at wf_view [("nodes", QEq (JInt query_node))] []
              (LP.workflows mid)) as [[i old]|] eqn:E;
    cbn [option_map fst snd raise].
  2:{ left. split; [discriminate | reflexivity]. }
  right.
  destruct (find_one_at_some _ _ _ _ E) as [Hn _].
  set (doc := Py.set "locked" (JBool true)
                (Workflow_to_db_dict (_reassign_ids old_new wf))).
  exists i, old, doc. unfold modify. cbn [fst snd].
  unfold find_one_and_replace, find_one_and_update. rewrite E.
  cbn [snd LP.with_workflows LP.workflows].
  split; [reflexivity|]. split; [exact Hn|]. split; [reflexivity|].
  split; [exact (replace_at_same i (fun _ => doc) _ Hn)|].
  split; [apply get_set_same|].
  intros d Hd. apply replace_at_In in Hd.
  destruct Hd as [Hd | [d0 [_ ->]]]; [now left|].
  right. apply get_set_same.
Qed.

End WorkflowRewrite.

(* ===================================================================== *)
(** ** The first match of a query *)
(* ===================================================================== *)

Section FirstMatch.

Variable D : Type.
Variable view : D -> J.

(** Without a sort, [find_one] returns the first matching document. *)
Fixpoint first_at (q : Query) (s : nat) (l : list D) : option (nat * D) :=
  match l with
  | [] => None
  | x :: t => if matches q (view x) then Some (s, x) else first_at q (S s) t
  end.

Lemma pick_first_unsorted (l : list (nat * D)) :
  pick_first view [] l = hd_error l.
Proof.
  destruct l as [|x t]; cbn; [reflexivity|].
  now destruct (pick_first view [] t).
Qed.

Lemma find_one_at_unsorted (q : Query) (coll : list D) :
  find_one_at view q [] coll = first_at q 0 coll.
Proof.
  unfold find_one_at. rewrite pick_first_unsorted.
  generalize 0%nat. induction coll as [|x t IH]; intros s; cbn;
    [reflexivity|].
  destruct (matches q (view x)); cbn; [reflexivity | apply IH].
Qed.

Lemma first_at_replace (q : Query) (doc : D) (l : list D) :
  matches q (view doc) = true ->
  forall s i d,
    first_at q s l = Some (i, d) ->
    first_at q s (replace_at (i - s) (fun _ => doc) l) = Some (i, doc).
Proof.
  intros Hdoc. induction l as [|x t IH]; intros s i d; cbn; [discriminate|].
  destruct (matches q (view x)) eqn:Ex.
  - intros [= <- <-]. rewrite Nat.sub_diag. cbn. now rewrite Hdoc.
  - intros H.
    assert (Hlt : (S s <= i)%nat).
    { clear IH Ex. revert H. generalize (S s). revert i d.
      induction t as [|y t IHt]; intros i d n; cbn; [discriminate|].
      destruct (matches q (view y)).
      - intros [= <- <-]. lia.
      - intros H. apply IHt in H. lia. }
    replace (i - s)%nat with (S (i - S s)) by lia. cbn. rewrite Ex.
    now apply (IH (S s) i d).
Qed.

Lemma first_at_append (q : Query) (doc : D) (l : list D) :
  matches q (view doc) = true ->
  forall s,
    first_at q s l = None ->
    first_at q s (l ++ [doc]) = Some ((s + List.length l)%nat, doc).
Proof.
  intros Hdoc. induction l as [|x t IH]; intros s; cbn.
  - intros _. rewrite Hdoc. now rewrite Nat.add_0_r.
  - destruct (matches q (view x)); [discriminate|].
    intros H. rewrite (IH (S s) H). f_equal. f_equal. lia.
Qed.

(** A document written with [find_one_and_replace(..., upsert=True)] is
    what the same query finds afterwards. *)
Lemma find_one_after_replace_upsert (q : Query) (doc : D) (coll : list D) :
  matches q (view doc) = true ->
  find_one view q [] (find_one_and_replace_upsert view q doc coll) = Some doc.
Proof.
  intros Hdoc. unfold find_one, find_one_and_replace_upsert.
  rewrite !find_one_at_unsorted.
  destruct (first_at q 0 coll) as [[i d]|] eqn:E.
  - pose proof (@first_at_replace q doc coll Hdoc 0%nat i d E) as H.
    rewrite Nat.sub_0_r in H. now rewrite H.
  - now rewrite (@first_at_append q doc coll Hdoc 0%nat E).
Qed.

Lemma first_at_spec (q : Query) (l : list D) :
  forall s i d,
    first_at q s l = Some (i, d) ->
    (s <= i)%nat
    /\ nth_error l (i - s) = Some d
    /\ matches q (view d) = true
    /\ forall k x, (k < i - s)%nat -> nth_error l k = Some x ->
                   matches q (view x) = false.
Proof.
  induction l as [|x t IH]; intros s i d; cbn; [discriminate|].
  destruct (matches q (view x)) eqn:Ex.
  - intros [= <- <-]. rewrite Nat.sub_diag. split; [lia|].
    split; [reflexivity|]. split; [exact Ex|]. intros k y Hk. lia.
  - intros H. apply IH in H. destruct H as [Hle [Hn [Hm Hb]]].
    split; [lia|]. replace (i - s)%nat with (S (i - S s)) by lia. cbn.
    split; [exact Hn|]. split; [exact Hm|].
    intros [|k] y Hk; cbn.
    + intros [= <-]. exact Ex.
    + apply Hb. lia.
Qed.

(** [first_with P l i d]: [d], at position [i], is the first element of
    [l] with the property [P]. *)
Definition first_with (P : D -> Prop) (l : list D) (i : nat) (d : D) : Prop :=
  nth_error l i = Some d
  /\ P d
  /\ forall k x, (k < i)%nat -> nth_error l k = Some x -> ~ P x.

(** [rewritten_at i d' l l']: [l'] is [l] with [d'] in the place of its
    element at position [i], every other position as it was. *)
Definition rewritten_at (i : nat) (d' : D) (l l' : list D) : Prop :=
  List.length l' = List.length l
  /\ nth_error l' i = Some d'
  /\ forall k, k <> i -> nth_error l' k = nth_error l k.

Lemma find_one_at_first (q : Query) (coll : list D) (i : nat) (d : D) :
  find_one_at view q [] coll = Some (i, d) ->
  first_with (fun x => matches q (view x) = true) coll i d.
Proof.
  rewrite find_one_at_unsorted. intros H. apply first_at_spec in H.
  rewrite Nat.sub_0_r in H. destruct H as [_ [Hn [Hm Hb]]].
  split; [exact Hn|]. split; [exact Hm|].
  intros k x Hk Hx Hp. rewrite (Hb k x Hk Hx) in Hp. discriminate.
Qed.

Lemma first_with_unique (P : D -> Prop) (l : list D) (i j : nat) (d e : D) :
  first_with P l i d -> first_with P l j e -> i = j /\ d = e.
Proof.
  intros [Hi [Hd Hbi]] [Hj [He Hbj]].
  assert (Hij : i = j).
  { destruct (Nat.lt_trichotomy i j) as [H | [H | H]]; [|exact H|].
    - exfalso. exact (Hbj i d H Hi Hd).
    - exfalso. exact (Hbi j e H Hj He). }
  subst j. split; [reflexivity|]. congruence.
Qed.

Lemma first_with_ext (P Q : D -> Prop) (l : list D) (i : nat) (d : D) :
  (forall x, P x <-> Q x) -> first_with P l i d -> first_with Q l i d.
Proof.
  intros H [Hi [Hd Hb]]. split; [exact Hi|]. split; [now apply H|].
  intros k x Hk Hx Hq. apply (Hb k x Hk Hx). now apply H.
Qed.

Lemma replace_at_rewritten (i : nat) (f : D -> D) (l : list D) (d : D) :
  nth_error l i = Some d -> rewritten_at i (f d) l (replace_at i f l).
Proof.
  intros H. split; [apply replace_at_length|].
  split; [now apply replace_at_same|].
  intros k Hk. now apply replace_at_other.
Qed.

End FirstMatch.

(* ===================================================================== *)
(** ** Conditional update *)
(* ===================================================================== *)

(** Is the state among the allowed ones? *)
Definition state_allowed (allowed : Allowed) (s : string) : bool :=
  match allowed with
  | AllowedNone => true
  | AllowedStr a => String.eqb s a
  | AllowedList l => Py.str_in s l
  end.

Lemma with_fireworks_same (lp : LP.t) :
  LP.with_fireworks (LP.fireworks lp) lp = lp.
Proof. now destruct lp. Qed.

Lemma with_launches_same (lp : LP.t) :
  LP.with_launches (LP.launches lp) lp = lp.
Proof. now destruct lp. Qed.

(** The conditional write on the fireworks collection: nothing when no
    document matches, one document rewritten otherwise. *)
Lemma fireworks_update_cases (q : Query) (upd : FwDoc.t -> FwDoc.t)
  (lp : LP.t) :
  (fireworks_update q upd lp = (Ok None, lp)
   /\ forall d, In d (LP.fireworks lp) -> matches q (FwDoc.view d) = false)
  \/ exists i d,
       nth_error (LP.fireworks lp) i = Some d
       /\ matches q (FwDoc.view d) = true
       /\ fireworks_update q upd lp
          = (Ok (Some d),
             LP.with_fireworks (replace_at i upd (LP.fireworks lp)) lp).
Proof.
  unfold fireworks_update, find_one_and_update.
  destruct (find_one_at FwDoc.view q [] (LP.fireworks lp)) as [[i d]|] eqn:E.
  - right. exists i, d.
    destruct (find_one_at_some _ _ _ _ E) as [Hn [Hm _]]. auto.
  - left. rewrite with_fireworks_same. split; [reflexivity|].
    intros d Hd. eapply find_one_at_none; [exact E | exact Hd].
Qed.

(** The write on the launches collection: the first launch with the
    given id, if any, gets the history and the trackers. *)
Lemma launches_update_one_cases (lid : Z) (upd : Launch.t -> Launch.t)
  (lp : LP.t) :
  launches_update_one [("launch_id", QEq (JInt lid))] upd lp = (Ok tt, lp)
  \/ exists j l,
       nth_error (LP.launches lp) j = Some l
       /\ Launch.launch_id l = lid
       /\ launches_update_one [("launch_id", QEq (JInt lid))] upd lp
          = (Ok tt,
             LP.with_launches (replace_at j upd (LP.launches lp)) lp).
Proof.
  unfold launches_update_one, modify, update_one, find_one_and_update.
  destruct (find_one_at Launch.view [("launch_id", QEq (JInt lid))] []
              (LP.launches lp)) as [[j l]|] eqn:E; cbn [snd].
  - right. exists j, l.
    destruct (find_one_at_some _ _ _ _ E) as [Hn [Hm _]].
    split; [exact Hn|]. split; [|reflexivity].
    unfold matches in Hm. cbn [forallb fst snd] in Hm.
    rewrite holds_launch_id_eq, andb_true_r in Hm. now apply Z.eqb_eq.
  - left. now rewrite with_launches_same.
Qed.

Section Update.

Variable STATE_RANKS : string -> option Z.
Variable get_fw_by_id : Z -> Z -> LP.t -> Result Firework.t.
Variable Firework_set_state : string -> Firework.t -> Firework.t.

Local Abbreviation update_fw :=
  (_update_fw STATE_RANKS get_fw_by_id Firework_set_state).

(** The object [_update_fw] works on: the one given, or the one fetched
    for the id given. *)
Definition resolve (m_fw : FwArg) (launch_idx : Z) (lp : LP.t)
  : Result Firework.t :=
  match m_fw with
  | ById i => get_fw_by_id i launch_idx lp
  | Obj fw => Ok fw
  end.

(** The object after [m_fw.state = state], when that assignment is
    made. *)
Definition touched (state : option string) (touch_history : bool)
  (fw : Firework.t) : Firework.t :=
  match state with
  | Some s => if touch_history then Firework_set_state s fw else fw
  | None => fw
  end.

(** The clause on [state] that the test of [allowed_states] leaves in the
    query. *)
Definition allowed_clause (allowed : Allowed) : option Clause :=
  match allowed with
  | AllowedNone => None
  | AllowedStr s => Some (QEq (JStr s))
  | AllowedList l => Some (QIn (map JStr l))
  end.

Lemma update_fw_unfold (m_fw : FwArg) (state : option string)
  (allowed : Allowed) (launch_idx : Z) (touch_history : bool)
  (checkpoint : option J) (lp : LP.t) (fw : Firework.t) :
  resolve m_fw launch_idx lp = Ok fw ->
  update_fw m_fw state allowed launch_idx touch_history checkpoint lp
  = if state_allowed allowed (Firework.state fw)
    then update_allowed STATE_RANKS Firework_set_state fw state
           (allowed_clause allowed) launch_idx touch_history lp
    else (Ok None, lp).
Proof.
  intros Hr. unfold _update_fw, bind.
  assert (Hm : (match m_fw with
                | ById i => read (get_fw_by_id i launch_idx)
                | Obj fw0 => ret fw0
                end) lp = (Ok fw, lp)).
  { destruct m_fw; cbn in Hr |- *; unfold read, ret; now rewrite ?Hr;
      try injection Hr as ->. }
  rewrite Hm. destruct allowed; cbn [state_allowed allowed_clause].
  - reflexivity.
  - destruct (String.eqb (Firework.state fw) s); reflexivity.
  - destruct (Py.str_in (Firework.state fw) l); reflexivity.
Qed.

(** The query of the conditional write selects documents of this
    firework whose stored state is allowed. *)
Definition update_query (allowed : Allowed) (fid : Z) : Query :=
  match allowed_clause allowed with
  | Some c => Py.set "state" c [("fw_id", QEq (JInt fid))]
  | None => [("fw_id", QEq (JInt fid))]
  end.

Lemma update_query_matches (allowed : Allowed) (fid : Z) (d : FwDoc.t) :
  matches (update_query allowed fid) (FwDoc.view d)
  = (FwDoc.fw_id d =? fid) && state_allowed allowed (FwDoc.state d).
Proof.
  unfold update_query.
  destruct allowed as [|s|l]; cbn [allowed_clause state_allowed Py.set];
    cbn [String.eqb Ascii.eqb Bool.eqb]; unfold matches;
    cbn [forallb fst snd]; rewrite holds_fw_id_eq, ?andb_true_r.
  - reflexivity.
  - now rewrite holds_fw_state_eq.
  - now rewrite holds_fw_state_in.
Qed.

(** [_update_fw] past the test of [allowed_states], as one expression. *)
Lemma update_allowed_eval (fw : Firework.t) (state : option string)
  (allowed : Allowed) (launch_idx : Z) (touch_history : bool) (lp : LP.t) :
  update_allowed STATE_RANKS Firework_set_state fw state
    (allowed_clause allowed) launch_idx touch_history lp
  = let fw' := touched state touch_history fw in
    match reset_launch_of STATE_RANKS state (Firework.state fw) with
    | Raise e => (Raise e, lp)
    | Ok rl =>
        match find_one_at FwDoc.view
                (update_query allowed (Firework.fw_id fw)) []
                (LP.fireworks lp) with
        | None => (Ok (Some fw'), lp)
        | Some (i, d) =>
            let lp1 :=
              LP.with_fireworks
                (replace_at i
                   (set_state_updated (Firework.state fw')
                      (Firework.updated_on fw')) (LP.fireworks lp)) lp in
            if rl then (Ok (Some fw'), lp1)
            else
              match FwDoc.launches d with
              | [] => (Ok (Some fw'), lp1)
              | _ :: _ =>
                  match Py.index (FwDoc.launches d) launch_idx with
                  | None =>
                      (Raise (ValueError "Bad launch index %d %d"), lp1)
                  | Some lid =>
                      (Ok (Some fw'),
                       LP.with_launches
                         (update_one Launch.view
                            [("launch_id", QEq (JInt lid))]
                            (Launch.set_history
                               (Launch.state_history (Firework.launch fw'))
                               (Launch.trackers (Firework.launch fw')))
                            (LP.launches lp)) lp1)
                  end
              end
        end
    end.
Proof.
  cbv zeta. unfold update_allowed, bind, read, fireworks_update,
    find_one_and_update, update_query, launches_update_one, modify, ret,
    raise.
  fold (touched state touch_history fw).
  destruct (reset_launch_of STATE_RANKS state (Firework.state fw))
    as [rl|e]; [|reflexivity].
  destruct rl; cbn [negb]; cbv beta iota.
  - destruct (find_one_at FwDoc.view _ [] (LP.fireworks lp)) as [[i d]|];
      [reflexivity | now rewrite with_fireworks_same].
  - destruct (find_one_at FwDoc.view _ [] (LP.fireworks lp)) as [[i d]|];
      [|now rewrite with_fireworks_same].
    destruct (FwDoc.launches d) as [|l0 ls]; [reflexivity|].
    destruct (Py.index (l0 :: ls) launch_idx); reflexivity.
Qed.

(** Every way [_update_fw] can go once the in-memory state is allowed. *)
Lemma update_allowed_cases (fw : Firework.t) (state : option string)
  (allowed : Allowed) (launch_idx : Z) (touch_history : bool) (lp : LP.t) :
  let fw' := touched state touch_history fw in
  let upd_fw :=
    set_state_updated (Firework.state fw') (Firework.updated_on fw') in
  let upd_l :=
    Launch.set_history (Launch.state_history (Firework.launch fw'))
      (Launch.trackers (Firework.launch fw')) in
  let res :=
    update_allowed STATE_RANKS Firework_set_state fw state
      (allowed_clause allowed) launch_idx touch_history lp in
  (exists e, reset_launch_of STATE_RANKS state (Firework.state fw) = Raise e
             /\ res = (Raise e, lp))
  \/ (exists rl,
        reset_launch_of STATE_RANKS state (Firework.state fw) = Ok rl
        /\ ((res = (Ok (Some fw'), lp)
             /\ forall d, In d (LP.fireworks lp) ->
                   matches (update_query allowed (Firework.fw_id fw))
                     (FwDoc.view d) = false)
            \/ exists i d,
                 nth_error (LP.fireworks lp) i = Some d
                 /\ matches (update_query allowed (Firework.fw_id fw))
                      (FwDoc.view d) = true
                 /\ let lp1 :=
                      LP.with_fireworks
                        (replace_at i upd_fw (LP.fireworks lp)) lp in
                    ((rl = true \/ FwDoc.launches d = [])
                     /\ res = (Ok (Some fw'), lp1))
                    \/ (rl = false
                        /\ FwDoc.launches d <> []
                        /\ Py.index (FwDoc.launches d) launch_idx = None
                        /\ res = (Raise (ValueError "Bad launch index %d %d"),
                                  lp1))
                    \/ (rl = false
                        /\ exists lid,
                             Py.index (FwDoc.launches d) launch_idx = Some lid
                             /\ (res = (Ok (Some fw'), lp1)
                                 \/ exists j l,
                                      nth_error (LP.launches lp) j = Some l
                                      /\ Launch.launch_id l = lid
                                      /\ res
                                         = (Ok (Some fw'),
                                            LP.with_launches
                                              (replace_at j upd_l
                                                 (LP.launches lp)) lp1))))).
Proof.
  cbv zeta. unfold update_allowed, bind, read.
  fold (touched state touch_history fw).
  set (fw' := touched state touch_history fw).
  pose (q := update_query allowed (Firework.fw_id fw)).
  destruct (reset_launch_of STATE_RANKS state (Firework.state fw))
    as [rl|e]; [|left; now exists e].
  right. exists rl. split; [reflexivity|].
  set (upd := set_state_updated (Firework.state fw') (Firework.updated_on fw')).
  repeat match goal with
         | |- context [fireworks_update ?x upd] =>
             lazymatch x with q => fail | _ => change x with q end
         end.
  destruct (fireworks_update_cases q upd lp)
    as [[Hnone Hall] | [i [d [Hn [Hm Hupd]]]]].
  - left. split; [|exact Hall].
    destruct rl; cbn [negb]; cbv beta iota; rewrite Hnone; reflexivity.
  - right. exists i, d. split; [exact Hn|]. split; [exact Hm|].
    destruct rl; cbn [negb]; cbv beta iota; rewrite Hupd.
    + left. split; [now left | reflexivity].
    + destruct (FwDoc.launches d) as [|l0 ls] eqn:El.
      * left. split; [now right | reflexivity].
      * destruct (Py.index (l0 :: ls) launch_idx) as [lid|] eqn:Ei.
        -- right. right. split; [reflexivity|]. exists lid.
           split; [reflexivity|].
           set (lp1 := LP.with_fireworks (replace_at i upd (LP.fireworks lp)) lp).
           destruct (launches_update_one_cases lid
                       (Launch.set_history
                          (Launch.state_history (Firework.launch fw'))
                          (Launch.trackers (Firework.launch fw'))) lp1)
             as [Hl | [j [l [Hj [Hid Hl]]]]]; rewrite Hl.
           ++ now left.
           ++ right. now exists j, l.
        -- right. left. split; [reflexivity|]. split; [discriminate|].
           split; reflexivity.
Qed.

(** No index is in the range of the empty list. *)
Lemma index_empty (A : Type) (i : Z) : Py.index (@nil A) i = None.
Proof.
  unfold Py.index. cbn [List.length]. change (Z.of_nat 0) with 0.
  destruct (i >=? 0) eqn:E1; [reflexivity|].
  destruct (i <? - 0) eqn:E2; [reflexivity|].
  rewrite Z.geb_leb in E1. apply Z.leb_gt in E1. apply Z.ltb_ge in E2. lia.
Qed.

(** The query on a launch id selects the launches of that id. *)
Lemma matches_launch_id_eqb (lid : Z) (l : Launch.t) :
  matches [("launch_id", QEq (JInt lid))] (Launch.view l)
  = (Launch.launch_id l =? lid).
Proof.
  unfold matches. cbn [forallb fst snd].
  now rewrite holds_launch_id_eq, andb_true_r.
Qed.

(** C6.  With the firework's state not among the allowed ones,
    [_update_fw] returns None, raises nothing and writes nothing.  With
    it allowed and the ranks of the states known, the call returns the
    object (after [m_fw.state = state], when that is done) and applies
    the transition to the first stored document of this firework whose
    stored state is allowed too: that document gets the object's state
    and [updated_on] and keeps its other fields, and no other document
    changes; when no stored document qualifies, nothing is written.
    Unless the rerun case applies, the launch addressed by [launch_idx]
    in that document's launch list is synchronized: the first launch
    document with that id gets the [state_history] and the [trackers]
    of the object's launch and keeps its other fields, no other launch
    changes; an index out of range raises once the firework document is
    written.  In the rerun case, and for a document without launches,
    the launches are left as they are. *)
Theorem update_fw_conditional (m_fw : FwArg) (state : option string)
  (allowed : Allowed) (launch_idx : Z) (touch_history : bool)
  (checkpoint : option J) (lp : LP.t) (fw : Firework.t) :
  resolve m_fw launch_idx lp = Ok fw ->
  let res :=
    update_fw m_fw state allowed launch_idx touch_history checkpoint lp in
  let fw' := touched state touch_history fw in
  let target := fun d : FwDoc.t =>
    FwDoc.fw_id d = Firework.fw_id fw
    /\ state_allowed allowed (FwDoc.state d) = true in
  (state_allowed allowed (Firework.state fw) = false -> res = (Ok None, lp))
  /\ (state_allowed allowed (Firework.state fw) = true ->
      (forall e,
          reset_launch_of STATE_RANKS state (Firework.state fw) = Raise e ->
          res = (Raise e, lp))
      /\ (forall rl,
            reset_launch_of STATE_RANKS state (Firework.state fw) = Ok rl ->
            ((forall d, In d (LP.fireworks lp) -> ~ target d) ->
             res = (Ok (Some fw'), lp))
            /\ (forall i d,
                  first_with target (LP.fireworks lp) i d ->
                  rewritten_at i
                    (FwDoc.mk (FwDoc.fw_id d) (Firework.state fw')
                       (FwDoc.created_on d) (Firework.updated_on fw')
                       (FwDoc.spec d) (FwDoc.launches d))
                    (LP.fireworks lp) (LP.fireworks (snd res))
                  /\ (rl = true \/ FwDoc.launches d = [] ->
                      fst res = Ok (Some fw')
                      /\ LP.launches (snd res) = LP.launches lp)
                  /\ (rl = false ->
                      FwDoc.launches d <> [] ->
                      Py.index (FwDoc.launches d) launch_idx = None ->
                      fst res = Raise (ValueError "Bad launch index %d %d")
                      /\ LP.launches (snd res) = LP.launches lp)
                  /\ (forall lid,
                        rl = false ->
                        Py.index (FwDoc.launches d) launch_idx = Some lid ->
                        fst res = Ok (Some fw')
                        /\ ((forall l, In l (LP.launches lp) ->
                                       Launch.launch_id l <> lid) ->
                            LP.launches (snd res) = LP.launches lp)
                        /\ (forall j l,
                              first_with
                                (fun l0 => Launch.launch_id l0 = lid)
                                (LP.launches lp) j l ->
                              rewritten_at j
                                (Launch.mk (Launch.launch_id l)
                                   (Launch.fw_id l) (Launch.state l)
                                   (Launch.state_history
                                      (Firework.launch fw'))
                                   (Launch.trackers (Firework.launch fw'))
                                   (Launch.action l))
                                (LP.launches lp)
                                (LP.launches (snd res))))))).
Proof.
  intros Hr. cbv zeta. rewrite update_fw_unfold with (fw := fw) by exact Hr.
  split; intros Ha; rewrite Ha; [reflexivity|].
  rewrite update_allowed_eval. cbv zeta.
  set (fw' := touched state touch_history fw).
  split; [intros e He; now rewrite He|].
  intros rl Hrl. rewrite Hrl.
  assert (Htarget : forall x : FwDoc.t,
             matches (update_query allowed (Firework.fw_id fw)) (FwDoc.view x)
             = true
             <-> FwDoc.fw_id x = Firework.fw_id fw
                 /\ state_allowed allowed (FwDoc.state x) = true).
  { intros x. rewrite update_query_matches, andb_true_iff, Z.eqb_eq.
    reflexivity. }
  destruct (find_one_at FwDoc.view (update_query allowed (Firework.fw_id fw))
              [] (LP.fireworks lp)) as [[i0 d0]|] eqn:E.
  - assert (Hfirst0 : first_with
                        (fun x : FwDoc.t =>
                           FwDoc.fw_id x = Firework.fw_id fw
                           /\ state_allowed allowed (FwDoc.state x) = true)
                        (LP.fireworks lp) i0 d0).
    { eapply first_with_ext; [exact Htarget|].
      now apply find_one_at_first. }
    split.
    { intros Hnone. exfalso. destruct Hfirst0 as [Hn [Ht _]].
      apply (Hnone d0); [now apply nth_error_In with (n := i0) | exact Ht]. }
    intros i d Hfirst.
    destruct (first_with_unique Hfirst Hfirst0) as [-> ->].
    destruct Hfirst0 as [Hn _].
    split.
    { assert (Hfw : forall r l1,
                 LP.fireworks
                   (snd (r : Result (option Firework.t),
                         LP.with_launches l1
                           (LP.with_fireworks
                              (replace_at i0
                                 (set_state_updated (Firework.state fw')
                                    (Firework.updated_on fw'))
                                 (LP.fireworks lp)) lp)))
                 = replace_at i0
                     (set_state_updated (Firework.state fw')
                        (Firework.updated_on fw')) (LP.fireworks lp))
        by reflexivity.
      assert (Hgoal : rewritten_at i0
                (FwDoc.mk (FwDoc.fw_id d0) (Firework.state fw')
                   (FwDoc.created_on d0) (Firework.updated_on fw')
                   (FwDoc.spec d0) (FwDoc.launches d0))
                (LP.fireworks lp)
                (replace_at i0
                   (set_state_updated (Firework.state fw')
                      (Firework.updated_on fw')) (LP.fireworks lp)))
        by exact (replace_at_rewritten i0
                    (set_state_updated (Firework.state fw')
                       (Firework.updated_on fw')) (LP.fireworks lp) Hn).
      destruct rl; [exact Hgoal|].
      destruct (FwDoc.launches d0) as [|l0 ls]; [exact Hgoal|].
      destruct (Py.index (l0 :: ls) launch_idx); exact Hgoal. }
    split.
    { intros [-> | Hl]; [split; reflexivity|].
      rewrite Hl. destruct rl; split; reflexivity. }
    split.
    { intros -> Hne Hi.
      destruct (FwDoc.launches d0) as [|l0 ls]; [contradiction|].
      rewrite Hi. split; reflexivity. }
    intros lid -> Hi.
    destruct (FwDoc.launches d0) as [|l0 ls];
      [rewrite index_empty in Hi; discriminate Hi|].
    rewrite Hi. cbn [fst snd LP.with_launches LP.with_fireworks LP.launches].
    split; [reflexivity|].
    assert (Hlid : forall x : Launch.t,
               matches [("launch_id", QEq (JInt lid))] (Launch.view x) = true
               <-> Launch.launch_id x = lid).
    { intros x. now rewrite matches_launch_id_eqb, Z.eqb_eq. }
    unfold update_one, find_one_and_update.
    destruct (find_one_at Launch.view [("launch_id", QEq (JInt lid))] []
                (LP.launches lp)) as [[j0 t0]|] eqn:El; cbn [snd].
    + assert (Hl0 : first_with (fun x : Launch.t => Launch.launch_id x = lid)
                      (LP.launches lp) j0 t0).
      { eapply first_with_ext; [exact Hlid|].
        now apply find_one_at_first. }
      split.
      { intros Hno. exfalso. destruct Hl0 as [Hj [Ht _]].
        apply (Hno t0); [now apply nth_error_In with (n := j0) | exact Ht]. }
      intros j l Hl. destruct (first_with_unique Hl Hl0) as [-> ->].
      destruct Hl0 as [Hj _].
      exact (replace_at_rewritten j0
               (Launch.set_history
                  (Launch.state_history (Firework.launch fw'))
                  (Launch.trackers (Firework.launch fw')))
               (LP.launches lp) Hj).
    + split; [reflexivity|].
      intros j l [Hj [Ht _]]. exfalso.
      apply Hlid in Ht.
      rewrite (find_one_at_none _ _ _ _ El l
                 (nth_error_In _ _ Hj)) in Ht.
      discriminate.
  - split; [reflexivity|].
    intros i d [Hn [Ht _]]. exfalso. apply Htarget in Ht.
    rewrite (find_one_at_none _ _ _ _ E d (nth_error_In _ _ Hn)) in Ht.
    discriminate.
Qed.

(** C7, as the code has it.  When the requested state outranks the
    firework's current state and the current state ranks at most 0,
    [_update_fw] leaves every launch document as it is, and it makes no
    new launch: the launch lists of the firework documents, the id
    counters and the blob store are unchanged, and the only write is the
    conditional one of state and [updated_on] on the firework document. *)
Theorem update_fw_rerun_keeps_launches (m_fw : FwArg) (s : string)
  (allowed : Allowed) (launch_idx : Z) (touch_history : bool)
  (checkpoint : option J) (lp : LP.t) (fw : Firework.t) (rs rc : Z) :
  resolve m_fw launch_idx lp = Ok fw ->
  STATE_RANKS s = Some rs ->
  STATE_RANKS (Firework.state fw) = Some rc ->
  rs > rc ->
  rc <= 0 ->
  let res :=
    update_fw m_fw (Some s) allowed launch_idx touch_history checkpoint lp in
  let fw' := touched (Some s) touch_history fw in
  LP.launches (snd res) = LP.launches lp
  /\ LP.fw_id_assigner (snd res) = LP.fw_id_assigner lp
  /\ LP.gridfs_fallback (snd res) = LP.gridfs_fallback lp
  /\ LP.workflows (snd res) = LP.workflows lp
  /\ map FwDoc.launches (LP.fireworks (snd res))
     = map FwDoc.launches (LP.fireworks lp)
  /\ (fst res = Ok None \/ fst res = Ok (Some fw'))
  /\ (LP.fireworks (snd res) = LP.fireworks lp
      \/ exists i d,
           nth_error (LP.fireworks lp) i = Some d
           /\ FwDoc.fw_id d = Firework.fw_id fw
           /\ LP.fireworks (snd res)
              = replace_at i
                  (set_state_updated (Firework.state fw')
                     (Firework.updated_on fw')) (LP.fireworks lp)).
Proof.
  intros Hr Hs Hc Hgt Hle. cbv zeta. rewrite update_fw_unfold with (fw := fw) by exact Hr.
  destruct (state_allowed allowed (Firework.state fw)).
  2:{ cbn. repeat split; auto. }
  assert (Hreset : reset_launch_of STATE_RANKS (Some s) (Firework.state fw)
                   = Ok true).
  { unfold reset_launch_of. rewrite Hs, Hc. f_equal.
    apply andb_true_iff. split; [apply Z.gtb_lt | apply Z.leb_le]; lia. }
  destruct (update_allowed_cases fw (Some s) allowed launch_idx
              touch_history lp)
    as [[e [He Hres]] | [rl [Hrl Hcases]]]; [congruence|].
  rewrite Hreset in Hrl. injection Hrl as <-.
  destruct Hcases as [[Hres Hall] | [i [d [Hn [Hm Hcases]]]]].
  - rewrite Hres. cbn. repeat split; auto.
  - cbv zeta in Hcases. rewrite update_query_matches in Hm.
    apply andb_true_iff in Hm. destruct Hm as [Hf _]. apply Z.eqb_eq in Hf.
    destruct Hcases as [[_ Hres] | [[Hfalse _] | [Hfalse _]]];
      try discriminate.
    rewrite Hres. cbn [fst snd LP.with_fireworks LP.launches LP.fireworks
                       LP.fw_id_assigner LP.gridfs_fallback LP.workflows].
    repeat split; auto.
    + now apply replace_at_map.
    + right. now exists i, d.
Qed.

End Update.

(* ===================================================================== *)
(** ** Checkin and the overflow to the blob store *)
(* ===================================================================== *)

Lemma gridfs_get_new (i data : string) (m : Z) (fs : GridFS.t) :
  GridFS.get i fs = None ->
  GridFS.get i (fs ++ [GridFS.mk_file i data m]) = Some data.
Proof.
  induction fs as [|f fs IH]; cbn.
  - intros _. now rewrite String.eqb_refl.
  - destruct (String.eqb i (GridFS.oid f)); [discriminate | exact IH].
Qed.

Lemma matches_launch_id (l : Launch.t) :
  matches [("launch_id", QEq (JInt (Launch.launch_id l)))] (Launch.view l)
  = true.
Proof.
  unfold matches. cbn [forallb fst snd].
  now rewrite holds_launch_id_eq, Z.eqb_refl.
Qed.

Section Checkin.

Variable too_large : Launch.t -> bool.
Variable json_dumps : Dict -> string.
Variable json_loads : string -> option Dict.
Variable new_object_id : GridFS.t -> string.

Local Abbreviation checkin := (_checkin_fw too_large json_dumps new_object_id).
Local Abbreviation read_action := (get_action_from_gridfs json_loads).

(** The firework ids that share a launch. *)
Definition ids_sharing (lid : Z) (lp : LP.t) : list Z :=
  map FwDoc.fw_id
    (find FwDoc.view [("launches", QEq (JInt lid))] (LP.fireworks lp)).

(** The launch written on the first attempt. *)
Definition first_doc (m_fw : Firework.t) (lid : Z) : Launch.t :=
  Launch.set_launch_id lid (Firework.launch m_fw).

(** The launch written on the second attempt: its action is the token. *)
Definition token_doc (m_fw : Firework.t) (lid : Z) (fs : GridFS.t)
  : Launch.t :=
  Launch.set_action (Some (gridfs_token (new_object_id fs)))
    (first_doc m_fw lid).

(** The launchpad after a write of [doc] under the id [lid]. *)
Definition written (lid : Z) (doc : Launch.t) (lp : LP.t) : LP.t :=
  LP.with_launches
    (find_one_and_replace_upsert Launch.view
       [("launch_id", QEq (JInt lid))] doc (LP.launches lp)) lp.

(** The launchpad after the action was put in the blob store. *)
Definition blob_stored (lid : Z) (a : Dict) (fs : GridFS.t) (lp : LP.t)
  : LP.t :=
  LP.with_gridfs
    (Some (fs ++ [GridFS.mk_file (new_object_id fs) (json_dumps a) lid])) lp.

(** Every way a checkin of an addressed launch can go. *)
Lemma checkin_cases (m_fw : Firework.t) (action : option Dict)
  (state : string) (lp : LP.t) (d : FwDoc.t) (idx lid : Z) :
  find_one FwDoc.view [("fw_id", QEq (JInt (Firework.fw_id m_fw)))] []
    (LP.fireworks lp) = Some d ->
  Firework.launch_idx m_fw = Some idx ->
  Py.index (FwDoc.launches d) idx = Some lid ->
  checkin m_fw action state lp =
  if too_large (first_doc m_fw lid) then
    match Launch.action (Firework.launch m_fw) with
    | Some (kv :: rest) =>
        match LP.gridfs_fallback lp with
        | None =>
            (Raise (DocumentTooLarge (String.append too_large_msg gridfs_hint)),
             lp)
        | Some fs =>
            if GridFS.has_launch lid fs
            then (Raise (DuplicateKeyError "metadata.launch_id"), lp)
            else if too_large (token_doc m_fw lid fs)
            then (Raise (DocumentTooLarge too_large_msg),
                  blob_stored lid (kv :: rest) fs lp)
            else (Ok (token_doc m_fw lid fs, ids_sharing lid lp),
                  written lid (token_doc m_fw lid fs)
                    (blob_stored lid (kv :: rest) fs lp))
        end
    | _ => (Raise (DocumentTooLarge too_large_msg), lp)
    end
  else (Ok (first_doc m_fw lid, ids_sharing lid lp),
        written lid (first_doc m_fw lid) lp).
Proof.
  intros Hd Hidx Hlid. unfold _checkin_fw, bind at 1, read at 1.
  rewrite Hd, Hidx, Hlid. fold (first_doc m_fw lid).
  unfold bind at 1, try_too_large, bind at 1, launches_replace.
  destruct (too_large (first_doc m_fw lid)) eqn:E1.
  - change (Launch.action (first_doc m_fw lid))
      with (Launch.action (Firework.launch m_fw)).
    destruct (Launch.action (Firework.launch m_fw)) as [[|kv rest]|];
      try reflexivity.
    unfold bind at 1, read at 1.
    destruct (LP.gridfs_fallback lp) as [fs|] eqn:Eg; [|reflexivity].
    unfold bind at 1, gridfs_put. rewrite Eg.
    destruct (GridFS.has_launch lid fs); [reflexivity|].
    fold (token_doc m_fw lid fs). unfold bind at 1.
    destruct (too_large (token_doc m_fw lid fs)) eqn:E2; reflexivity.
  - reflexivity.
Qed.

(** C4, as the code has it.  When the first write of the launch is
    refused for its size and the launch carries a non-empty action: with
    no blob store configured the size failure propagates and nothing is
    written; with one configured that holds a file for this launch
    already, the put is refused by the unique index on the files'
    launch id, that failure propagates and nothing is written; with one
    configured that holds no file for the launch, the action is put in
    the blob store once, the launch gets the reference token in its
    place, and the write is attempted once more -- if the document with
    the token fits, the checkin succeeds with that document stored; if
    it is refused again, the size failure propagates, the payload
    staying in the blob store. *)
Theorem checkin_overflow (m_fw : Firework.t) (action : option Dict)
  (state : string) (lp : LP.t) (d : FwDoc.t) (idx lid : Z)
  (kv : string * J) (rest : Dict) :
  find_one FwDoc.view [("fw_id", QEq (JInt (Firework.fw_id m_fw)))] []
    (LP.fireworks lp) = Some d ->
  Firework.launch_idx m_fw = Some idx ->
  Py.index (FwDoc.launches d) idx = Some lid ->
  too_large (first_doc m_fw lid) = true ->
  Launch.action (Firework.launch m_fw) = Some (kv :: rest) ->
  let res := checkin m_fw action state lp in
  match LP.gridfs_fallback lp with
  | None =>
      res = (Raise (DocumentTooLarge (String.append too_large_msg gridfs_hint)),
             lp)
  | Some fs =>
      let doc := token_doc m_fw lid fs in
      (GridFS.has_launch lid fs = true ->
       res = (Raise (DuplicateKeyError "metadata.launch_id"), lp))
      /\ (GridFS.has_launch lid fs = false ->
          LP.gridfs_fallback (snd res)
          = Some (fs ++ [GridFS.mk_file (new_object_id fs)
                           (json_dumps (kv :: rest)) lid])
          /\ Launch.action doc = Some (gridfs_token (new_object_id fs))
          /\ (too_large doc = false ->
              res = (Ok (doc, ids_sharing lid lp),
                     written lid doc (blob_stored lid (kv :: rest) fs lp))
              /\ find_one Launch.view [("launch_id", QEq (JInt lid))] []
                   (LP.launches (snd res)) = Some doc)
          /\ (too_large doc = true ->
              res = (Raise (DocumentTooLarge too_large_msg),
                     blob_stored lid (kv :: rest) fs lp)
              /\ LP.launches (snd res) = LP.launches lp))
  end.
Proof.
  intros Hd Hidx Hlid Hbig Hact. cbv zeta.
  rewrite (checkin_cases m_fw action state lp Hd Hidx Hlid), Hbig, Hact.
  destruct (LP.gridfs_fallback lp) as [fs|] eqn:Eg; [|reflexivity].
  destruct (GridFS.has_launch lid fs) eqn:Edup;
    (split; [try discriminate; reflexivity | try discriminate]).
  intros _.
  destruct (too_large (token_doc m_fw lid fs)) eqn:E2.
  - split; [reflexivity|]. split; [reflexivity|].
    split; [discriminate|]. intros _. split; reflexivity.
  - split; [reflexivity|]. split; [reflexivity|].
    split; [|discriminate]. intros _. split; [reflexivity|].
    cbn [snd written LP.with_launches LP.launches].
    apply find_one_after_replace_upsert.
    apply (matches_launch_id (token_doc m_fw lid fs)).
Qed.

(** C5.  A checkin whose first write fits stores the action inline and
    does not touch the blob store.  A checkin whose first write is
    refused for its size and which returns normally leaves a launch
    document from which [get_action_from_gridfs] reads back the original
    action, for an action that survives the JSON round trip and a blob
    store that gives the new file an unused id; the launch returned
    reads back the same. *)
Theorem checkin_action_roundtrip (m_fw : Firework.t) (action : option Dict)
  (state : string) (lp : LP.t) (d : FwDoc.t) (idx lid : Z) :
  find_one FwDoc.view [("fw_id", QEq (JInt (Firework.fw_id m_fw)))] []
    (LP.fireworks lp) = Some d ->
  Firework.launch_idx m_fw = Some idx ->
  Py.index (FwDoc.launches d) idx = Some lid ->
  let res := checkin m_fw action state lp in
  (too_large (first_doc m_fw lid) = false ->
   exists stored,
     fst res = Ok (stored, ids_sharing lid lp)
     /\ find_one Launch.view [("launch_id", QEq (JInt lid))] []
          (LP.launches (snd res)) = Some stored
     /\ Launch.action stored = Launch.action (Firework.launch m_fw)
     /\ LP.gridfs_fallback (snd res) = LP.gridfs_fallback lp)
  /\ (too_large (first_doc m_fw lid) = true ->
      forall a returned,
        Launch.action (Firework.launch m_fw) = Some a ->
        fst res = Ok returned ->
        json_loads (json_dumps a) = Some a ->
        (forall fs, LP.gridfs_fallback lp = Some fs ->
                    GridFS.get (new_object_id fs) fs = None) ->
        exists stored,
          find_one Launch.view [("launch_id", QEq (JInt lid))] []
            (LP.launches (snd res)) = Some stored
          /\ fst returned = stored
          /\ read_action (Launch.action stored)
               (LP.gridfs_fallback (snd res)) = Ok (Some a)).
Proof.
  intros Hd Hidx Hlid. cbv zeta.
  rewrite (checkin_cases m_fw action state lp Hd Hidx Hlid).
  split; intros Hbig; rewrite Hbig.
  - exists (first_doc m_fw lid). split; [reflexivity|]. split.
    + cbn [snd written LP.with_launches LP.launches].
      apply find_one_after_replace_upsert.
      apply (matches_launch_id (first_doc m_fw lid)).
    + split; reflexivity.
  - intros a returned Hact Hok Hjson Hfresh. rewrite Hact in Hok |- *.
    destruct a as [|kv rest]; [discriminate|].
    destruct (LP.gridfs_fallback lp) as [fs|] eqn:Eg; [|discriminate].
    destruct (GridFS.has_launch lid fs) eqn:Edup; [discriminate|].
    destruct (too_large (token_doc m_fw lid fs)) eqn:E2; [discriminate|].
    cbn [fst] in Hok. injection Hok as <-.
    exists (token_doc m_fw lid fs). split.
    + cbn [snd written LP.with_launches LP.launches].
      apply find_one_after_replace_upsert.
      apply (matches_launch_id (token_doc m_fw lid fs)).
    + split; [reflexivity|].
      cbn [snd written blob_stored LP.with_launches LP.with_gridfs
             LP.gridfs_fallback token_doc Launch.set_action Launch.action].
      unfold get_action_from_gridfs, gridfs_token.
      cbn [Py.get String.eqb Ascii.eqb Bool.eqb].
      rewrite gridfs_get_new by exact (Hfresh fs eq_refl). now rewrite Hjson.
Qed.

End Checkin.

(* ===================================================================== *)
(** ** Scenarios *)
(* ===================================================================== *)

(** Concrete collaborators and stores on which the statements above are
    run. *)
Module Scenario.

(** A [get_fw_by_id]: the document of the firework, with the launches its
    list refers to and the launch at [launch_idx] as [launch]. *)
Definition fetch (i launch_idx : Z) (lp : LP.t) : Result Firework.t :=
  match find_one FwDoc.view [("fw_id", QEq (JInt i))] [] (LP.fireworks lp) with
  | None => Raise (ValueError "No Firework exists with id")
  | Some d =>
      let ls :=
        flat_map
          (fun lid =>
             match find_one Launch.view [("launch_id", QEq (JInt lid))] []
                     (LP.launches lp) with
             | Some l => [l]
             | None => []
             end) (FwDoc.launches d) in
      Ok (Firework.mk (FwDoc.fw_id d) (FwDoc.state d) (FwDoc.created_on d)
            (FwDoc.updated_on d) (FwDoc.spec d)
            (match Py.index ls launch_idx with
             | Some l => l
             | None => Launch.mk 0 (FwDoc.fw_id d) (FwDoc.state d) [] [] None
             end)
            (match ls with [] => None | _ => Some launch_idx end)
            ls)
  end.

(** A duplicate finder that compares the [job] entry of the specs.  The
    one named [exact] leaves [verify] unimplemented; any other compares
    the two [job] entries. *)
Definition job_of (spec : Dict) : J :=
  match Py.get "job" spec with Some v => v | None => JNull end.

Definition load (o : J) : DupeFinder :=
  mkDupeFinder
    (fun spec => [("spec.job", QEq (job_of spec))])
    (fun spec1 spec2 =>
       match o with
       | JStr "exact" => Raise NotImplementedError
       | _ => Ok (J_eqb (job_of spec1) (job_of spec2))
       end).

(** [{'$set': {'launches': ids}}] *)
Definition set_launches (ids : list Z) (d : FwDoc.t) : FwDoc.t :=
  FwDoc.mk (FwDoc.fw_id d) (FwDoc.state d) (FwDoc.created_on d)
    (FwDoc.updated_on d) (FwDoc.spec d) ids.

(** A [_check_fw_for_uniqueness], which the sources leave to the base
    class.  It follows the name and the docstring of [_steal_launches]
    ('False if the given firework is unique'): the firework is unique
    when nothing was stolen, and the merged launch list of a duplicate is
    written to its document. *)
Definition check (m_fw : Firework.t) : M (bool * Firework.t) :=
  fun lp =>
    match _steal_launches fetch load m_fw lp with
    | Raise e => (Raise e, lp)
    | Ok (true, thief) =>
        (Ok (false, thief),
         LP.with_fireworks
           (update_one FwDoc.view
              [("fw_id", QEq (JInt (Firework.fw_id thief)))]
              (set_launches (launch_ids_of thief)) (LP.fireworks lp)) lp)
    | Ok (false, thief) => (Ok (true, thief), lp)
    end.

(** Modelled from the spec: [Firework.STATE_RANKS], which the sources do
    not include.  DEFUSED, PAUSED and WAITING rank below READY, RESERVED
    and FIZZLED, which rank at most 0; RUNNING and OFFLINE-RUNNING rank
    above 0 and below COMPLETED. *)
Definition ranks (s : string) : option Z :=
  match s with
  | "DEFUSED" | "PAUSED" | "WAITING" => Some (-1)
  | "READY" | "RESERVED" | "FIZZLED" => Some 0
  | "RUNNING" | "OFFLINE-RUNNING" => Some 1
  | "COMPLETED" => Some 2
  | _ => None
  end.

(** A setter of [Firework.state] that records the transition in the
    launch's history. *)
Definition set_state (s : string) (fw : Firework.t) : Firework.t :=
  let l := Firework.launch fw in
  Firework.mk (Firework.fw_id fw) s (Firework.created_on fw)
    (Firework.updated_on fw) (Firework.spec fw)
    (Launch.mk (Launch.launch_id l) (Launch.fw_id l) s
       (Launch.state_history l
        ++ [Hist.mk s (Firework.updated_on fw) (Firework.updated_on fw)])
       (Launch.trackers l) (Launch.action l))
    (Firework.launch_idx fw) (Firework.launches fw).

(** A store that refuses launches with more than three entries in
    trackers and action together. *)
Definition refuses (l : Launch.t) : bool :=
  Nat.ltb 3
    (List.length (Launch.trackers l)
     + match Launch.action l with
       | Some a => List.length a
       | None => 0
       end).

(** A serialization of flat dictionaries of strings, written
    [key=value;] entry after entry. *)
Fixpoint dumps (d : Dict) : string :=
  match d with
  | [] => EmptyString
  | (k, JStr v) :: r =>
      String.append k (String "=" (String.append v (String ";" (dumps r))))
  | (k, _) :: r => String.append k (String "=" (String ";" (dumps r)))
  end.

Fixpoint loads_from (s key cur : string) (in_value : bool) (acc : Dict)
  : option Dict :=
  match s with
  | EmptyString =>
      if in_value then None
      else match cur with EmptyString => Some (rev acc) | _ => None end
  | String c s' =>
      if Ascii.eqb c "="%char then
        if in_value then None else loads_from s' cur EmptyString true acc
      else if Ascii.eqb c ";"%char then
        if in_value
        then loads_from s' EmptyString EmptyString false
               ((key, JStr cur) :: acc)
        else None
      else loads_from s' key (String.append cur (String c EmptyString))
             in_value acc
  end.

Definition loads (s : string) : option Dict :=
  loads_from s EmptyString EmptyString false [].

(** File ids handed out in sequence. *)
Fixpoint oid_of (n : nat) : string :=
  match n with
  | O => "f"
  | S m => String "0" (oid_of m)
  end.

Definition new_id (fs : GridFS.t) : string := oid_of (List.length fs).

(** An [_upsert_fws] that keeps every id, a [_reassign_ids] with nothing
    to do for it, and a [to_db_dict] that lists the nodes. *)
Definition upsert (fws : list Firework.t) : M (list (Z * Z)) :=
  ret (map (fun fw => (Firework.fw_id fw, Firework.fw_id fw)) fws).

Definition reassign (old_new : list (Z * Z)) (wf : Workflow.t) : Workflow.t :=
  wf.

Definition to_db_dict (wf : Workflow.t) : Dict :=
  ("nodes", JList (map (fun p => JInt (fst p)) (Workflow.id_fw wf)))
  :: Workflow.body wf.

(** *** Stores *)

(** A queue of three READY fireworks and a WAITING one. *)
Definition queue : LP.t :=
  LP.mk
    [FwDoc.mk 1 "READY" 10 10 [("_priority", JInt 1)] [];
     FwDoc.mk 2 "READY" 30 30 [("_priority", JInt 5)] [];
     FwDoc.mk 3 "READY" 20 20 [("_priority", JInt 5)] [];
     FwDoc.mk 4 "WAITING" 5 5 [("_priority", JInt 9)] []]
    [] [] None (Some (5, 1)) 100.

(** The id of the firework a checkout returned. *)
Definition returned_id (r : option (Result (option Firework.t) * LP.t))
  : option Z :=
  match r with
  | Some (Ok (Some fw), _) => Some (Firework.fw_id fw)
  | _ => None
  end.

(** A completed firework with its launch, a READY duplicate of it with a
    higher priority, and an unrelated READY firework. *)
Definition done_launch : Launch.t :=
  Launch.mk 10 1 "COMPLETED" [Hist.mk "COMPLETED" 2 2] []
    (Some [("stored_data", JStr "x")]).

Definition done_fw : FwDoc.t :=
  FwDoc.mk 1 "COMPLETED" 1 2
    [("job", JStr "a"); ("_dupefinder", JStr "exact")] [10].

Definition duplicate_fw : FwDoc.t :=
  FwDoc.mk 2 "READY" 3 3
    [("_priority", JInt 5); ("job", JStr "a"); ("_dupefinder", JStr "exact")]
    [].

Definition other_fw : FwDoc.t :=
  FwDoc.mk 3 "READY" 4 4 [("_priority", JInt 1); ("job", JStr "b")] [].

Definition with_duplicate : LP.t :=
  LP.mk [done_fw; duplicate_fw; other_fw] [done_launch] [] None
    (Some (4, 11)) 100.

(** The same store once the duplicate is reserved, and once its launch
    list is merged. *)
Definition after_reserve : LP.t :=
  LP.mk [done_fw; reserve 100 duplicate_fw; other_fw] [done_launch] [] None
    (Some (4, 11)) 100.

Definition after_check : LP.t :=
  LP.mk [done_fw; set_launches [10] (reserve 100 duplicate_fw); other_fw]
    [done_launch] [] None (Some (4, 11)) 100.

Definition after_checkout : LP.t :=
  LP.mk [done_fw; set_launches [10] (reserve 100 duplicate_fw);
         reserve 100 other_fw]
    [done_launch] [] None (Some (4, 11)) 100.

(** The objects [fetch] builds for the duplicate and for the other
    firework once reserved. *)
Definition duplicate_obj : Firework.t :=
  Firework.mk 2 "RESERVED" 3 100 (FwDoc.spec duplicate_fw)
    (Launch.mk 0 2 "RESERVED" [] [] None) None [].

Definition other_obj : Firework.t :=
  Firework.mk 3 "RESERVED" 4 100 (FwDoc.spec other_fw)
    (Launch.mk 0 3 "RESERVED" [] [] None) None [].

(** A duplicate finder with a wide query -- every firework that declares
    a duplicate finder -- which leaves the decision to [verify]: two
    specs are duplicates when their [job] entries agree. *)
Definition load_wide (o : J) : DupeFinder :=
  mkDupeFinder
    (fun _ => [("spec._dupefinder", QExists true)])
    (fun spec1 spec2 => Ok (J_eqb (job_of spec1) (job_of spec2))).

(** Two completed fireworks with a launch each, of the jobs [a] and [b],
    and a READY firework of the job [a]: the query of [load_wide] returns
    all three, [verify] accepts the first and the thief itself. *)
Definition launch_a : Launch.t :=
  Launch.mk 10 1 "COMPLETED" [Hist.mk "COMPLETED" 2 2] [] None.

Definition launch_b : Launch.t :=
  Launch.mk 11 2 "COMPLETED" [Hist.mk "COMPLETED" 3 3] [] None.

Definition job_a_fw : FwDoc.t :=
  FwDoc.mk 1 "COMPLETED" 1 2
    [("job", JStr "a"); ("_dupefinder", JStr "wide")] [10].

Definition job_b_fw : FwDoc.t :=
  FwDoc.mk 2 "COMPLETED" 1 3
    [("job", JStr "b"); ("_dupefinder", JStr "wide")] [11].

Definition thief_fw : FwDoc.t :=
  FwDoc.mk 3 "READY" 4 4
    [("job", JStr "a"); ("_dupefinder", JStr "wide")] [].

Definition two_candidates : LP.t :=
  LP.mk [job_a_fw; job_b_fw; thief_fw] [launch_a; launch_b] [] None
    (Some (4, 12)) 100.

Definition thief_obj : Firework.t :=
  Firework.mk 3 "READY" 4 4 (FwDoc.spec thief_fw)
    (Launch.mk 0 3 "READY" [] [] None) None [].

(** A READY firework of a job of its own among the same candidates. *)
Definition loner_obj : Firework.t :=
  Firework.mk 4 "READY" 5 5
    [("job", JStr "c"); ("_dupefinder", JStr "wide")]
    (Launch.mk 0 4 "READY" [] [] None) None [].

(** A running firework whose launch carries an action of three entries,
    and one whose launch has four trackers. *)
Definition result_action : Dict :=
  [("stored_data", JStr "x"); ("exit", JStr "no"); ("detours", JStr "none")].

Definition running_fw : FwDoc.t := FwDoc.mk 5 "RUNNING" 1 2 [] [20].

Definition running_launch (trackers : list J) (action : option Dict)
  : Launch.t :=
  Launch.mk 20 5 "COMPLETED"
    [Hist.mk "RUNNING" 2 2; Hist.mk "COMPLETED" 3 3] trackers action.

Definition finished_obj : Firework.t :=
  Firework.mk 5 "COMPLETED" 1 3 []
    (running_launch [JInt 1] (Some result_action)) (Some 0) [].

Definition tracked_obj : Firework.t :=
  Firework.mk 5 "COMPLETED" 1 3 []
    (running_launch [JInt 1; JInt 2; JInt 3; JInt 4]
       (Some [("stored_data", JStr "x")])) (Some 0) [].

Definition running (fs : option GridFS.t) : LP.t :=
  LP.mk [running_fw]
    [Launch.mk 20 5 "RUNNING" [Hist.mk "RUNNING" 2 2] [] None] [] fs
    (Some (6, 21)) 100.

(** The launch of the running firework as stored, and the object [fetch]
    builds for the firework. *)
Definition stored_launch : Launch.t :=
  Launch.mk 20 5 "RUNNING" [Hist.mk "RUNNING" 2 2] [] None.

Definition running_obj : Firework.t :=
  Firework.mk 5 "RUNNING" 1 2 [] stored_launch (Some (-1)) [stored_launch].

(** The store after the launch was checked in over the size limit: its
    action is in the blob store. *)
Definition checked_in : LP.t :=
  snd (_checkin_fw refuses dumps new_id finished_obj None "COMPLETED"
         (running (Some []))).

(** A fizzled firework with the launch of its failed attempt. *)
Definition fizzled_launch : Launch.t :=
  Launch.mk 30 6 "FIZZLED" [Hist.mk "RUNNING" 2 2; Hist.mk "FIZZLED" 3 3] []
    None.

Definition fizzled_obj : Firework.t :=
  Firework.mk 6 "FIZZLED" 1 50 [] fizzled_launch (Some 0) [fizzled_launch].

Definition fizzled : LP.t :=
  LP.mk [FwDoc.mk 6 "FIZZLED" 1 3 [] [30]] [fizzled_launch] [] None
    (Some (7, 31)) 100.

(** A firework reserved at time 1000, seen at time [now]. *)
Definition reserved_launch : Launch.t :=
  Launch.mk 40 7 "RESERVED" [Hist.mk "RESERVED" 1000 1000] [] None.

Definition reserved_at (now : Z) : LP.t :=
  LP.mk [FwDoc.mk 7 "RESERVED" 900 1000 [] [40]] [reserved_launch] [] None
    (Some (8, 41)) now.

(** A locked workflow of two fireworks. *)
Definition flow : Workflow.t :=
  Workflow.mk [(1, other_obj); (2, duplicate_obj)]
    [("name", JStr "flow"); ("state", JStr "RUNNING")].

Definition flows : LP.t :=
  LP.mk [] [] 
    [[("nodes", JList [JInt 1; JInt 2]); ("name", JStr "flow");
      ("state", JStr "READY"); ("locked", JBool true)]]
    None (Some (3, 1)) 100.

End Scenario.

(** *** Checkout on the queue *)

Example checkout_fifo_takes_oldest_of_highest :
  Scenario.returned_id
    (_get_a_fw_to_run "FIFO" Scenario.fetch Scenario.check 1 None None (-1)
       true Scenario.queue) = Some 3.
Proof. reflexivity. Qed.

Example checkout_filo_takes_newest_of_highest :
  Scenario.returned_id
    (_get_a_fw_to_run "filo" Scenario.fetch Scenario.check 1 None None (-1)
       true Scenario.queue) = Some 2.
Proof. reflexivity. Qed.

Example checkout_exhausted :
  let lp := LP.mk [FwDoc.mk 4 "WAITING" 5 5 [] []] [] [] None None 100 in
  _get_a_fw_to_run "FIFO" Scenario.fetch Scenario.check 1 None None (-1)
    true lp = Some (Ok None, lp).
Proof. reflexivity. Qed.

Lemma checkout_reserves_first_ready_witness :
  exists i d,
    nth_error (LP.fireworks Scenario.queue) i = Some d
    /\ FwDoc.state d = "READY"
    /\ reserve_one "FIFO" (checkout_query None None) Scenario.queue
       = (Ok (Some d),
          LP.with_fireworks
            (replace_at i (reserve 100) (LP.fireworks Scenario.queue))
            Scenario.queue).
Proof.
  destruct (checkout_reserves_first_ready "FIFO" Scenario.fetch Scenario.check
              None Scenario.queue 0)
    as [[Hno _] | [i [d [Hn [Hs [_ [_ [Hr _]]]]]]]].
  - exfalso.
    specialize (Hno (FwDoc.mk 1 "READY" 10 10 [("_priority", JInt 1)] [])
                  (or_introl eq_refl)).
    discriminate Hno.
  - exists i, d. split; [exact Hn|]. split; [exact Hs | exact Hr].
Defined.

(** *** Checkout in front of a duplicate *)

(** C2 fails on the code: the duplicate is reserved first, the check
    reports it a duplicate, and the call returns the next firework. *)
Lemma checkout_returns_next_after_duplicate :
  reserve_one "FIFO" (checkout_query None None) Scenario.with_duplicate
  = (Ok (Some Scenario.duplicate_fw), Scenario.after_reserve)
  /\ Scenario.fetch 2 (-1) Scenario.after_reserve = Ok Scenario.duplicate_obj
  /\ _steal_launches Scenario.fetch Scenario.load Scenario.duplicate_obj
       Scenario.after_reserve
     = Ok (true, add_launches [Scenario.done_launch] Scenario.duplicate_obj)
  /\ Scenario.check Scenario.duplicate_obj Scenario.after_reserve
     = (Ok (false, add_launches [Scenario.done_launch] Scenario.duplicate_obj),
        Scenario.after_check)
  /\ _get_a_fw_to_run "FIFO" Scenario.fetch Scenario.check 2 None None (-1)
       true Scenario.with_duplicate
     = Some (Ok (Some Scenario.other_obj), Scenario.after_checkout)
  /\ Firework.fw_id Scenario.other_obj = 3
  /\ FwDoc.fw_id Scenario.duplicate_fw = 2.
Proof. repeat split; reflexivity. Qed.

(** The check of the scenarios rewrites launch lists only. *)
Lemma check_keeps_ready_ids (c : Firework.t) (lpa : LP.t) (i : Z) :
  In i (ready_ids (snd (Scenario.check c lpa))) -> In i (ready_ids lpa).
Proof.
  unfold Scenario.check.
  destruct (_steal_launches Scenario.fetch Scenario.load c lpa)
    as [[[] thief]|e]; cbn [snd]; try (intros H; exact H).
  unfold update_one, find_one_and_update.
  destruct (find_one_at FwDoc.view _ [] (LP.fireworks lpa)) as [[k d]|];
    cbn [snd].
  - rewrite ready_ids_replace_at; [intros H; exact H|].
    intros d0. split; reflexivity.
  - now rewrite with_fireworks_same.
Qed.

Lemma checkout_skips_duplicates_witness :
  _get_a_fw_to_run "FIFO" Scenario.fetch Scenario.check 2 None None (-1) true
    Scenario.with_duplicate
  = _get_a_fw_to_run "FIFO" Scenario.fetch Scenario.check 1 None None (-1)
      true Scenario.after_check
  /\ ready_ids Scenario.after_reserve = [3]
  /\ exists d' lpa lpb c,
       reserve_one "FIFO" (checkout_query None None) lpa = (Ok (Some d'), lpb)
       /\ FwDoc.fw_id d' <> 2
       /\ Scenario.fetch (FwDoc.fw_id d') (-1) lpb = Ok c
       /\ Scenario.check c lpb
          = (Ok (true, Scenario.other_obj), Scenario.after_checkout).
Proof.
  pose proof (@checkout_skips_duplicates "FIFO" Scenario.fetch Scenario.check
                1 None Scenario.with_duplicate Scenario.after_reserve
                Scenario.after_check Scenario.duplicate_fw
                Scenario.duplicate_obj
                (add_launches [Scenario.done_launch] Scenario.duplicate_obj)
                eq_refl eq_refl eq_refl) as H.
  destruct H as [Hstep [Hother _]].
  - cbn. intros [H | []]. discriminate H.
  - exact check_keeps_ready_ids.
  - split; [exact Hstep|]. split; [reflexivity|].
    exact (Hother 2%nat Scenario.other_obj Scenario.after_checkout eq_refl).
Defined.

(** Asked for the duplicate by its id, the checkout comes back to it: the
    second turn finds it RESERVED, its launch list merged, and the check
    passes. *)
Example checkout_by_id_returns_duplicate :
  reserve_one "FIFO" (checkout_query None (Some 2)) Scenario.after_check
  = (Ok (Some (Scenario.set_launches [10]
                 (reserve 100 Scenario.duplicate_fw))),
     Scenario.after_check)
  /\ _get_a_fw_to_run "FIFO" Scenario.fetch Scenario.check 2 None (Some 2)
       (-1) true Scenario.with_duplicate
     = Some (Ok (Some (Firework.mk 2 "RESERVED" 3 100
                         (FwDoc.spec Scenario.duplicate_fw)
                         Scenario.done_launch (Some (-1))
                         [Scenario.done_launch])),
             Scenario.after_check).
Proof. split; reflexivity. Qed.

(** *** Duplicate merging *)

(** The query returns three candidates; [verify] refuses the one of the
    other job, and only the launch of the verified victim is taken. *)
Lemma steal_launches_merges_witness :
  find FwDoc.view
    (df_query (Scenario.load_wide (JStr "wide"))
       (Firework.spec Scenario.thief_obj))
    (LP.fireworks Scenario.two_candidates)
  = [Scenario.job_a_fw; Scenario.job_b_fw; Scenario.thief_fw]
  /\ df_verify (Scenario.load_wide (JStr "wide"))
       (Firework.spec Scenario.thief_obj) (FwDoc.spec Scenario.job_b_fw)
     = Ok false
  /\ Scenario.fetch 2 (-1) Scenario.two_candidates
     = Ok (Firework.mk 2 "COMPLETED" 1 3 (FwDoc.spec Scenario.job_b_fw)
             Scenario.launch_b (Some (-1)) [Scenario.launch_b])
  /\ _steal_launches Scenario.fetch Scenario.load_wide Scenario.thief_obj
       Scenario.two_candidates
     = Ok (true, add_launches [Scenario.launch_a] Scenario.thief_obj)
  /\ exists added,
       added = [Scenario.launch_a]
       /\ (true = true <-> added <> [])
       /\ forall l, In l added ->
            ~ In (Launch.launch_id l) (launch_ids_of Scenario.thief_obj)
            /\ exists pm victim,
                 @verified_candidate Scenario.load_wide Scenario.thief_obj
                   Scenario.two_candidates pm
                 /\ Scenario.fetch (FwDoc.fw_id pm) (-1)
                      Scenario.two_candidates = Ok victim
                 /\ In l (Firework.launches victim).
Proof.
  split; [reflexivity|]. split; [reflexivity|]. split; [reflexivity|].
  split; [reflexivity|].
  destruct (@steal_launches_merges Scenario.fetch Scenario.load_wide
              Scenario.thief_obj Scenario.two_candidates true
              (add_launches [Scenario.launch_a] Scenario.thief_obj)
              eq_refl) as [added [H1 [H2 [_ [H4 _]]]]].
  exists added. split; [|split; [exact H2 | exact H4]].
  unfold add_launches in H1. cbn in H1. injection H1 as H1.
  symmetry. exact H1.
Defined.

(** With a duplicate finder that leaves [verify] unimplemented every
    candidate of the query counts as verified. *)
Example steal_launches_skips_verification :
  verify_skipped (Scenario.load (JStr "exact")) = true
  /\ _steal_launches Scenario.fetch Scenario.load Scenario.duplicate_obj
       Scenario.after_reserve
     = Ok (true, add_launches [Scenario.done_launch] Scenario.duplicate_obj).
Proof. split; reflexivity. Qed.

(** A candidate for which [verify] answers no is not verified, and a
    thief whose candidates are all refused steals nothing. *)
Example steal_launches_refused :
  verify_skipped (Scenario.load_wide (JStr "wide")) = false
  /\ ~ verified_match (Scenario.load_wide (JStr "wide"))
         (Firework.spec Scenario.thief_obj) Scenario.job_b_fw
  /\ find FwDoc.view
       (df_query (Scenario.load_wide (JStr "wide"))
          (Firework.spec Scenario.loner_obj))
       (LP.fireworks Scenario.two_candidates)
     = [Scenario.job_a_fw; Scenario.job_b_fw; Scenario.thief_fw]
  /\ _steal_launches Scenario.fetch Scenario.load_wide Scenario.loner_obj
       Scenario.two_candidates
     = Ok (false, Scenario.loner_obj).
Proof.
  split; [reflexivity|]. split; [|split; reflexivity].
  intros [H | H]; discriminate H.
Qed.

Example steal_launches_unique :
  _steal_launches Scenario.fetch Scenario.load Scenario.other_obj
    Scenario.after_reserve = Ok (false, Scenario.other_obj).
Proof. reflexivity. Qed.

(** *** Checkin over the size limit *)

Example dumps_loads_result_action :
  Scenario.loads (Scenario.dumps Scenario.result_action)
  = Some Scenario.result_action.
Proof. reflexivity. Qed.

(** C4 fails on the code where the launch is too large even without its
    action: a blob store is configured, the action is moved to it, the
    second write is refused as well and the checkin ends in the size
    failure. *)
Lemma checkin_fails_with_blob_store :
  LP.gridfs_fallback (Scenario.running (Some [])) = Some []
  /\ Launch.action (Firework.launch Scenario.tracked_obj)
     = Some [("stored_data", JStr "x")]
  /\ Scenario.refuses (first_doc Scenario.tracked_obj 20) = true
  /\ _checkin_fw Scenario.refuses Scenario.dumps Scenario.new_id
       Scenario.tracked_obj None "COMPLETED" (Scenario.running (Some []))
     = (Raise (DocumentTooLarge too_large_msg),
        blob_stored Scenario.dumps Scenario.new_id 20
          [("stored_data", JStr "x")] [] (Scenario.running (Some []))).
Proof. repeat split; reflexivity. Qed.

Lemma checkin_overflow_witness :
  _checkin_fw Scenario.refuses Scenario.dumps Scenario.new_id
    Scenario.finished_obj None "COMPLETED" (Scenario.running (Some []))
  = (Ok (token_doc Scenario.new_id Scenario.finished_obj 20 [], [5]),
     written 20 (token_doc Scenario.new_id Scenario.finished_obj 20 [])
       (blob_stored Scenario.dumps Scenario.new_id 20 Scenario.result_action
          [] (Scenario.running (Some []))))
  /\ _checkin_fw Scenario.refuses Scenario.dumps Scenario.new_id
       Scenario.finished_obj None "COMPLETED" (Scenario.running None)
     = (Raise (DocumentTooLarge (String.append too_large_msg gridfs_hint)),
        Scenario.running None)
  /\ _checkin_fw Scenario.refuses Scenario.dumps Scenario.new_id
       Scenario.finished_obj None "COMPLETED" Scenario.checked_in
     = (Raise (DuplicateKeyError "metadata.launch_id"), Scenario.checked_in).
Proof.
  split; [|split].
  - pose proof (@checkin_overflow Scenario.refuses Scenario.dumps
                  Scenario.new_id Scenario.finished_obj None "COMPLETED"
                  (Scenario.running (Some [])) Scenario.running_fw 0 20
                  ("stored_data", JStr "x")
                  [("exit", JStr "no"); ("detours", JStr "none")]
                  eq_refl eq_refl eq_refl eq_refl eq_refl) as H.
    cbv zeta in H. cbn [LP.gridfs_fallback Scenario.running] in H.
    destruct H as [_ H]. destruct (H eq_refl) as [_ [_ [Hfit _]]].
    exact (proj1 (Hfit eq_refl)).
  - exact (@checkin_overflow Scenario.refuses Scenario.dumps
             Scenario.new_id Scenario.finished_obj None "COMPLETED"
             (Scenario.running None) Scenario.running_fw 0 20
             ("stored_data", JStr "x")
             [("exit", JStr "no"); ("detours", JStr "none")]
             eq_refl eq_refl eq_refl eq_refl eq_refl).
  - pose proof (@checkin_overflow Scenario.refuses Scenario.dumps
                  Scenario.new_id Scenario.finished_obj None "COMPLETED"
                  Scenario.checked_in Scenario.running_fw 0 20
                  ("stored_data", JStr "x")
                  [("exit", JStr "no"); ("detours", JStr "none")]
                  eq_refl eq_refl eq_refl eq_refl eq_refl) as H.
    cbv zeta in H. exact (proj1 H eq_refl).
Defined.

Lemma checkin_action_roundtrip_witness :
  exists stored,
    find_one Launch.view [("launch_id", QEq (JInt 20))] []
      (LP.launches
         (snd (_checkin_fw Scenario.refuses Scenario.dumps Scenario.new_id
                 Scenario.finished_obj None "COMPLETED"
                 (Scenario.running (Some []))))) = Some stored
    /\ Launch.action stored = Some (gridfs_token "f")
    /\ get_action_from_gridfs Scenario.loads (Launch.action stored)
         (LP.gridfs_fallback
            (snd (_checkin_fw Scenario.refuses Scenario.dumps Scenario.new_id
                    Scenario.finished_obj None "COMPLETED"
                    (Scenario.running (Some [])))))
       = Ok (Some Scenario.result_action).
Proof.
  destruct (@checkin_action_roundtrip Scenario.refuses Scenario.dumps
              Scenario.loads Scenario.new_id Scenario.finished_obj None
              "COMPLETED" (Scenario.running (Some [])) Scenario.running_fw
              0 20 eq_refl eq_refl eq_refl) as [_ Hbig].
  destruct (Hbig eq_refl Scenario.result_action
              (token_doc Scenario.new_id Scenario.finished_obj 20 [], [5])
              eq_refl eq_refl eq_refl)
    as [stored [Hfind [Hret Hread]]].
  - intros fs [= <-]. reflexivity.
  - exists stored. split; [exact Hfind|]. split; [|exact Hread].
    now rewrite <- Hret.
Defined.

Example checkin_inline_under_limit :
  let m_fw :=
    Firework.mk 5 "COMPLETED" 1 3 []
      (Scenario.running_launch [] (Some [("stored_data", JStr "x")]))
      (Some 0) [] in
  let res :=
    _checkin_fw Scenario.refuses Scenario.dumps Scenario.new_id m_fw None
      "COMPLETED" (Scenario.running (Some [])) in
  fst res = Ok (Firework.launch m_fw, [5])
  /\ LP.launches (snd res) = [Firework.launch m_fw]
  /\ LP.gridfs_fallback (snd res) = Some [].
Proof. repeat split; reflexivity. Qed.

(** *** Conditional update *)

(** A refused update, and the transition of the running firework to
    COMPLETED: the document gets the state and the timestamp of the
    object, the launch its history, and the object is returned. *)
Lemma update_fw_conditional_witness :
  _update_fw Scenario.ranks Scenario.fetch Scenario.set_state
    (Obj Scenario.finished_obj) (Some "RUNNING")
    (AllowedList ["READY"; "RESERVED"]) (-1) true None
    (Scenario.running None)
  = (Ok None, Scenario.running None)
  /\ Scenario.fetch 5 (-1) (Scenario.running None) = Ok Scenario.running_obj
  /\ fst (_update_fw Scenario.ranks Scenario.fetch Scenario.set_state
            (ById 5) (Some "COMPLETED") (AllowedStr "RUNNING") (-1) true None
            (Scenario.running None))
     = Ok (Some (Scenario.set_state "COMPLETED" Scenario.running_obj))
  /\ rewritten_at 0 (FwDoc.mk 5 "COMPLETED" 1 2 [] [20])
       [Scenario.running_fw]
       (LP.fireworks
          (snd (_update_fw Scenario.ranks Scenario.fetch Scenario.set_state
                  (ById 5) (Some "COMPLETED") (AllowedStr "RUNNING") (-1)
                  true None (Scenario.running None))))
  /\ rewritten_at 0
       (Launch.mk 20 5 "RUNNING"
          [Hist.mk "RUNNING" 2 2; Hist.mk "COMPLETED" 2 2] [] None)
       [Scenario.stored_launch]
       (LP.launches
          (snd (_update_fw Scenario.ranks Scenario.fetch Scenario.set_state
                  (ById 5) (Some "COMPLETED") (AllowedStr "RUNNING") (-1)
                  true None (Scenario.running None)))).
Proof.
  split.
  { exact (proj1
             (@update_fw_conditional Scenario.ranks Scenario.fetch
                Scenario.set_state (Obj Scenario.finished_obj)
                (Some "RUNNING") (AllowedList ["READY"; "RESERVED"]) (-1)
                true None (Scenario.running None) Scenario.finished_obj
                eq_refl)
             eq_refl). }
  split; [reflexivity|].
  pose proof (@update_fw_conditional Scenario.ranks Scenario.fetch
                Scenario.set_state (ById 5) (Some "COMPLETED")
                (AllowedStr "RUNNING") (-1) true None
                (Scenario.running None) Scenario.running_obj eq_refl) as H.
  cbv zeta in H. destruct H as [_ H].
  destruct (H eq_refl) as [_ Hok].
  destruct (Hok false eq_refl) as [_ Hwrite].
  destruct (Hwrite 0%nat Scenario.running_fw) as [Hfw [_ [_ Hlaunch]]].
  { split; [reflexivity|]. split; [split; reflexivity|].
    intros k x Hk. lia. }
  destruct (Hlaunch 20 eq_refl eq_refl) as [Hres [_ Hsync]].
  split; [exact Hres|]. split; [exact Hfw|].
  apply (Hsync 0%nat Scenario.stored_launch).
  split; [reflexivity|]. split; [reflexivity|].
  intros k x Hk. lia.
Defined.

Example update_fw_allowed_transition :
  let res :=
    _update_fw Scenario.ranks Scenario.fetch Scenario.set_state (ById 5)
      (Some "COMPLETED") (AllowedStr "RUNNING") (-1) true None
      (Scenario.running None) in
  map FwDoc.state (LP.fireworks (snd res)) = ["COMPLETED"]
  /\ map (fun l => map Hist.state (Launch.state_history l))
       (LP.launches (snd res)) = [["RUNNING"; "COMPLETED"]].
Proof. split; reflexivity. Qed.

(** C7 fails on the code in its second half: the firework goes from
    FIZZLED to RUNNING, its old launch is left alone, and no new launch
    is made (the launch list of the firework, the launches collection
    and the id counter are what they were). *)
Lemma update_fw_rerun_makes_no_launch :
  let res :=
    _update_fw Scenario.ranks Scenario.fetch Scenario.set_state
      (Obj Scenario.fizzled_obj) (Some "RUNNING") AllowedNone (-1) true None
      Scenario.fizzled in
  reset_launch_of Scenario.ranks (Some "RUNNING") "FIZZLED" = Ok true
  /\ LP.fireworks (snd res) = [FwDoc.mk 6 "RUNNING" 1 50 [] [30]]
  /\ LP.launches (snd res) = [Scenario.fizzled_launch]
  /\ LP.fw_id_assigner (snd res) = Some (7, 31)
  /\ map FwDoc.launches (LP.fireworks (snd res))
     = map FwDoc.launches (LP.fireworks Scenario.fizzled).
Proof. cbv zeta. repeat split; reflexivity. Qed.

Lemma update_fw_rerun_keeps_launches_witness :
  LP.launches
    (snd (_update_fw Scenario.ranks Scenario.fetch Scenario.set_state
            (Obj Scenario.fizzled_obj) (Some "RUNNING") AllowedNone (-1) true
            None Scenario.fizzled))
  = LP.launches Scenario.fizzled.
Proof.
  exact (proj1
           (@update_fw_rerun_keeps_launches Scenario.ranks Scenario.fetch
              Scenario.set_state (Obj Scenario.fizzled_obj) "RUNNING"
              AllowedNone (-1) true None Scenario.fizzled
              Scenario.fizzled_obj 1 0 eq_refl eq_refl eq_refl eq_refl
              (Z.le_refl 0))).
Defined.

(** *** Timed-out reservations *)

Lemma find_timeout_fws_exact_witness :
  In 7 (_find_timeout_fws "RESERVED" 60 None (Scenario.reserved_at 1060))
  /\ ~ In 7 (_find_timeout_fws "RESERVED" 60 None (Scenario.reserved_at 1059)).
Proof.
  assert (Huniq : forall now l',
             In l' (LP.launches (Scenario.reserved_at now)) ->
             Launch.fw_id l' = Launch.fw_id Scenario.reserved_launch ->
             l' = Scenario.reserved_launch).
  { intros now l' [<- | []] _. reflexivity. }
  split.
  - apply (proj2 (proj2 (find_timeout_fws_exact "RESERVED" 60 None
                           (Scenario.reserved_at 1060)))
             1000 Scenario.reserved_launch (or_introl eq_refl) eq_refl
             eq_refl (Huniq 1060)).
    cbn. lia.
  - intros H.
    apply (proj2 (proj2 (find_timeout_fws_exact "RESERVED" 60 None
                           (Scenario.reserved_at 1059)))
             1000 Scenario.reserved_launch (or_introl eq_refl) eq_refl
             eq_refl (Huniq 1059)) in H.
    cbn in H. lia.
Defined.

(** *** Workflow rewrite *)

Lemma update_wf_writes_locked_witness :
  exists i doc,
    nth_error
      (LP.workflows
         (snd (_update_wf Scenario.upsert Scenario.reassign
                 Scenario.to_db_dict Scenario.flow [2] Scenario.flows))) i
    = Some doc
    /\ Py.get "locked" doc = Some (JBool true).
Proof.
  destruct (update_wf_writes_locked Scenario.upsert Scenario.reassign
              Scenario.to_db_dict Scenario.flow [2] Scenario.flows)
    as [[Hne _] | [i [old [doc [_ [_ [_ [Hn [Hl _]]]]]]]]].
  - exfalso. apply Hne. reflexivity.
  - exists i, doc. split; [exact Hn | exact Hl].
Defined.

Example update_wf_result :
  LP.workflows
    (snd (_update_wf Scenario.upsert Scenario.reassign Scenario.to_db_dict
            Scenario.flow [2] Scenario.flows))
  = [[("nodes", JList [JInt 1; JInt 2]); ("name", JStr "flow");
      ("state", JStr "RUNNING"); ("locked", JBool true)]].
Proof. reflexivity. Qed.

(* ===================================================================== *)
(** * The rest of the launchpad *)
(* ===================================================================== *)

From Stdlib Require Finite.

(* ===================================================================== *)
(** ** Identifiers *)
(* ===================================================================== *)

(** [_restart_ids]: the counter collection is emptied and one record is
    written. *)
Definition _restart_ids (next_fw_id next_launch_id : Z) : M unit :=
  modify (LP.with_assigner (Some (next_fw_id, next_launch_id))).

(** [_reset]: the three collections are emptied, the counters restart at
    1, the two collections of the blob store are dropped when one is
    configured.  ([tuneup], which follows, builds indexes and touches no
    document.) *)
Definition _reset : M unit :=
  modify (fun lp => LP.with_fireworks [] lp) ;;;
  modify (fun lp => LP.with_launches [] lp) ;;;
  modify (fun lp => LP.with_workflows [] lp) ;;;
  _restart_ids 1 1 ;;;
  modify (fun lp =>
            match LP.gridfs_fallback lp with
            | Some _ => LP.with_gridfs (Some []) lp
            | None => lp
            end).

(** A caller's sequence of calls [f q] for the [q] of a list, stopping at
    the first exception. *)
Fixpoint calls {A B : Type} (f : A -> M B) (qs : list A) : M (list B) :=
  match qs with
  | [] => ret []
  | q :: rest =>
      r <- f q ;;
      rs <- calls f rest ;;
      ret (r :: rs)
  end.

(** The first ids a sequence of requests is granted, from [start]. *)
Fixpoint granted (start : Z) (qs : list Z) : list Z :=
  match qs with
  | [] => []
  | q :: rest => start :: granted (start + q) rest
  end.

Definition total (qs : list Z) : Z := fold_right Z.add 0 qs.

Lemma with_assigner_twice (a b : option (Z * Z)) (lp : LP.t) :
  LP.with_assigner a (LP.with_assigner b lp) = LP.with_assigner a lp.
Proof. reflexivity. Qed.

Lemma calls_get_new_fw_id (qs : list Z) :
  forall lp f l,
    LP.fw_id_assigner lp = Some (f, l) ->
    calls get_new_fw_id qs lp
    = (Ok (granted f qs), LP.with_assigner (Some (f + total qs, l)) lp).
Proof.
  induction qs as [|q qs IH]; intros lp f l H; cbn [calls granted total
                                                     fold_right].
  - unfold ret. rewrite Z.add_0_r, <- H. now destruct lp.
  - unfold bind at 1, get_new_fw_id at 1. rewrite H.
    unfold bind at 1. rewrite (IH _ (f + q) l) by reflexivity.
    unfold ret. rewrite with_assigner_twice. now rewrite Z.add_assoc.
Qed.

(** The ranges a sequence of positive requests is granted lie one after
    the other. *)
Lemma granted_ranges (qs : list Z) :
  forall start i j ri rj qi,
    (forall q, In q qs -> 0 < q) ->
    (i < j)%nat ->
    nth_error (granted start qs) i = Some ri ->
    nth_error qs i = Some qi ->
    nth_error (granted start qs) j = Some rj ->
    start <= ri /\ ri + qi <= rj.
Proof.
  induction qs as [|q qs IH]; intros start i j ri rj qi Hpos Hij Hi Hq Hj.
  - destruct i; discriminate.
  - destruct j as [|j]; [lia|]. cbn in Hj.
    assert (Hstart : forall s k r, nth_error (granted s qs) k = Some r ->
                                   s <= r).
    { clear - Hpos. revert Hpos. generalize qs as l.
      induction l as [|a l IHl]; intros Hpos s k r H.
      - destruct k; discriminate.
      - destruct k as [|k]; cbn in H.
        + injection H as <-. lia.
        + apply IHl in H.
          * assert (0 < a) by (apply Hpos; right; now left). lia.
          * intros x Hx. apply Hpos. cbn in Hx |- *. tauto. }
    destruct i as [|i]; cbn in Hi, Hq.
    + injection Hi as <-. injection Hq as <-.
      apply Hstart in Hj. lia.
    + assert (Hq0 : 0 < q) by (apply Hpos; now left).
      destruct (IH (start + q) i j ri rj qi) as [H1 H2]; auto.
      * intros x Hx. apply Hpos. now right.
      * lia.
      * lia.
Qed.

(** X1.  From a counter at [(f, l)], a sequence of calls of
    [get_new_fw_id] with positive quantities raises nothing, leaves the
    counter at [f] plus the sum of the quantities, leaves the launch
    counter alone, and grants ranges that lie one after the other: a
    later call's first id is at least an earlier call's first id plus
    its quantity. *)
Theorem fw_id_ranges_disjoint (qs : list Z) (lp : LP.t) (f l : Z) :
  LP.fw_id_assigner lp = Some (f, l) ->
  (forall q, In q qs -> 0 < q) ->
  exists firsts,
    calls get_new_fw_id qs lp
    = (Ok firsts, LP.with_assigner (Some (f + total qs, l)) lp)
    /\ List.length firsts = List.length qs
    /\ forall i j ri rj qi,
         (i < j)%nat ->
         nth_error firsts i = Some ri ->
         nth_error qs i = Some qi ->
         nth_error firsts j = Some rj ->
         f <= ri /\ ri + qi <= rj.
Proof.
  intros H Hpos. exists (granted f qs).
  split; [now apply calls_get_new_fw_id|]. split.
  - clear. revert f. induction qs as [|q qs IH]; intros f; cbn;
      [reflexivity | now rewrite IH].
  - intros i j ri rj qi. now apply granted_ranges.
Qed.

Lemma calls_get_new_launch_id (n : nat) :
  forall lp f l,
    LP.fw_id_assigner lp = Some (f, l) ->
    calls (fun _ : unit => get_new_launch_id) (repeat tt n) lp
    = (Ok (map (fun k => l + Z.of_nat k) (seq 0 n)),
       LP.with_assigner (Some (f, l + Z.of_nat n)) lp).
Proof.
  induction n as [|n IH]; intros lp f l H; cbn [calls repeat seq map].
  - unfold ret. rewrite Z.add_0_r, <- H. now destruct lp.
  - unfold bind at 1, get_new_launch_id at 1. rewrite H.
    unfold bind at 1. rewrite (IH _ f (l + 1)) by reflexivity.
    unfold ret. f_equal.
    + f_equal. rewrite Z.add_0_r. f_equal.
      rewrite <- seq_shift, map_map. apply map_ext. intros k. lia.
    + rewrite with_assigner_twice.
      replace (l + 1 + Z.of_nat n) with (l + Z.of_nat (S n)) by lia.
      reflexivity.
Qed.

(** X2.  From a counter at [(f, l)], [n] calls of [get_new_launch_id]
    return [l, l + 1, ..., l + n - 1] in this order, hence [n] distinct
    ids without a gap, and leave the counter at [(f, l + n)]. *)
Theorem launch_ids_contiguous (n : nat) (lp : LP.t) (f l : Z) :
  LP.fw_id_assigner lp = Some (f, l) ->
  exists ids,
    calls (fun _ : unit => get_new_launch_id) (repeat tt n) lp
    = (Ok ids, LP.with_assigner (Some (f, l + Z.of_nat n)) lp)
    /\ NoDup ids
    /\ List.length ids = n
    /\ forall k, (k < n)%nat -> nth_error ids k = Some (l + Z.of_nat k).
Proof.
  intros H. exists (map (fun k => l + Z.of_nat k) (seq 0 n)).
  split; [now apply calls_get_new_launch_id|]. split; [|split].
  - apply Finite.Injective_map_NoDup; [|apply seq_NoDup].
    intros a b Hab. lia.
  - now rewrite length_map, length_seq.
  - intros k Hk. rewrite nth_error_map, nth_error_seq.
    destruct (Nat.ltb_spec k n); [reflexivity | lia].
Qed.

(** X3.  Without the counter record both allocators raise [ValueError]
    and change nothing; after [_restart_ids a b] the next firework id is
    [a] and the next launch id is [b]; after [_reset] the collections
    are empty, a configured blob store is empty, and the first ids are 1
    and 1. *)
Theorem allocator_needs_counter (lp : LP.t) (a b q : Z) :
  (LP.fw_id_assigner lp = None ->
   get_new_fw_id q lp = (Raise (ValueError "Could not get next FW id!"), lp)
   /\ get_new_launch_id lp
      = (Raise (ValueError "Could not get next launch id!"), lp))
  /\ fst ((_restart_ids a b ;;; get_new_fw_id q) lp) = Ok a
  /\ fst ((_restart_ids a b ;;; get_new_launch_id) lp) = Ok b
  /\ (let lp' := snd (_reset lp) in
      LP.fireworks lp' = [] /\ LP.launches lp' = [] /\ LP.workflows lp' = []
      /\ (forall fs, LP.gridfs_fallback lp = Some fs ->
                     LP.gridfs_fallback lp' = Some [])
      /\ (LP.gridfs_fallback lp = None -> LP.gridfs_fallback lp' = None)
      /\ fst ((_reset ;;; get_new_fw_id q) lp) = Ok 1
      /\ fst ((_reset ;;; get_new_launch_id) lp) = Ok 1).
Proof.
  split; [|split; [reflexivity | split; [reflexivity|]]].
  - intros H. unfold get_new_fw_id, get_new_launch_id. now rewrite H.
  - cbv zeta. destruct lp as [fw la wf [fs|] asg now]; cbn;
      repeat split; try reflexivity; intros; congruence.
Qed.

(* ===================================================================== *)
(** ** More on checkin *)
(* ===================================================================== *)

Lemma matches_launches_contains (lid : Z) (d : FwDoc.t) :
  matches [("launches", QEq (JInt lid))] (FwDoc.view d)
  = Py.int_in lid (FwDoc.launches d).
Proof.
  unfold matches. cbn [forallb fst snd]. rewrite andb_true_r.
  cbn [holds]. change (field "launches" (FwDoc.view d))
    with (Some (JList (map JInt (FwDoc.launches d)))).
  cbn [eq_match J_eqb orb]. unfold Py.int_in.
  induction (FwDoc.launches d) as [|a l IH]; cbn; [reflexivity|].
  now rewrite IH, Z.eqb_sym.
Qed.

Lemma index_In (A : Type) (l : list A) (i : Z) (x : A) :
  Py.index l i = Some x -> In x l.
Proof.
  unfold Py.index.
  destruct ((i >=? Z.of_nat (List.length l))
            || (i <? - Z.of_nat (List.length l))); [discriminate|].
  apply nth_error_In.
Qed.

Lemma replace_at_map_at (D B : Type) (g : D -> B) (i : nat) (f : D -> D)
  (l : list D) (old : D) :
  nth_error l i = Some old -> g (f old) = g old ->
  map g (replace_at i f l) = map g l.
Proof.
  revert i. induction l as [|x l IH]; intros [|i]; cbn; try discriminate.
  - intros [= ->] H. now rewrite H.
  - intros Hn H. now rewrite (IH i Hn H).
Qed.

(** What the write of a launch under its id does to the collection. *)
Lemma upsert_launch_props (doc : Launch.t) (coll : list Launch.t) :
  let coll' :=
    find_one_and_replace_upsert Launch.view
      [("launch_id", QEq (JInt (Launch.launch_id doc)))] doc coll in
  (NoDup (map Launch.launch_id coll) -> NoDup (map Launch.launch_id coll'))
  /\ (List.length coll' = List.length coll
      \/ List.length coll' = S (List.length coll))
  /\ (forall x, In x coll ->
                In x coll' \/ Launch.launch_id x = Launch.launch_id doc)
  /\ In doc coll'.
Proof.
  cbv zeta. unfold find_one_and_replace_upsert.
  destruct (find_one_at Launch.view
              [("launch_id", QEq (JInt (Launch.launch_id doc)))] [] coll)
    as [[i old]|] eqn:E.
  - destruct (find_one_at_some _ _ _ _ E) as [Hn [Hm _]].
    unfold matches in Hm. cbn [forallb fst snd] in Hm.
    rewrite holds_launch_id_eq, andb_true_r in Hm. apply Z.eqb_eq in Hm.
    split; [|split; [|split]].
    + now rewrite (replace_at_map_at Launch.launch_id i (fun _ => doc) coll
                     Hn (eq_sym Hm)).
    + left. apply replace_at_length.
    + intros x Hx. apply In_nth_error in Hx. destruct Hx as [j Hj].
      destruct (Nat.eq_dec j i) as [-> | Hne].
      * right. congruence.
      * left. apply nth_error_In with (n := j).
        now rewrite replace_at_other.
    + apply nth_error_In with (n := i).
      exact (replace_at_same i (fun _ => doc) coll Hn).
  - split; [|split; [|split]].
    + intros Hnd. rewrite map_app. cbn.
      apply NoDup_app_disjoint; [exact Hnd | repeat constructor; auto|].
      intros x [<- | []] Hin. apply in_map_iff in Hin.
      destruct Hin as [y [Hy Hin]].
      assert (Hf := find_one_at_none Launch.view _ _ _ E y Hin).
      unfold matches in Hf. cbn [forallb fst snd] in Hf.
      rewrite holds_launch_id_eq, andb_true_r in Hf.
      apply Z.eqb_neq in Hf. contradiction.
    + right. rewrite length_app. cbn. lia.
    + intros x Hx. left. apply in_or_app. now left.
    + apply in_or_app. right. now left.
Qed.

Section CheckinMore.

Variable too_large : Launch.t -> bool.
Variable json_dumps : Dict -> string.
Variable json_loads : string -> option Dict.
Variable new_object_id : GridFS.t -> string.

Local Abbreviation checkin := (_checkin_fw too_large json_dumps new_object_id).
Local Abbreviation read_action := (get_action_from_gridfs json_loads).

(** Every way a checkin can go. *)
Lemma checkin_total (m_fw : Firework.t) (action : option Dict)
  (state : string) (lp : LP.t) :
  checkin m_fw action state lp =
  match find_one FwDoc.view [("fw_id", QEq (JInt (Firework.fw_id m_fw)))] []
          (LP.fireworks lp) with
  | None => (Raise (TypeError "NoneType"), lp)
  | Some d =>
      match Firework.launch_idx m_fw with
      | None => (Ok (Firework.launch m_fw, []), lp)
      | Some idx =>
          match Py.index (FwDoc.launches d) idx with
          | None => (Raise IndexError, lp)
          | Some lid =>
              if too_large (first_doc m_fw lid) then
                match Launch.action (Firework.launch m_fw) with
                | Some (kv :: rest) =>
                    match LP.gridfs_fallback lp with
                    | None =>
                        (Raise (DocumentTooLarge
                                  (String.append too_large_msg gridfs_hint)),
                         lp)
                    | Some fs =>
                        if GridFS.has_launch lid fs
                        then (Raise (DuplicateKeyError "metadata.launch_id"),
                              lp)
                        else
                        if too_large (token_doc new_object_id m_fw lid fs)
                        then (Raise (DocumentTooLarge too_large_msg),
                              blob_stored json_dumps new_object_id lid
                                (kv :: rest) fs lp)
                        else (Ok (token_doc new_object_id m_fw lid fs,
                                  ids_sharing lid lp),
                              written lid
                                (token_doc new_object_id m_fw lid fs)
                                (blob_stored json_dumps new_object_id lid
                                   (kv :: rest) fs lp))
                    end
                | _ => (Raise (DocumentTooLarge too_large_msg), lp)
                end
              else (Ok (first_doc m_fw lid, ids_sharing lid lp),
                    written lid (first_doc m_fw lid) lp)
          end
      end
  end.
Proof.
  destruct (find_one FwDoc.view
              [("fw_id", QEq (JInt (Firework.fw_id m_fw)))] []
              (LP.fireworks lp)) as [d|] eqn:Ed.
  - destruct (Firework.launch_idx m_fw) as [idx|] eqn:Ei.
    + destruct (Py.index (FwDoc.launches d) idx) as [lid|] eqn:El.
      * now apply checkin_cases with (d := d) (idx := idx).
      * unfold _checkin_fw, bind at 1, read at 1. now rewrite Ed, Ei, El.
    + unfold _checkin_fw, bind at 1, read at 1. now rewrite Ed, Ei.
  - unfold _checkin_fw, bind at 1, read at 1. now rewrite Ed.
Qed.

(** X4.  A checkin that returns for an addressed launch returns, as the
    ids to refresh, exactly the ids of the fireworks whose launch list
    holds the launch written, the firework checked in among them; the
    fireworks collection itself is not written. *)
Theorem checkin_ids_to_refresh (m_fw : Firework.t) (action : option Dict)
  (state : string) (lp lp' : LP.t) (l : Launch.t) (ids : list Z) (idx : Z) :
  checkin m_fw action state lp = (Ok (l, ids), lp') ->
  Firework.launch_idx m_fw = Some idx ->
  (forall f, In f ids <->
             exists d, In d (LP.fireworks lp)
                       /\ FwDoc.fw_id d = f
                       /\ In (Launch.launch_id l) (FwDoc.launches d))
  /\ In (Firework.fw_id m_fw) ids
  /\ LP.fireworks lp' = LP.fireworks lp.
Proof.
  intros H Hidx. rewrite checkin_total, Hidx in H.
  destruct (find_one FwDoc.view
              [("fw_id", QEq (JInt (Firework.fw_id m_fw)))] []
              (LP.fireworks lp)) as [d|] eqn:Ed; [|discriminate].
  destruct (Py.index (FwDoc.launches d) idx) as [lid|] eqn:El;
    [|discriminate].
  assert (Hshare : forall f, In f (ids_sharing lid lp) <->
             exists d0, In d0 (LP.fireworks lp)
                        /\ FwDoc.fw_id d0 = f /\ In lid (FwDoc.launches d0)).
  { intros f. unfold ids_sharing, find. rewrite in_map_iff. split.
    - intros [d0 [Hf Hin]]. apply filter_In in Hin. destruct Hin as [Hin Hm].
      rewrite matches_launches_contains in Hm. apply int_in_In in Hm.
      now exists d0.
    - intros [d0 [Hin [Hf Hl]]]. exists d0. split; [exact Hf|].
      apply filter_In. split; [exact Hin|].
      rewrite matches_launches_contains. now apply int_in_In. }
  assert (Hself : In (Firework.fw_id m_fw) (ids_sharing lid lp)).
  { apply Hshare. exists d. unfold find_one in Ed.
    destruct (find_one_at FwDoc.view
                [("fw_id", QEq (JInt (Firework.fw_id m_fw)))] []
                (LP.fireworks lp)) as [[i d0]|] eqn:E; [|discriminate].
    cbn in Ed. injection Ed as ->.
    destruct (find_one_at_some _ _ _ _ E) as [Hn [Hm _]].
    unfold matches in Hm. cbn [forallb fst snd] in Hm.
    rewrite holds_fw_id_eq, andb_true_r in Hm. apply Z.eqb_eq in Hm.
    split; [now apply nth_error_In with (n := i)|].
    split; [exact Hm | now apply index_In with (i := idx)]. }
  destruct (too_large (first_doc m_fw lid)).
  - destruct (Launch.action (Firework.launch m_fw)) as [[|kv rest]|];
      try discriminate.
    destruct (LP.gridfs_fallback lp) as [fs|]; [|discriminate].
    destruct (GridFS.has_launch lid fs); [discriminate|].
    destruct (too_large (token_doc new_object_id m_fw lid fs));
      [discriminate|].
    injection H as <- <- <-. cbn [token_doc Launch.set_action
                                  Launch.launch_id first_doc
                                  Launch.set_launch_id].
    split; [exact Hshare|]. split; [exact Hself | reflexivity].
  - injection H as <- <- <-. cbn [Launch.launch_id first_doc
                                  Launch.set_launch_id].
    split; [exact Hshare|]. split; [exact Hself | reflexivity].
Qed.

(** X5.  Whatever its outcome, a checkin keeps the launch ids of the
    launches collection distinct, adds at most one launch document, and
    drops no document but one that has the id of the launch it writes. *)
Theorem checkin_keeps_launch_ids_distinct (m_fw : Firework.t)
  (action : option Dict) (state : string) (lp : LP.t) :
  let res := checkin m_fw action state lp in
  (NoDup (map Launch.launch_id (LP.launches lp)) ->
   NoDup (map Launch.launch_id (LP.launches (snd res))))
  /\ (List.length (LP.launches (snd res)) = List.length (LP.launches lp)
      \/ List.length (LP.launches (snd res))
         = S (List.length (LP.launches lp)))
  /\ (forall x, In x (LP.launches lp) ->
                In x (LP.launches (snd res))
                \/ exists l ids, fst res = Ok (l, ids)
                                 /\ Launch.launch_id x = Launch.launch_id l).
Proof.
  cbv zeta. rewrite checkin_total.
  assert (Hsame : forall r, let res := (r : Result (Launch.t * list Z), lp) in
            (NoDup (map Launch.launch_id (LP.launches lp)) ->
             NoDup (map Launch.launch_id (LP.launches (snd res))))
            /\ (List.length (LP.launches (snd res))
                = List.length (LP.launches lp)
                \/ List.length (LP.launches (snd res))
                   = S (List.length (LP.launches lp)))
            /\ (forall x, In x (LP.launches lp) ->
                   In x (LP.launches (snd res))
                   \/ exists l ids, fst res = Ok (l, ids)
                        /\ Launch.launch_id x = Launch.launch_id l)).
  { intros r. cbn. auto. }
  assert (Hwrite : forall doc ids lp0 lid,
            LP.launches lp0 = LP.launches lp ->
            Launch.launch_id doc = lid ->
            let res : Result (Launch.t * list Z) * LP.t :=
              (Ok (doc, ids), written lid doc lp0) in
            (NoDup (map Launch.launch_id (LP.launches lp)) ->
             NoDup (map Launch.launch_id (LP.launches (snd res))))
            /\ (List.length (LP.launches (snd res))
                = List.length (LP.launches lp)
                \/ List.length (LP.launches (snd res))
                   = S (List.length (LP.launches lp)))
            /\ (forall x, In x (LP.launches lp) ->
                   In x (LP.launches (snd res))
                   \/ exists l ids0, fst res = Ok (l, ids0)
                        /\ Launch.launch_id x = Launch.launch_id l)).
  { intros doc ids lp0 lid Hl0 <-. cbn [fst snd written LP.with_launches
                                         LP.launches]. rewrite Hl0.
    destruct (upsert_launch_props doc (LP.launches lp))
      as [Hnd [Hlen [Hkeep _]]].
    split; [exact Hnd|]. split; [exact Hlen|].
    intros x Hx. destruct (Hkeep x Hx) as [H | H]; [now left|].
    right. now exists doc, ids. }
  destruct (find_one FwDoc.view
              [("fw_id", QEq (JInt (Firework.fw_id m_fw)))] []
              (LP.fireworks lp)) as [d|]; [|apply Hsame].
  destruct (Firework.launch_idx m_fw) as [idx|]; [|apply Hsame].
  destruct (Py.index (FwDoc.launches d) idx) as [lid|]; [|apply Hsame].
  destruct (too_large (first_doc m_fw lid)).
  - destruct (Launch.action (Firework.launch m_fw)) as [[|kv rest]|];
      try apply Hsame.
    destruct (LP.gridfs_fallback lp) as [fs|]; [|apply Hsame].
    destruct (GridFS.has_launch lid fs); [apply Hsame|].
    destruct (too_large (token_doc new_object_id m_fw lid fs)).
    + cbn. auto.
    + now apply Hwrite.
  - now apply Hwrite.
Qed.

(** X6.  A checkin that raises has written neither a launch nor a
    firework document.  It leaves the blob store as it was, except when
    the second write is refused: then the error is the size failure and
    the blob store holds one file more, the serialized action, to which
    no launch refers. *)
Theorem checkin_failure_writes_no_launch (m_fw : Firework.t)
  (action : option Dict) (state : string) (lp lp' : LP.t) (e : Exc) :
  checkin m_fw action state lp = (Raise e, lp') ->
  LP.launches lp' = LP.launches lp
  /\ LP.fireworks lp' = LP.fireworks lp
  /\ (lp' = lp
      \/ (e = DocumentTooLarge too_large_msg
          /\ exists fs a,
               LP.gridfs_fallback lp = Some fs
               /\ Launch.action (Firework.launch m_fw) = Some a
               /\ exists f,
                    LP.gridfs_fallback lp' = Some (fs ++ [f])
                    /\ GridFS.data f = json_dumps a)).
Proof.
  rewrite checkin_total.
  destruct (find_one FwDoc.view
              [("fw_id", QEq (JInt (Firework.fw_id m_fw)))] []
              (LP.fireworks lp)) as [d|];
    [|intros [= <- <-]; auto].
  destruct (Firework.launch_idx m_fw) as [idx|]; [|discriminate].
  destruct (Py.index (FwDoc.launches d) idx) as [lid|];
    [|intros [= <- <-]; auto].
  destruct (too_large (first_doc m_fw lid)); [|discriminate].
  destruct (Launch.action (Firework.launch m_fw)) as [[|kv rest]|] eqn:Ea;
    try (intros [= <- <-]; auto).
  destruct (LP.gridfs_fallback lp) as [fs|] eqn:Eg;
    [|intros [= <- <-]; auto].
  destruct (GridFS.has_launch lid fs); [intros [= <- <-]; auto|].
  destruct (too_large (token_doc new_object_id m_fw lid fs));
    [|discriminate].
  intros [= <- <-]. split; [reflexivity|]. split; [reflexivity|].
  right. split; [reflexivity|].
  exists fs, (kv :: rest). split; [reflexivity|]. split; [reflexivity|].
  exists (GridFS.mk_file (new_object_id fs) (json_dumps (kv :: rest)) lid).
  split; reflexivity.
Qed.

(** X7.  Under the size limit the action makes the round trip: the
    launch a checkin stores gives back the action it was checked in with,
    provided the action has no entry [gridfs_id].  An action with such an
    entry is taken for a reference to the blob store: read with no blob
    store configured, it raises. *)
Theorem checkin_inline_roundtrip (m_fw : Firework.t) (action : option Dict)
  (state : string) (lp : LP.t) (d : FwDoc.t) (idx lid : Z) :
  find_one FwDoc.view [("fw_id", QEq (JInt (Firework.fw_id m_fw)))] []
    (LP.fireworks lp) = Some d ->
  Firework.launch_idx m_fw = Some idx ->
  Py.index (FwDoc.launches d) idx = Some lid ->
  too_large (first_doc m_fw lid) = false ->
  let res := checkin m_fw action state lp in
  let a := Launch.action (Firework.launch m_fw) in
  (exists stored,
      find_one Launch.view [("launch_id", QEq (JInt lid))] []
        (LP.launches (snd res)) = Some stored
      /\ Launch.action stored = a)
  /\ ((forall kv, a = Some kv -> Py.get "gridfs_id" kv = None) ->
      read_action a (LP.gridfs_fallback (snd res)) = Ok a)
  /\ (forall kv v, a = Some kv -> Py.get "gridfs_id" kv = Some v ->
                   exists e, read_action a None = Raise e).
Proof.
  intros Hd Hidx Hlid Hfit. cbv zeta.
  rewrite (checkin_cases too_large json_dumps new_object_id m_fw action
             state lp Hd Hidx Hlid), Hfit.
  split; [|split].
  - exists (first_doc m_fw lid). split; [|reflexivity].
    cbn [snd written LP.with_launches LP.launches].
    apply find_one_after_replace_upsert.
    apply (matches_launch_id (first_doc m_fw lid)).
  - intros Hno. unfold get_action_from_gridfs.
    destruct (Launch.action (Firework.launch m_fw)) as [[|kv rest]|];
      try reflexivity.
    now rewrite (Hno _ eq_refl).
  - intros kv v Ha Hv. rewrite Ha. unfold get_action_from_gridfs.
    destruct kv as [|kv0 rest]; [discriminate|]. rewrite Hv.
    destruct v; eauto.
Qed.

End CheckinMore.

(* ===================================================================== *)
(** ** More on the conditional update *)
(* ===================================================================== *)

Section UpdateMore.

Variable STATE_RANKS : string -> option Z.
Variable get_fw_by_id : Z -> Z -> LP.t -> Result Firework.t.
Variable Firework_set_state : string -> Firework.t -> Firework.t.

Local Abbreviation update_fw :=
  (_update_fw STATE_RANKS get_fw_by_id Firework_set_state).
Local Abbreviation object_after := (touched Firework_set_state).

Lemma update_fw_resolve_fails (m_fw : FwArg) (state : option string)
  (allowed : Allowed) (launch_idx : Z) (touch_history : bool)
  (checkpoint : option J) (lp : LP.t) (e : Exc) :
  resolve get_fw_by_id m_fw launch_idx lp = Raise e ->
  update_fw m_fw state allowed launch_idx touch_history checkpoint lp
  = (Raise e, lp).
Proof.
  intros Hr. unfold _update_fw, bind.
  destruct m_fw as [i|fw]; cbn in Hr; [|discriminate].
  unfold read. now rewrite Hr.
Qed.

(** X8.  The two ways [_update_fw] fails on an object it has.  A state
    without a rank is a [KeyError] and nothing is written.  A launch index
    outside the launch list of the firework document is a [ValueError]
    that comes after the write of the firework document: the document
    already carries the new state and [updated_on], no launch is
    written. *)
Theorem update_fw_failures (m_fw : FwArg) (state : option string)
  (allowed : Allowed) (launch_idx : Z) (touch_history : bool)
  (checkpoint : option J) (lp lp' : LP.t) (fw : Firework.t) (e : Exc) :
  resolve get_fw_by_id m_fw launch_idx lp = Ok fw ->
  update_fw m_fw state allowed launch_idx touch_history checkpoint lp
  = (Raise e, lp') ->
  let fw' := object_after state touch_history fw in
  (lp' = lp
   /\ exists k, e = KeyError k /\ STATE_RANKS k = None
                /\ (state = Some k \/ k = Firework.state fw))
  \/ (e = ValueError "Bad launch index %d %d"
      /\ LP.launches lp' = LP.launches lp
      /\ exists i d,
           nth_error (LP.fireworks lp) i = Some d
           /\ FwDoc.fw_id d = Firework.fw_id fw
           /\ nth_error (LP.fireworks lp') i
              = Some (set_state_updated (Firework.state fw')
                        (Firework.updated_on fw') d)
           /\ (launch_idx >= Z.of_nat (List.length (FwDoc.launches d))
               \/ launch_idx < - Z.of_nat (List.length (FwDoc.launches d)))).
Proof.
  intros Hr. cbv zeta.
  rewrite (update_fw_unfold STATE_RANKS get_fw_by_id Firework_set_state
             m_fw state allowed launch_idx touch_history checkpoint lp Hr).
  destruct (state_allowed allowed (Firework.state fw)); [|discriminate].
  rewrite update_allowed_eval. cbv zeta.
  destruct (reset_launch_of STATE_RANKS state (Firework.state fw))
    as [rl|e0] eqn:Er.
  - destruct (find_one_at FwDoc.view
                (update_query allowed (Firework.fw_id fw)) []
                (LP.fireworks lp)) as [[i d]|] eqn:Ef; [|discriminate].
    destruct rl; [discriminate|].
    destruct (FwDoc.launches d) as [|l0 ls] eqn:El; [discriminate|].
    destruct (Py.index (l0 :: ls) launch_idx) eqn:Ei; [discriminate|].
    intros [= <- <-]. right. split; [reflexivity|]. split; [reflexivity|].
    destruct (find_one_at_some _ _ _ _ Ef) as [Hn [Hm _]].
    rewrite update_query_matches in Hm. apply andb_true_iff in Hm.
    destruct Hm as [Hid _]. apply Z.eqb_eq in Hid.
    exists i, d. split; [exact Hn|]. split; [exact Hid|].
    split; [cbn [LP.fireworks LP.with_fireworks]; now apply replace_at_same|].
    rewrite El. unfold Py.index in Ei.
    destruct (launch_idx >=? Z.of_nat (List.length (l0 :: ls))) eqn:E1.
    + left. apply Z.geb_le in E1. lia.
    + destruct (launch_idx <? - Z.of_nat (List.length (l0 :: ls))) eqn:E2.
      * right. now apply Z.ltb_lt in E2.
      * cbn [orb] in Ei. exfalso.
        apply nth_error_None in Ei.
        rewrite Z.geb_leb in E1. apply Z.leb_gt in E1. apply Z.ltb_ge in E2.
        destruct (launch_idx <? 0) eqn:E3.
        -- apply Z.ltb_lt in E3. lia.
        -- apply Z.ltb_ge in E3. lia.
  - intros [= <- <-]. left. split; [reflexivity|].
    unfold reset_launch_of in Er. destruct state as [s|]; [|discriminate].
    destruct (STATE_RANKS s) eqn:Es.
    + destruct (STATE_RANKS (Firework.state fw)) eqn:Ec; [discriminate|].
      injection Er as <-. exists (Firework.state fw). auto.
    + injection Er as <-. exists s. auto.
Qed.

(** The fields [_update_fw] never writes. *)
Definition fw_kept (d : FwDoc.t) : Z * Z * Dict * list Z :=
  (FwDoc.fw_id d, FwDoc.created_on d, FwDoc.spec d, FwDoc.launches d).

Definition launch_kept (l : Launch.t) : Z * Z * string * option Dict :=
  (Launch.launch_id l, Launch.fw_id l, Launch.state l, Launch.action l).

Lemma update_one_map (D B : Type) (view : D -> J) (g : D -> B) (q : Query)
  (upd : D -> D) (coll : list D) :
  (forall d, g (upd d) = g d) ->
  map g (update_one view q upd coll) = map g coll.
Proof.
  intros H. unfold update_one, find_one_and_update.
  destruct (find_one_at view q [] coll) as [[i d]|]; cbn [snd];
    [now apply replace_at_map | reflexivity].
Qed.

(** X9.  Whatever its arguments and its outcome, [_update_fw] adds and
    removes no document; of a firework document it leaves the id, the
    creation time, the spec and the launch list as they are; of a launch
    document the ids, the action and the field [state]: the state a
    launch document carries is not brought up to date by this call.
    Workflows, the blob store, the id counters and the clock are left
    alone. *)
Theorem update_fw_frame (m_fw : FwArg) (state : option string)
  (allowed : Allowed) (launch_idx : Z) (touch_history : bool)
  (checkpoint : option J) (lp : LP.t) :
  let lp' :=
    snd (update_fw m_fw state allowed launch_idx touch_history checkpoint
           lp) in
  map fw_kept (LP.fireworks lp') = map fw_kept (LP.fireworks lp)
  /\ map launch_kept (LP.launches lp') = map launch_kept (LP.launches lp)
  /\ LP.workflows lp' = LP.workflows lp
  /\ LP.gridfs_fallback lp' = LP.gridfs_fallback lp
  /\ LP.fw_id_assigner lp' = LP.fw_id_assigner lp
  /\ LP.utcnow lp' = LP.utcnow lp.
Proof.
  cbv zeta.
  destruct (resolve get_fw_by_id m_fw launch_idx lp) as [fw|e] eqn:Hr.
  2:{ rewrite (update_fw_resolve_fails m_fw state allowed launch_idx
                 touch_history checkpoint lp Hr). cbn. tauto. }
  rewrite (update_fw_unfold STATE_RANKS get_fw_by_id Firework_set_state
             m_fw state allowed launch_idx touch_history checkpoint lp Hr).
  destruct (state_allowed allowed (Firework.state fw)); [|cbn; tauto].
  rewrite update_allowed_eval. cbv zeta.
  destruct (reset_launch_of STATE_RANKS state (Firework.state fw))
    as [rl|e0]; [|cbn; tauto].
  destruct (find_one_at FwDoc.view
              (update_query allowed (Firework.fw_id fw)) []
              (LP.fireworks lp)) as [[i d]|]; [|cbn; tauto].
  assert (Hfw : forall s u,
             map fw_kept (replace_at i (set_state_updated s u)
                            (LP.fireworks lp))
             = map fw_kept (LP.fireworks lp)).
  { intros s u. now apply replace_at_map. }
  destruct rl.
  - cbn [snd LP.fireworks LP.launches LP.workflows LP.gridfs_fallback
         LP.fw_id_assigner LP.utcnow LP.with_fireworks].
    rewrite Hfw. tauto.
  - destruct (FwDoc.launches d) as [|l0 ls].
    + cbn [snd LP.fireworks LP.launches LP.workflows LP.gridfs_fallback
           LP.fw_id_assigner LP.utcnow LP.with_fireworks].
      rewrite Hfw. tauto.
    + destruct (Py.index (l0 :: ls) launch_idx) as [lid|];
        cbn [snd LP.fireworks LP.launches LP.workflows LP.gridfs_fallback
             LP.fw_id_assigner LP.utcnow LP.with_fireworks
             LP.with_launches]; rewrite Hfw; [|tauto].
      rewrite update_one_map by reflexivity. tauto.
Qed.

End UpdateMore.

(* ===================================================================== *)
(** ** More on duplicate merging *)
(* ===================================================================== *)

Lemma valuable_launches_none (thief_fw victim_fw : Firework.t) :
  (forall l, In l (Firework.launches victim_fw) ->
             In (Launch.launch_id l) (launch_ids_of thief_fw)) ->
  valuable_launches thief_fw victim_fw = [].
Proof.
  intros H. unfold valuable_launches.
  induction (Firework.launches victim_fw) as [|l ls IH]; [reflexivity|].
  cbn [filter].
  assert (Hl : Py.int_in (Launch.launch_id l)
                 (map Launch.launch_id (Firework.launches thief_fw)) = true).
  { apply int_in_In. apply H. now left. }
  rewrite Hl. cbn [negb]. apply IH. intros x Hx. apply H. now right.
Qed.

Section StealMore.

Variable get_fw_by_id : Z -> Z -> LP.t -> Result Firework.t.
Variable load_dupefinder : J -> DupeFinder.

Local Abbreviation steal := (_steal_launches get_fw_by_id load_dupefinder).

(** A thief that holds the launches of every verified victim goes through
    the loop unchanged, provided the loop raised nothing for a thief of
    the same spec. *)
Lemma steal_loop_fixed (df : DupeFinder) (lp : LP.t)
  (potential : list FwDoc.t) :
  forall (b : bool) (t : Firework.t) (r : bool * Firework.t)
         (b0 : bool) (t0 : Firework.t),
    steal_loop get_fw_by_id df potential lp (b, t) = Ok r ->
    Firework.spec t0 = Firework.spec t ->
    (forall pm victim l,
        In pm potential ->
        verified_match df (Firework.spec t) pm ->
        get_fw_by_id (FwDoc.fw_id pm) (-1) lp = Ok victim ->
        In l (Firework.launches victim) ->
        In (Launch.launch_id l) (launch_ids_of t0)) ->
    steal_loop get_fw_by_id df potential lp (b0, t0) = Ok (b0, t0).
Proof.
  induction potential as [|pm rest IH]; intros b t r b0 t0 H Hspec Hall;
    cbn [steal_loop snd] in H |- *; [reflexivity|].
  rewrite Hspec.
  destruct (if verify_skipped df then Ok true
            else df_verify df (Firework.spec t) (FwDoc.spec pm))
    as [[|]|e] eqn:Ev; cbn [rbind] in H |- *; [| |discriminate].
  - destruct (get_fw_by_id (FwDoc.fw_id pm) (-1) lp) as [victim|e] eqn:Eg;
      cbn [rbind] in H |- *; [|discriminate].
    assert (Hver : verified_match df (Firework.spec t) pm).
    { now apply (verified_match_iff _ _ _ Ev). }
    rewrite valuable_launches_none.
    + rewrite take_launches_eq in H. cbn [take_launches fold_left].
      apply (IH _ _ _ b0 t0 H); [exact Hspec|].
      intros pm' victim' l Hp Hv. apply Hall; [now right | exact Hv].
    + intros l Hl. apply (Hall pm victim l); auto. now left.
  - apply (IH _ _ _ b0 t0 H); [exact Hspec|].
    intros pm' victim' l Hp. apply Hall. now right.
Qed.

(** X10.  Stealing is done once: called again on the thief it returned,
    against the same store, [_steal_launches] returns the thief as it is
    with the flag false. *)
Theorem steal_launches_once (thief_fw : Firework.t) (lp : LP.t)
  (stolen : bool) (thief' : Firework.t) :
  steal thief_fw lp = Ok (stolen, thief') ->
  steal thief' lp = Ok (false, thief').
Proof.
  unfold _steal_launches, Py.contains.
  destruct (Py.str_in (Firework.state thief_fw) ["READY"; "RESERVED"])
    eqn:Est; cbn [andb].
  2:{ intros [= <- <-]. now rewrite Est. }
  destruct (Py.get "_dupefinder" (Firework.spec thief_fw)) as [o|] eqn:Eo.
  2:{ intros [= <- <-]. now rewrite Est, Eo. }
  intros H. pose proof H as H0. apply steal_loop_spec in H0.
  destruct H0 as [added [Ht [_ [_ [Hcompl _]]]]].
  assert (Hspec : Firework.spec thief' = Firework.spec thief_fw)
    by (now subst thief').
  assert (Hstate : Firework.state thief' = Firework.state thief_fw)
    by (now subst thief').
  rewrite Hstate, Est, Hspec, Eo. cbn [andb].
  eapply steal_loop_fixed; [exact H | exact Hspec | exact Hcompl].
Qed.

End StealMore.

(* ===================================================================== *)
(** ** More on the worker's query *)
(* ===================================================================== *)

Lemma matches_get (k : string) (c : Clause) (q : Query) (d : J) :
  Py.get k q = Some c ->
  matches q d = holds k c d && matches (Py.remove k q) d.
Proof.
  unfold matches. induction q as [|[k' c'] q IH]; cbn; [discriminate|].
  destruct (String.eqb k k') eqn:E.
  - apply String.eqb_eq in E. subst k'. now intros [= ->].
  - intros H. cbn. rewrite (IH H).
    now destruct (holds k c d), (holds k' c' d).
Qed.

Lemma get_remove_other (V : Type) (k k' : string) (q : list (string * V)) :
  String.eqb k k' = false -> Py.get k (Py.remove k' q) = Py.get k q.
Proof.
  intros Hk. induction q as [|[k0 v0] q IH]; cbn; [reflexivity|].
  destruct (String.eqb k' k0) eqn:E.
  - apply String.eqb_eq in E. subst k0. now rewrite Hk.
  - cbn. now rewrite IH.
Qed.

Lemma get_set_other (V : Type) (k k' : string) (v : V)
  (q : list (string * V)) :
  String.eqb k k' = false -> Py.get k (Py.set k' v q) = Py.get k q.
Proof.
  intros Hk. induction q as [|[k0 v0] q IH]; cbn.
  - now rewrite Hk.
  - destruct (String.eqb k' k0) eqn:E; cbn.
    + apply String.eqb_eq in E. subst k0. now rewrite Hk.
    + now rewrite IH.
Qed.

Lemma remove_set_same (V : Type) (k : string) (v : V)
  (q : list (string * V)) :
  Py.remove k (Py.set k v q) = Py.remove k q.
Proof.
  induction q as [|[k0 v0] q IH]; cbn.
  - now rewrite String.eqb_refl.
  - destruct (String.eqb k k0) eqn:E; cbn.
    + now rewrite String.eqb_refl.
    + now rewrite E, IH.
Qed.

Lemma set_set_same (V : Type) (k : string) (v v' : V)
  (q : list (string * V)) :
  Py.set k v (Py.set k v' q) = Py.set k v q.
Proof.
  induction q as [|[k0 v0] q IH]; cbn.
  - now rewrite String.eqb_refl.
  - destruct (String.eqb k k0) eqn:E; cbn.
    + now rewrite String.eqb_refl.
    + now rewrite E, IH.
Qed.

Lemma set_get_same (V : Type) (k : string) (v : V) (q : list (string * V)) :
  Py.get k q = Some v -> Py.set k v q = q.
Proof.
  induction q as [|[k0 v0] q IH]; cbn; [discriminate|].
  destruct (String.eqb k k0) eqn:E.
  - apply String.eqb_eq in E. subst k0. now intros [= ->].
  - intros H. now rewrite IH.
Qed.

(** The two clauses [worker_query] appends to the list under [$and]. *)
Definition appended (fworker : FWorker.t) (old_or : Clause) : list Query :=
  [[("$or", old_or)]; [("$or", QList (fworker_check fworker))]].

Lemma matches_appended (fworker : FWorker.t) (old_or : Clause) (d : FwDoc.t)
  (n : nat) :
  forallb (fun q => matches q (FwDoc.view d))
    (List.concat (repeat (appended fworker old_or) (S n)))
  = holds "$or" old_or (FwDoc.view d) && affinity (FWorker.name fworker) d.
Proof.
  induction n as [|n IH].
  - cbn [repeat List.concat app appended forallb]. unfold matches at 1 2.
    cbn [forallb fst snd]. rewrite holds_fworker_check.
    now rewrite !andb_true_r.
  - change (repeat (appended fworker old_or) (S (S n)))
      with (appended fworker old_or :: repeat (appended fworker old_or) (S n)).
    cbn [List.concat]. rewrite forallb_app, IH.
    cbn [appended forallb]. unfold matches at 1 2. cbn [forallb fst snd].
    rewrite holds_fworker_check, !andb_true_r.
    destruct (holds "$or" old_or (FwDoc.view d)),
      (affinity (FWorker.name fworker) d); reflexivity.
Qed.

(** The query built when the worker's query has an [$or] and a list
    under [$and]. *)
Lemma worker_query_or_and (fworker : FWorker.t) (old_or : Clause)
  (l : list Query) :
  Py.truthy (FWorker.category fworker) = false ->
  Py.get "$or" (FWorker.query fworker) = Some old_or ->
  Py.get "$and" (FWorker.query fworker) = Some (QList l) ->
  worker_query fworker
  = Ok (Py.set "$and" (QList (l ++ appended fworker old_or))
          (Py.remove "$or" (FWorker.query fworker)))
  /\ forall d,
       matches
         (Py.set "$and" (QList (l ++ appended fworker old_or))
            (Py.remove "$or" (FWorker.query fworker))) (FwDoc.view d)
       = affinity (FWorker.name fworker) d
         && matches (FWorker.query fworker) (FwDoc.view d).
Proof.
  intros Hc Hor Hand. split.
  - unfold worker_query. now rewrite Hor, Hand, Hc.
  - intros d. rewrite matches_set, holds_and, forallb_app.
    rewrite (@matches_get _ _ _ (FwDoc.view d) Hor).
    change (appended fworker old_or)
      with (List.concat (repeat (appended fworker old_or) 1)).
    rewrite matches_appended.
    rewrite (@matches_get "$and" (QList l)
               (Py.remove "$or" (FWorker.query fworker)) (FwDoc.view d))
      by (now rewrite get_remove_other).
    rewrite holds_and.
    destruct (forallb (fun q => matches q (FwDoc.view d)) l),
      (holds "$or" old_or (FwDoc.view d)),
      (affinity (FWorker.name fworker) d); reflexivity.
Qed.

(** X11.  For a worker without a category, whose [$and] entry, if any,
    is a list, [worker_query] raises nothing and the query it builds
    selects exactly the fireworks that the worker's own query selects and
    that name no other worker, whether or not the worker's query has an
    [$or] of its own. *)
Theorem worker_query_conjoins_affinity (fworker : FWorker.t) :
  Py.truthy (FWorker.category fworker) = false ->
  (forall c, Py.get "$and" (FWorker.query fworker) = Some c ->
             exists l, c = QList l) ->
  exists q,
    worker_query fworker = Ok q
    /\ forall d,
         matches q (FwDoc.view d)
         = affinity (FWorker.name fworker) d
           && matches (FWorker.query fworker) (FwDoc.view d).
Proof.
  intros Hc Hand.
  destruct (Py.get "$or" (FWorker.query fworker)) as [old_or|] eqn:Eor.
  2:{ now apply worker_query_without_category. }
  destruct (Py.get "$and" (FWorker.query fworker)) as [c|] eqn:Eand.
  - destruct (Hand c eq_refl) as [l ->].
    destruct (@worker_query_or_and fworker old_or l Hc Eor Eand) as [Hq Hm].
    eexists. split; [exact Hq | exact Hm].
  - unfold worker_query. rewrite Eor, Eand, Hc. cbn [rbind].
    eexists. split; [reflexivity|]. intros d.
    rewrite matches_set, holds_and.
    rewrite (@matches_get _ _ _ (FwDoc.view d) Eor).
    change [[("$or", old_or)]; [("$or", QList (fworker_check fworker))]]
      with (List.concat (repeat (appended fworker old_or) 1)).
    rewrite matches_appended.
    rewrite remove_absent with (k := "$and")
      by (now rewrite get_remove_other).
    destruct (holds "$or" old_or (FwDoc.view d)),
      (affinity (FWorker.name fworker) d); reflexivity.
Qed.

(** The worker as a call of [worker_query] leaves it.  [dict(...)] copies
    the worker's query, not the list under its [$and]: when the query has
    an [$or] and an [$and], [extend] lengthens the list the worker's own
    query holds.  The [$or] is popped from the copy only. *)
Definition worker_query_leaves (fworker : FWorker.t) : FWorker.t :=
  let q := FWorker.query fworker in
  match Py.get "$or" q with
  | Some old_or =>
      match Py.get "$and" q with
      | Some (QList l) =>
          FWorker.mk (FWorker.name fworker) (FWorker.category fworker)
            (Py.set "$and" (QList (l ++ appended fworker old_or)) q)
      | _ => fworker
      end
  | None => fworker
  end.

Lemma concat_repeat_snoc (A : Type) (x : list A) (n : nat) :
  List.concat (repeat x n) ++ x = List.concat (repeat x (S n)).
Proof.
  induction n as [|n IH]; cbn [repeat List.concat].
  - now rewrite app_nil_r.
  - rewrite <- app_assoc. f_equal. exact IH.
Qed.

Lemma worker_query_leaves_iter (fworker : FWorker.t) (old_or : Clause)
  (l : list Query) (n : nat) :
  Py.get "$or" (FWorker.query fworker) = Some old_or ->
  Py.get "$and" (FWorker.query fworker) = Some (QList l) ->
  Nat.iter n worker_query_leaves fworker
  = FWorker.mk (FWorker.name fworker) (FWorker.category fworker)
      (Py.set "$and"
         (QList (l ++ List.concat (repeat (appended fworker old_or) n)))
         (FWorker.query fworker)).
Proof.
  intros Hor Hand. induction n as [|n IH].
  - cbn [Nat.iter nat_rect repeat List.concat]. rewrite app_nil_r.
    rewrite (@set_get_same _ _ _ _ Hand). now destruct fworker.
  - cbn [Nat.iter nat_rect].
    change (nat_rect (fun _ => FWorker.t) fworker
              (fun _ => worker_query_leaves) n)
      with (Nat.iter n worker_query_leaves fworker).
    rewrite IH. unfold worker_query_leaves.
    cbn [FWorker.name FWorker.category FWorker.query].
    rewrite get_set_other, Hor by reflexivity. rewrite get_set_same.
    rewrite set_set_same. do 3 f_equal. rewrite <- app_assoc. f_equal.
    apply concat_repeat_snoc.
Qed.

(** X12.  For a worker whose query has both an [$or] and an [$and],
    every call of [worker_query] leaves the worker's own [$and] list two
    clauses longer: after [n] calls it holds [2 n] clauses more than at
    the start, and the next query built two more again.  The fireworks
    selected stay the same. *)
Theorem worker_query_lengthens_and (fworker : FWorker.t) (old_or : Clause)
  (l : list Query) (n : nat) :
  Py.truthy (FWorker.category fworker) = false ->
  Py.get "$or" (FWorker.query fworker) = Some old_or ->
  Py.get "$and" (FWorker.query fworker) = Some (QList l) ->
  let w := Nat.iter n worker_query_leaves fworker in
  exists own q,
    Py.get "$and" (FWorker.query w) = Some (QList own)
    /\ List.length own = (List.length l + 2 * n)%nat
    /\ worker_query w = Ok q
    /\ Py.get "$and" q = Some (QList (own ++ appended fworker old_or))
    /\ forall d,
         matches q (FwDoc.view d)
         = affinity (FWorker.name fworker) d
           && matches (FWorker.query fworker) (FwDoc.view d).
Proof.
  intros Hc Hor Hand. cbv zeta.
  rewrite (@worker_query_leaves_iter fworker old_or l n Hor Hand).
  set (own := l ++ List.concat (repeat (appended fworker old_or) n)).
  set (w := FWorker.mk (FWorker.name fworker) (FWorker.category fworker)
              (Py.set "$and" (QList own) (FWorker.query fworker))).
  assert (Ho : Py.get "$or" (FWorker.query w) = Some old_or).
  { cbn [w FWorker.query]. now rewrite get_set_other. }
  assert (Ha : Py.get "$and" (FWorker.query w) = Some (QList own)).
  { cbn [w FWorker.query]. apply get_set_same. }
  destruct (@worker_query_or_and w old_or own Hc Ho Ha) as [Hq Hm].
  exists own. eexists. split; [exact Ha|]. split.
  { unfold own. rewrite length_app. f_equal. clear.
    induction n as [|n IH]; [reflexivity|].
    cbn [repeat List.concat]. rewrite length_app, IH. cbn. lia. }
  split; [exact Hq|]. split; [apply get_set_same|].
  intros d. rewrite Hm. cbn [w FWorker.name FWorker.query].
  rewrite matches_set, holds_and. unfold own. rewrite forallb_app.
  rewrite (@matches_get _ _ _ (FwDoc.view d) Hand), holds_and.
  assert (Hold : matches (Py.remove "$and" (FWorker.query fworker))
                   (FwDoc.view d) = true ->
                 holds "$or" old_or (FwDoc.view d) = true).
  { intros H.
    rewrite (@matches_get "$or" old_or
               (Py.remove "$and" (FWorker.query fworker)) (FwDoc.view d))
      in H by (now rewrite get_remove_other).
    now apply andb_true_iff in H. }
  destruct n as [|n].
  - cbn [repeat List.concat forallb]. now rewrite andb_true_r.
  - rewrite matches_appended.
    destruct (matches (Py.remove "$and" (FWorker.query fworker))
                (FwDoc.view d)).
    + rewrite (Hold eq_refl).
      destruct (forallb (fun q => matches q (FwDoc.view d)) l),
        (affinity (FWorker.name fworker) d); reflexivity.
    + destruct (forallb (fun q => matches q (FwDoc.view d)) l),
        (holds "$or" old_or (FwDoc.view d)),
        (affinity (FWorker.name fworker) d); reflexivity.
Qed.

(* ===================================================================== *)
(** ** More on checkout *)
(* ===================================================================== *)

(** [set_priority]: [{'$set': {'spec._priority': priority}}] on the
    first document with the id. *)
Definition set_spec_priority (priority : Z) (d : FwDoc.t) : FwDoc.t :=
  FwDoc.mk (FwDoc.fw_id d) (FwDoc.state d) (FwDoc.created_on d)
    (FwDoc.updated_on d) (Py.set "_priority" (JInt priority) (FwDoc.spec d))
    (FwDoc.launches d).

Definition set_priority (fw_id priority : Z) : M unit :=
  modify (fun lp =>
            LP.with_fireworks
              (snd (find_one_and_update FwDoc.view
                      [("fw_id", QEq (JInt fw_id))] []
                      (set_spec_priority priority) (LP.fireworks lp))) lp).

(** The READY fireworks a caller's query selects. *)
Definition ready_count (query : option Query) (lp : LP.t) : nat :=
  List.length (filter (ready_match query) (LP.fireworks lp)).

Lemma filter_replace_at_drops (D : Type) (p : D -> bool) (f : D -> D)
  (l : list D) :
  forall (i : nat) (d : D),
    nth_error l i = Some d -> p d = true -> p (f d) = false ->
    S (List.length (filter p (replace_at i f l)))
    = List.length (filter p l).
Proof.
  induction l as [|x l IH]; intros [|i] d Hn Hp Hf; cbn in Hn;
    try discriminate.
  - injection Hn as ->. cbn. now rewrite Hp, Hf.
  - cbn. destruct (p x); cbn; now rewrite (IH i d Hn Hp Hf).
Qed.

Lemma ready_match_reserve (query : option Query) (now : Z) (d : FwDoc.t) :
  ready_match query (reserve now d) = false.
Proof. reflexivity. Qed.

Section CheckoutMore.

Variable SORT_FWS : string.
Variable get_fw_by_id : Z -> Z -> LP.t -> Result Firework.t.
Variable _check_fw_for_uniqueness : Firework.t -> M (bool * Firework.t).

Local Abbreviation checkout :=
  (_get_a_fw_to_run SORT_FWS get_fw_by_id _check_fw_for_uniqueness).

Lemma reserve_one_count (query : option Query) (lp lp1 : LP.t)
  (d : FwDoc.t) :
  reserve_one SORT_FWS (checkout_query query None) lp = (Ok (Some d), lp1) ->
  S (ready_count query lp1) = ready_count query lp.
Proof.
  unfold reserve_one, find_one_and_update.
  destruct (find_one_at FwDoc.view (checkout_query query None)
              (sortby SORT_FWS) (LP.fireworks lp)) as [[i d0]|] eqn:E;
    [|discriminate].
  intros [= -> <-]. destruct (find_one_at_some _ _ _ _ E) as [Hn [Hm _]].
  rewrite checkout_query_matches in Hm. unfold ready_count.
  cbn [LP.fireworks LP.with_fireworks].
  now apply filter_replace_at_drops with (d := d).
Qed.

(** X13.  A checkout without a specific [fw_id] ends within one turn
    more than there are READY fireworks matching the query, provided the
    uniqueness check makes no further firework READY: every turn that
    does not end the call has reserved one of them.  The launchpad is
    left with no more READY matching fireworks than it had. *)
Theorem checkout_terminates (query : option Query) (launch_idx : Z) :
  (forall fw lp0,
      (ready_count query (snd (_check_fw_for_uniqueness fw lp0))
       <= ready_count query lp0)%nat) ->
  forall (fuel : nat) (lp : LP.t),
    (ready_count query lp < fuel)%nat ->
    exists r lp',
      checkout fuel query None launch_idx true lp = Some (r, lp')
      /\ (ready_count query lp' <= ready_count query lp)%nat.
Proof.
  intros Hcheck. induction fuel as [|fuel IH]; intros lp Hlt; [lia|].
  change (checkout (S fuel) query None launch_idx true lp)
    with (checkout (S fuel) query None (-1) true lp).
  destruct (reserve_one SORT_FWS (checkout_query query None) lp)
    as [[[d|]|e] lp1] eqn:Er.
  - rewrite (checkout_after_reserve SORT_FWS get_fw_by_id
               _check_fw_for_uniqueness fuel query None lp Er).
    pose proof (reserve_one_count _ _ Er) as Hc.
    destruct (get_fw_by_id (FwDoc.fw_id d) (-1) lp1) as [m_fw|e].
    2:{ eexists _, lp1. split; [reflexivity | lia]. }
    pose proof (Hcheck m_fw lp1) as Hle.
    destruct (_check_fw_for_uniqueness m_fw lp1) as [[[[] m_fw']|e] lp2];
      cbn [snd] in Hle.
    + eexists _, lp2. split; [reflexivity | lia].
    + destruct (IH lp2) as [r [lp' [Hr Hle']]]; [lia|].
      change (checkout fuel query None (-1) true lp2)
        with (checkout fuel query None launch_idx true lp2).
      exists r, lp'. split; [exact Hr | lia].
    + eexists _, lp2. split; [reflexivity | lia].
  - unfold _get_a_fw_to_run. cbn [while_true].
    unfold checkout_turn, bind. rewrite Er. unfold ret.
    eexists _, lp1. split; [reflexivity|].
    unfold reserve_one, find_one_and_update in Er.
    destruct (find_one_at FwDoc.view (checkout_query query None)
                (sortby SORT_FWS) (LP.fireworks lp)) as [[i d0]|];
      [discriminate|].
    injection Er as <-. now rewrite with_fireworks_same.
  - unfold reserve_one in Er.
    destruct (find_one_and_update FwDoc.view (checkout_query query None)
                (sortby SORT_FWS) (reserve (LP.utcnow lp))
                (LP.fireworks lp)); discriminate.
Qed.

(** X14.  Without the reservation ([checkout] false) nothing but the
    uniqueness check can make the loop advance: when the check reports
    the first candidate a duplicate and leaves the launchpad as it is,
    the next turn finds the same candidate, and the call returns after
    no number of turns. *)
Theorem checkout_without_reservation_repeats (query : option Query)
  (fw_id : option Z) (launch_idx : Z) (lp : LP.t) (d : FwDoc.t)
  (m_fw m_fw' : Firework.t) :
  find_one FwDoc.view (checkout_query query fw_id) (sortby SORT_FWS)
    (LP.fireworks lp) = Some d ->
  get_fw_by_id (FwDoc.fw_id d) (-1) lp = Ok m_fw ->
  _check_fw_for_uniqueness m_fw lp = (Ok (false, m_fw'), lp) ->
  forall fuel, checkout fuel query fw_id launch_idx false lp = None.
Proof.
  intros Hf Hg Hc. induction fuel as [|fuel IH]; [reflexivity|].
  unfold _get_a_fw_to_run in *. cbn [while_true].
  unfold checkout_turn at 1, bind, read. rewrite Hf, Hg, Hc.
  cbn [fst]. unfold ret. exact IH.
Qed.

(** X15.  A checkout for a specific firework id (other than 0, which
    counts as none) sets the caller's query aside: it selects by the id
    and the states READY and RESERVED alone.  With no such firework it
    returns [None] and writes nothing; otherwise the document it
    reserves has the id, also when it was RESERVED already, in which case
    only its [updated_on] is stamped again. *)
Theorem checkout_by_id (query : option Query) (i : Z) (launch_idx : Z)
  (lp : LP.t) (fuel : nat) :
  i <> 0 ->
  let q := checkout_query query (Some i) in
  (forall d, matches q (FwDoc.view d)
             = (FwDoc.fw_id d =? i)
               && Py.str_in (FwDoc.state d) ["READY"; "RESERVED"])
  /\ ((forall d, In d (LP.fireworks lp) -> FwDoc.fw_id d = i ->
                 Py.str_in (FwDoc.state d) ["READY"; "RESERVED"] = false) ->
      checkout (S fuel) query (Some i) launch_idx true lp
      = Some (Ok None, lp))
  /\ (forall d lp1,
        reserve_one SORT_FWS q lp = (Ok (Some d), lp1) ->
        FwDoc.fw_id d = i
        /\ Py.str_in (FwDoc.state d) ["READY"; "RESERVED"] = true
        /\ exists k,
             nth_error (LP.fireworks lp) k = Some d
             /\ LP.fireworks lp1
                = replace_at k (reserve (LP.utcnow lp)) (LP.fireworks lp)
             /\ (FwDoc.state d = "RESERVED" ->
                 nth_error (LP.fireworks lp1) k
                 = Some (FwDoc.mk (FwDoc.fw_id d) (FwDoc.state d)
                           (FwDoc.created_on d) (LP.utcnow lp)
                           (FwDoc.spec d) (FwDoc.launches d))))
  /\ checkout_query query (Some 0) = checkout_query query None.
Proof.
  intros Hi. cbv zeta. split; [intros d; now apply matches_by_id|].
  split; [|split; [|reflexivity]].
  - intros Hnone.
    assert (E : find_one_at FwDoc.view (checkout_query query (Some i))
                  (sortby SORT_FWS) (LP.fireworks lp) = None).
    { destruct (find_one_at FwDoc.view (checkout_query query (Some i))
                  (sortby SORT_FWS) (LP.fireworks lp)) as [[k d]|] eqn:E;
        [|reflexivity].
      destruct (find_one_at_some _ _ _ _ E) as [Hn [Hm _]].
      rewrite matches_by_id in Hm by exact Hi.
      apply andb_true_iff in Hm. destruct Hm as [Hid Hst].
      apply Z.eqb_eq in Hid.
      rewrite (Hnone d (nth_error_In _ _ Hn) Hid) in Hst. discriminate. }
    unfold _get_a_fw_to_run. cbn [while_true].
    unfold checkout_turn, bind.
    now rewrite (reserve_one_none _ _ _ E).
  - intros d lp1. unfold reserve_one, find_one_and_update.
    destruct (find_one_at FwDoc.view (checkout_query query (Some i))
                (sortby SORT_FWS) (LP.fireworks lp)) as [[k d0]|] eqn:E;
      [|discriminate].
    intros [= -> <-]. destruct (find_one_at_some _ _ _ _ E) as [Hn [Hm _]].
    rewrite matches_by_id in Hm by exact Hi.
    apply andb_true_iff in Hm. destruct Hm as [Hid Hst].
    apply Z.eqb_eq in Hid. split; [exact Hid|]. split; [exact Hst|].
    exists k. split; [exact Hn|]. split; [reflexivity|].
    intros Hres. cbn [LP.fireworks LP.with_fireworks].
    rewrite (replace_at_same k (reserve (LP.utcnow lp)) _ Hn).
    unfold reserve. now rewrite Hres.
Qed.

Lemma distinct_ids_same_place (coll : list FwDoc.t) (j k : nat)
  (a b : FwDoc.t) :
  NoDup (map FwDoc.fw_id coll) ->
  nth_error coll j = Some a -> nth_error coll k = Some b ->
  FwDoc.fw_id a = FwDoc.fw_id b -> j = k.
Proof.
  intros Hnd Hj Hk Hid.
  apply (proj1 (NoDup_nth_error (map FwDoc.fw_id coll)) Hnd).
  - rewrite length_map. apply nth_error_Some. congruence.
  - rewrite !nth_error_map, Hj, Hk. cbn. now rewrite Hid.
Qed.

(** X16.  [set_priority] puts a firework at the head of the queue: with
    distinct firework ids, once a READY firework is given a priority that
    outranks the priority of every other READY firework, the next
    checkout without query reserves this firework, whatever its age and
    whatever [SORT_FWS].  Nothing but the priority entry of its spec is
    changed by [set_priority]. *)
Theorem set_priority_then_checkout (i p : Z) (lp : LP.t) (k : nat)
  (d : FwDoc.t) :
  NoDup (map FwDoc.fw_id (LP.fireworks lp)) ->
  nth_error (LP.fireworks lp) k = Some d ->
  FwDoc.fw_id d = i ->
  FwDoc.state d = "READY" ->
  (forall d', In d' (LP.fireworks lp) -> FwDoc.fw_id d' <> i ->
              FwDoc.state d' = "READY" ->
              outranks (1, p) (priority d')) ->
  let lp1 :=
    LP.with_fireworks
      (replace_at k (set_spec_priority p) (LP.fireworks lp)) lp in
  set_priority i p lp = (Ok tt, lp1)
  /\ reserve_one SORT_FWS (checkout_query None None) lp1
     = (Ok (Some (set_spec_priority p d)),
        LP.with_fireworks
          (replace_at k (reserve (LP.utcnow lp)) (LP.fireworks lp1)) lp1).
Proof.
  intros Hnd Hk Hid Hst Hout. cbv zeta.
  assert (Hset : set_priority i p lp
                 = (Ok tt,
                    LP.with_fireworks
                      (replace_at k (set_spec_priority p) (LP.fireworks lp))
                      lp)).
  { unfold set_priority, modify, find_one_and_update.
    destruct (find_one_at FwDoc.view [("fw_id", QEq (JInt i))] []
                (LP.fireworks lp)) as [[j d0]|] eqn:E.
    - destruct (find_one_at_some _ _ _ _ E) as [Hn [Hm _]].
      unfold matches in Hm. cbn [forallb fst snd] in Hm.
      rewrite holds_fw_id_eq, andb_true_r in Hm. apply Z.eqb_eq in Hm.
      assert (j = k) as ->
        by (eapply distinct_ids_same_place; eauto; congruence).
      reflexivity.
    - exfalso.
      assert (Hm := find_one_at_none FwDoc.view _ _ _ E d
                      (nth_error_In _ _ Hk)).
      unfold matches in Hm. cbn [forallb fst snd] in Hm.
      rewrite holds_fw_id_eq, andb_true_r in Hm. apply Z.eqb_neq in Hm.
      contradiction. }
  split; [exact Hset|].
  set (coll1 := replace_at k (set_spec_priority p) (LP.fireworks lp)).
  set (lp1 := LP.with_fireworks coll1 lp).
  assert (Hk1 : nth_error coll1 k = Some (set_spec_priority p d))
    by (now apply replace_at_same).
  assert (Hready : matches (checkout_query None None)
                     (FwDoc.view (set_spec_priority p d)) = true).
  { rewrite checkout_query_matches. unfold ready_match.
    cbn [set_spec_priority FwDoc.state]. now rewrite Hst. }
  destruct (find_one_at_is_some FwDoc.view (checkout_query None None)
              (sortby SORT_FWS) coll1 (set_spec_priority p d)
              (nth_error_In _ _ Hk1) Hready) as [[j dj] E].
  destruct (find_one_at_some _ _ _ _ E) as [Hn [Hm Hleast]].
  assert (Hjk : j = k).
  { destruct (Nat.eq_dec j k) as [Heq | Hne]; [exact Heq | exfalso].
    unfold coll1 in Hn. rewrite replace_at_other in Hn by exact Hne.
    pose proof (Hleast _ (nth_error_In _ _ Hk1) Hready) as Hb.
    apply (not_before_sortby SORT_FWS) in Hb. destruct Hb as [Hb _].
    apply Hb.
    replace (priority (set_spec_priority p d)) with (1, p).
    2:{ unfold priority, set_spec_priority. cbn [FwDoc.spec].
        now rewrite get_set_same. }
    apply Hout.
    - now apply nth_error_In with (n := j).
    - intros Hi. apply Hne.
      eapply distinct_ids_same_place; eauto. congruence.
    - rewrite checkout_query_matches in Hm. unfold ready_match in Hm.
      apply andb_true_iff in Hm. now apply String.eqb_eq. }
  subst j. rewrite Hk1 in Hn. injection Hn as <-.
  now rewrite (reserve_one_some SORT_FWS _ lp1 E).
Qed.

End CheckoutMore.

(* ===================================================================== *)
(** ** Further scenarios *)
(* ===================================================================== *)

Module Cases.

(** A finished firework whose launch fits the store. *)
Definition small_obj : Firework.t :=
  Firework.mk 5 "COMPLETED" 1 3 []
    (Scenario.running_launch [] (Some [("stored_data", JStr "x")]))
    (Some 0) [].

(** A uniqueness check that reports every firework a duplicate and one
    that reports every firework unique; neither writes. *)
Definition all_duplicates (m_fw : Firework.t) : M (bool * Firework.t) :=
  ret (false, m_fw).

(** A worker without category whose query has an [$or], and one whose
    query has an [$and] besides. *)
Definition either : Clause :=
  QList [[("spec.a", QEq (JInt 1))]; [("spec.b", QEq (JInt 2))]].

Definition plain_worker : FWorker.t :=
  FWorker.mk (JStr "w1") JNull [("$or", either)].

Definition both_worker : FWorker.t :=
  FWorker.mk (JStr "w1") JNull
    [("$or", either); ("$and", QList [[("spec.c", QExists true)]])].

(** The queue with every READY firework reserved. *)
Definition queue_reserved : LP.t :=
  LP.with_fireworks (map (fun d =>
                            if String.eqb (FwDoc.state d) "READY"
                            then reserve 100 d else d)
                       (LP.fireworks Scenario.queue)) Scenario.queue.

End Cases.

Lemma fw_id_ranges_disjoint_witness :
  exists firsts,
    calls get_new_fw_id [2; 3; 1] Scenario.queue
    = (Ok firsts,
       LP.with_assigner (Some (5 + total [2; 3; 1], 1)) Scenario.queue)
    /\ List.length firsts = 3%nat
    /\ firsts = [5; 7; 10].
Proof.
  destruct (@fw_id_ranges_disjoint [2; 3; 1] Scenario.queue 5 1 eq_refl)
    as [firsts [Hcalls [Hlen _]]].
  - intros q [<- | [<- | [<- | []]]]; lia.
  - exists firsts. split; [exact Hcalls|]. split; [exact Hlen|].
    cbv in Hcalls. now injection Hcalls as <-.
Defined.

Lemma launch_ids_contiguous_witness :
  exists ids,
    calls (fun _ : unit => get_new_launch_id) (repeat tt 3) Scenario.queue
    = (Ok ids, LP.with_assigner (Some (5, 1 + 3)) Scenario.queue)
    /\ NoDup ids
    /\ nth_error ids 2 = Some 3.
Proof.
  destruct (@launch_ids_contiguous 3 Scenario.queue 5 1 eq_refl)
    as [ids [Hcalls [Hnd [_ Hnth]]]].
  exists ids. split; [exact Hcalls|]. split; [exact Hnd|].
  apply (Hnth 2%nat). lia.
Defined.

Lemma checkin_ids_to_refresh_witness :
  In 5 (ids_sharing 20 (Scenario.running None))
  /\ LP.fireworks
       (written 20 (first_doc Cases.small_obj 20) (Scenario.running None))
     = LP.fireworks (Scenario.running None).
Proof.
  exact (proj2
           (@checkin_ids_to_refresh Scenario.refuses Scenario.dumps
              Scenario.new_id Cases.small_obj None "COMPLETED"
              (Scenario.running None)
              (written 20 (first_doc Cases.small_obj 20)
                 (Scenario.running None))
              (first_doc Cases.small_obj 20)
              (ids_sharing 20 (Scenario.running None)) 0
              eq_refl eq_refl)).
Defined.

Lemma checkin_failure_writes_no_launch_witness :
  _checkin_fw Scenario.refuses Scenario.dumps Scenario.new_id
    Scenario.tracked_obj None "COMPLETED" (Scenario.running (Some []))
  = (Raise (DocumentTooLarge too_large_msg),
     blob_stored Scenario.dumps Scenario.new_id 20
       [("stored_data", JStr "x")] [] (Scenario.running (Some [])))
  /\ LP.launches
       (blob_stored Scenario.dumps Scenario.new_id 20
          [("stored_data", JStr "x")] [] (Scenario.running (Some [])))
     = LP.launches (Scenario.running (Some [])).
Proof.
  split; [reflexivity|].
  exact (proj1
           (@checkin_failure_writes_no_launch Scenario.refuses Scenario.dumps
              Scenario.new_id Scenario.tracked_obj None "COMPLETED"
              (Scenario.running (Some []))
              (blob_stored Scenario.dumps Scenario.new_id 20
                 [("stored_data", JStr "x")] [] (Scenario.running (Some [])))
              (DocumentTooLarge too_large_msg) eq_refl)).
Defined.

Lemma checkin_inline_roundtrip_witness :
  exists stored,
    find_one Launch.view [("launch_id", QEq (JInt 20))] []
      (LP.launches
         (snd (_checkin_fw Scenario.refuses Scenario.dumps Scenario.new_id
                 Cases.small_obj None "COMPLETED" (Scenario.running None))))
    = Some stored
    /\ Launch.action stored = Some [("stored_data", JStr "x")].
Proof.
  exact (proj1
           (@checkin_inline_roundtrip Scenario.refuses Scenario.dumps
              Scenario.loads Scenario.new_id Cases.small_obj None "COMPLETED"
              (Scenario.running None) Scenario.running_fw 0 20
              eq_refl eq_refl eq_refl eq_refl)).
Defined.

Lemma update_fw_failures_witness :
  _update_fw Scenario.ranks Scenario.fetch Scenario.set_state
    (Obj Scenario.finished_obj) None AllowedNone 5 true None
    (Scenario.running None)
  = (Raise (ValueError "Bad launch index %d %d"),
     LP.with_fireworks [FwDoc.mk 5 "COMPLETED" 1 3 [] [20]]
       (Scenario.running None))
  /\ exists i d,
       nth_error (LP.fireworks (Scenario.running None)) i = Some d
       /\ FwDoc.fw_id d = 5
       /\ nth_error [FwDoc.mk 5 "COMPLETED" 1 3 [] [20]] i
          = Some (set_state_updated "COMPLETED" 3 d).
Proof.
  split; [reflexivity|].
  destruct (@update_fw_failures Scenario.ranks Scenario.fetch
              Scenario.set_state (Obj Scenario.finished_obj) None AllowedNone
              5 true None (Scenario.running None)
              (LP.with_fireworks [FwDoc.mk 5 "COMPLETED" 1 3 [] [20]]
                 (Scenario.running None))
              Scenario.finished_obj (ValueError "Bad launch index %d %d")
              eq_refl eq_refl)
    as [[_ [k [Hk _]]] | [_ [_ [i [d [Hn [Hid [Hw _]]]]]]]];
    [discriminate|].
  exists i, d. split; [exact Hn|]. split; [exact Hid | exact Hw].
Defined.

Lemma steal_launches_once_witness :
  _steal_launches Scenario.fetch Scenario.load
    (add_launches [Scenario.done_launch] Scenario.duplicate_obj)
    Scenario.after_reserve
  = Ok (false, add_launches [Scenario.done_launch] Scenario.duplicate_obj).
Proof.
  exact (@steal_launches_once Scenario.fetch Scenario.load
           Scenario.duplicate_obj Scenario.after_reserve true
           (add_launches [Scenario.done_launch] Scenario.duplicate_obj)
           eq_refl).
Defined.

Lemma worker_query_conjoins_affinity_witness :
  exists q,
    worker_query Cases.plain_worker = Ok q
    /\ matches q (FwDoc.view Scenario.other_fw)
       = affinity (JStr "w1") Scenario.other_fw
         && matches (FWorker.query Cases.plain_worker)
              (FwDoc.view Scenario.other_fw).
Proof.
  destruct (@worker_query_conjoins_affinity Cases.plain_worker eq_refl)
    as [q [Hq Hm]].
  - intros c Hc. discriminate.
  - exists q. split; [exact Hq | apply Hm].
Defined.

Lemma worker_query_lengthens_and_witness :
  exists own q,
    Py.get "$and"
      (FWorker.query (Nat.iter 2 worker_query_leaves Cases.both_worker))
    = Some (QList own)
    /\ List.length own = 5%nat
    /\ worker_query (Nat.iter 2 worker_query_leaves Cases.both_worker) = Ok q.
Proof.
  destruct (@worker_query_lengthens_and Cases.both_worker Cases.either
              [[("spec.c", QExists true)]] 2 eq_refl eq_refl eq_refl)
    as [own [q [Ha [Hlen [Hq _]]]]].
  exists own, q. split; [exact Ha|]. split; [exact Hlen | exact Hq].
Defined.

Lemma checkout_terminates_witness :
  exists r lp',
    _get_a_fw_to_run "FIFO" Scenario.fetch Cases.all_duplicates 4 None None
      (-1) true Scenario.queue = Some (r, lp')
    /\ (ready_count None lp' <= 3)%nat.
Proof.
  apply (@checkout_terminates "FIFO" Scenario.fetch Cases.all_duplicates
           None (-1)).
  - intros fw lp0. apply le_n.
  - cbv. lia.
Defined.

Lemma checkout_without_reservation_repeats_witness :
  _get_a_fw_to_run "FIFO" Scenario.fetch Cases.all_duplicates 50 None None
    (-1) false Scenario.queue = None.
Proof.
  eapply (@checkout_without_reservation_repeats "FIFO" Scenario.fetch
            Cases.all_duplicates None None (-1) Scenario.queue);
    reflexivity.
Defined.

Lemma checkout_by_id_witness :
  _get_a_fw_to_run "FIFO" Scenario.fetch Cases.all_duplicates 1
    (Some [("spec.x", QExists true)]) (Some 4) (-1) true Scenario.queue
  = Some (Ok None, Scenario.queue).
Proof.
  destruct (@checkout_by_id "FIFO" Scenario.fetch Cases.all_duplicates
              (Some [("spec.x", QExists true)]) 4 (-1) Scenario.queue 0)
    as [_ [Hnone _]]; [lia|].
  apply Hnone.
  intros d [<- | [<- | [<- | [<- | []]]]]; cbn; intros; try reflexivity;
    discriminate.
Defined.

Lemma set_priority_then_checkout_witness :
  set_priority 1 9 Scenario.queue
  = (Ok tt,
     LP.with_fireworks
       (replace_at 0 (set_spec_priority 9) (LP.fireworks Scenario.queue))
       Scenario.queue)
  /\ fst (reserve_one "FILO" (checkout_query None None)
            (LP.with_fireworks
               (replace_at 0 (set_spec_priority 9)
                  (LP.fireworks Scenario.queue)) Scenario.queue))
     = Ok (Some (FwDoc.mk 1 "READY" 10 10 [("_priority", JInt 9)] [])).
Proof.
  destruct (@set_priority_then_checkout "FILO" 1 9 Scenario.queue 0
              (FwDoc.mk 1 "READY" 10 10 [("_priority", JInt 1)] []))
    as [Hset Hres]; try reflexivity.
  - repeat constructor; cbn; intuition discriminate.
  - intros d' [<- | [<- | [<- | [<- | []]]]] Hid Hst;
      try (exfalso; apply Hid; reflexivity); try discriminate Hst;
      right; split; solve [reflexivity | cbn; lia].
  - split; [exact Hset|]. now rewrite Hres.
Defined.

(* ===================================================================== *)
(** ** Reading launches and fireworks *)
(* ===================================================================== *)

Lemma geb_false (a b : Z) : a < b -> (a >=? b) = false.
Proof. intros H. rewrite Z.geb_leb. now apply Z.leb_gt. Qed.

Lemma geb_true (a b : Z) : b <= a -> (a >=? b) = true.
Proof. intros H. rewrite Z.geb_leb. now apply Z.leb_le. Qed.

Lemma ltb_false (a b : Z) : b <= a -> (a <? b) = false.
Proof. intros H. now apply Z.ltb_ge. Qed.

Lemma ltb_true (a b : Z) : a < b -> (a <? b) = true.
Proof. intros H. now apply Z.ltb_lt. Qed.

Lemma eqb_false (a b : Z) : a <> b -> (a =? b) = false.
Proof. intros H. now apply Z.eqb_neq. Qed.

(** A stored document as the dictionary [find_one] returns. *)
Definition launch_dict (l : Launch.t) : Dict :=
  match Launch.view l with JDict d => d | _ => [] end.

Definition fw_dict_of (d : FwDoc.t) : Dict :=
  match FwDoc.view d with JDict kv => kv | _ => [] end.

Definition action_value (a : option Dict) : J :=
  match a with Some a => JDict a | None => JNull end.

(** What [_get_launch_by_fw_id] returns: the list of all launches when no
    index is given, one launch or [None] otherwise. *)
Inductive Launches : Type :=
| AllLaunches (ls : list Dict)
| OneLaunch (l : option Dict).

Section Readers.

Variable json_loads : string -> option Dict.

Local Abbreviation read_action := (get_action_from_gridfs json_loads).

(** [for i, lid in enumerate(launch_ids)], from position [i]. *)
Fixpoint launches_from (i : Z) (launch_ids : list Z) (lp : LP.t)
  : Result (list Dict) :=
  match launch_ids with
  | [] => Ok []
  | lid :: rest =>
      match find_one Launch.view [("launch_id", QEq (JInt lid))] []
              (LP.launches lp) with
      | None => Raise (AttributeError "get")
      | Some l =>
          rbind (read_action (Launch.action l) (LP.gridfs_fallback lp))
            (fun a =>
               let m_launch := Py.set "action" (action_value a) (launch_dict l) in
               let m_launch := Py.set "launch_idx" (JInt i) m_launch in
               rbind (launches_from (i + 1) rest lp)
                 (fun m_launches => Ok (m_launch :: m_launches)))
      end
  end.

(** The branch of [_get_launch_by_fw_id] for a given index. *)
Definition launch_by_idx (fw_id : Z) (launch_idx : Z) (lp : LP.t)
  : Result (option Dict) :=
  match find_one FwDoc.view [("fw_id", QEq (JInt fw_id))] []
          (LP.fireworks lp) with
  | None => Raise (TypeError "NoneType")
  | Some d =>
      let launch_ids := FwDoc.launches d in
      let len := Z.of_nat (List.length launch_ids) in
      if len =? 0 then Ok None
      else if (launch_idx >=? len) || (launch_idx <? - len)
      then Raise (ValueError "Bad launch index %d %d")
      else
        match Py.index launch_ids launch_idx with
        | None => Raise IndexError
        | Some launch_id =>
            match find_one Launch.view
                    [("launch_id", QEq (JInt launch_id))] []
                    (LP.launches lp) with
            | None => Raise (TypeError "NoneType")
            | Some l =>
                let launch := launch_dict l in
                let launch :=
                  Py.set "launch_idx"
                    (JInt (if launch_idx >=? 0 then launch_idx
                           else len + launch_idx)) launch in
                let launch :=
                  if Py.contains "launch_id" launch
                  then Py.remove "launch_id" launch else launch in
                rbind (read_action (Launch.action l)
                         (LP.gridfs_fallback lp))
                  (fun a =>
                     Ok (Some (Py.set "action" (action_value a) launch)))
            end
        end
  end.

Definition _get_launch_by_fw_id (fw_id : Z) (launch_idx : option Z)
  (lp : LP.t) : Result Launches :=
  match launch_idx with
  | None =>
      match find_one FwDoc.view [("fw_id", QEq (JInt fw_id))] []
              (LP.fireworks lp) with
      | None => Raise (TypeError "NoneType")
      | Some d =>
          rbind (launches_from 0 (FwDoc.launches d) lp)
            (fun m_launches => Ok (AllLaunches m_launches))
      end
  | Some launch_idx =>
      rbind (launch_by_idx fw_id launch_idx lp)
        (fun launch => Ok (OneLaunch launch))
  end.

(** [get_fw_dict_by_id], which always passes an index on.  In
    [launch_idx and fw_dict["state"] not in ["WAITING", "READY"]] the
    index 0 counts as false. *)
Definition get_fw_dict_by_id (fw_id : Z) (launch_idx : Z) (lp : LP.t)
  : Result Dict :=
  match find_one FwDoc.view [("fw_id", QEq (JInt fw_id))] []
          (LP.fireworks lp) with
  | None => Raise (ValueError "No Firework exists with id")
  | Some d =>
      let fw_dict := fw_dict_of d in
      rbind
        (if negb (launch_idx =? 0)
            && negb (Py.str_in (FwDoc.state d) ["WAITING"; "READY"])
         then launch_by_idx fw_id launch_idx lp
         else Ok None)
        (fun launch =>
           let launch :=
             match launch with
             | Some l => l
             | None => [("state", JStr (FwDoc.state d))]
             end in
           let fw_dict := Py.set "launch" (JDict launch) fw_dict in
           Ok (Py.remove "launches" fw_dict))
  end.

(** The firework dictionary with the launch [launch] in it. *)
Definition fw_with_launch (d : FwDoc.t) (launch : Dict) : Dict :=
  Py.remove "launches" (Py.set "launch" (JDict launch) (fw_dict_of d)).

Lemma index_wraps (A : Type) (l : list A) (i : Z) :
  0 <= i < Z.of_nat (List.length l) ->
  Py.index l (i - Z.of_nat (List.length l)) = Py.index l i.
Proof.
  intros Hi. unfold Py.index.
  set (n := Z.of_nat (List.length l)) in *.
  rewrite (@geb_false (i - n) n), (@geb_false i n) by lia.
  rewrite (@ltb_false (i - n) (- n)), (@ltb_false i (- n)) by lia.
  rewrite (@ltb_true (i - n) 0), (@ltb_false i 0) by lia.
  cbn [orb]. f_equal. f_equal. lia.
Qed.

Lemma index_in_range (A : Type) (l : list A) (i : Z) (x : A) :
  Py.index l i = Some x ->
  - Z.of_nat (List.length l) <= i < Z.of_nat (List.length l).
Proof.
  unfold Py.index.
  destruct ((i >=? Z.of_nat (List.length l))
            || (i <? - Z.of_nat (List.length l))) eqn:E; [discriminate|].
  intros _. apply orb_false_iff in E. destruct E as [E1 E2].
  rewrite Z.geb_leb in E1. apply Z.leb_gt in E1. apply Z.ltb_ge in E2. lia.
Qed.

Lemma launch_by_idx_wraps (fw_id idx : Z) (lp : LP.t) (d : FwDoc.t) :
  find_one FwDoc.view [("fw_id", QEq (JInt fw_id))] [] (LP.fireworks lp)
  = Some d ->
  0 <= idx < Z.of_nat (List.length (FwDoc.launches d)) ->
  launch_by_idx fw_id (idx - Z.of_nat (List.length (FwDoc.launches d))) lp
  = launch_by_idx fw_id idx lp.
Proof.
  intros Hd Hr. unfold launch_by_idx. rewrite Hd.
  rewrite index_wraps by exact Hr.
  set (len := Z.of_nat (List.length (FwDoc.launches d))) in *.
  rewrite (@eqb_false len 0) by lia.
  rewrite (@geb_false (idx - len) len), (@geb_false idx len) by lia.
  rewrite (@ltb_false (idx - len) (- len)), (@ltb_false idx (- len)) by lia.
  rewrite (@geb_false (idx - len) 0), (@geb_true idx 0) by lia. cbn [orb].
  replace (len + (idx - len)) with idx by lia. reflexivity.
Qed.

(** X17.  [_get_launch_by_fw_id] with an index, for a firework that has
    a document.  With an empty launch list it returns [None] whatever
    the index; an index outside the list is a [ValueError]; the indices
    [i] and [i - len] address the same launch and give the same answer;
    the launch returned has lost its [launch_id] and carries the index
    counted from the start, whichever way it was asked for. *)
Theorem get_launch_index (fw_id idx : Z) (lp : LP.t) (d : FwDoc.t) :
  find_one FwDoc.view [("fw_id", QEq (JInt fw_id))] [] (LP.fireworks lp)
  = Some d ->
  let len := Z.of_nat (List.length (FwDoc.launches d)) in
  let get := fun i => _get_launch_by_fw_id fw_id (Some i) lp in
  (len = 0 -> get idx = Ok (OneLaunch None))
  /\ (0 < len -> idx >= len \/ idx < - len ->
      get idx = Raise (ValueError "Bad launch index %d %d"))
  /\ (0 <= idx < len -> get (idx - len) = get idx)
  /\ (forall m,
        get idx = Ok (OneLaunch (Some m)) ->
        Py.get "launch_id" m = None
        /\ Py.get "launch_idx" m
           = Some (JInt (if idx >=? 0 then idx else len + idx))
        /\ 0 <= (if idx >=? 0 then idx else len + idx) < len
        /\ exists l,
             In l (LP.launches lp)
             /\ Py.index (FwDoc.launches d) idx = Some (Launch.launch_id l)
             /\ Py.get "state" m = Some (JStr (Launch.state l))
             /\ Py.get "state_history" m
                = Some (JList (map Hist.view (Launch.state_history l)))
             /\ Py.get "trackers" m = Some (JList (Launch.trackers l))
             /\ exists a,
                  read_action (Launch.action l) (LP.gridfs_fallback lp)
                  = Ok a
                  /\ Py.get "action" m = Some (action_value a)).
Proof.
  intros Hd. cbv zeta. unfold _get_launch_by_fw_id.
  set (len := Z.of_nat (List.length (FwDoc.launches d))).
  split; [|split; [|split]].
  - intros Hz. unfold launch_by_idx. rewrite Hd. fold len. now rewrite Hz.
  - intros Hpos Hout. unfold launch_by_idx. rewrite Hd. fold len.
    rewrite (@eqb_false len 0) by lia.
    destruct Hout as [H | H].
    + now rewrite (@geb_true idx len) by lia.
    + rewrite (@ltb_true idx (- len)) by lia. now rewrite orb_true_r.
  - intros Hr. unfold len in *.
    now rewrite (@launch_by_idx_wraps fw_id idx lp d Hd Hr).
  - intros m. unfold launch_by_idx. rewrite Hd. fold len.
    destruct (len =? 0) eqn:E0; [discriminate|].
    apply Z.eqb_neq in E0.
    destruct ((idx >=? len) || (idx <? - len)) eqn:Er; [discriminate|].
    apply orb_false_iff in Er. destruct Er as [E1 E2].
    rewrite Z.geb_leb in E1. apply Z.leb_gt in E1. apply Z.ltb_ge in E2.
    destruct (Py.index (FwDoc.launches d) idx) as [lid|] eqn:Ei;
      [|discriminate].
    destruct (find_one Launch.view [("launch_id", QEq (JInt lid))] []
                (LP.launches lp)) as [l|] eqn:El; [|discriminate].
    destruct (read_action (Launch.action l) (LP.gridfs_fallback lp))
      as [a|e] eqn:Ea; [|discriminate].
    cbn [rbind]. intros [= <-].
    split; [reflexivity|]. split; [reflexivity|]. split.
    { destruct (idx >=? 0) eqn:E3.
      - rewrite Z.geb_leb in E3. apply Z.leb_le in E3. lia.
      - rewrite Z.geb_leb in E3. apply Z.leb_gt in E3. lia. }
    unfold find_one in El.
    destruct (find_one_at Launch.view [("launch_id", QEq (JInt lid))] []
                (LP.launches lp)) as [[j l0]|] eqn:Ef; [|discriminate].
    cbn in El. injection El as ->.
    destruct (find_one_at_some _ _ _ _ Ef) as [Hn [Hm _]].
    unfold matches in Hm. cbn [forallb fst snd] in Hm.
    rewrite holds_launch_id_eq, andb_true_r in Hm. apply Z.eqb_eq in Hm.
    exists l. split; [now apply nth_error_In with (n := j)|].
    split; [now rewrite Hm|].
    split; [reflexivity|]. split; [reflexivity|]. split; [reflexivity|].
    exists a. split; [exact Ea | reflexivity].
Qed.

(** X18.  [get_fw_dict_by_id] cannot be asked for the first launch by
    its index: with [launch_idx] 0 the launches are not read and the
    launch of the answer is the placeholder with the firework's state,
    whatever launches the firework has.  Asked as [- len], the same
    launch is returned.  A WAITING or READY firework gets the placeholder
    for every index. *)
Theorem get_fw_dict_first_launch (fw_id : Z) (lp : LP.t) (d : FwDoc.t) :
  find_one FwDoc.view [("fw_id", QEq (JInt fw_id))] [] (LP.fireworks lp)
  = Some d ->
  let len := Z.of_nat (List.length (FwDoc.launches d)) in
  let placeholder := [("state", JStr (FwDoc.state d))] in
  get_fw_dict_by_id fw_id 0 lp = Ok (fw_with_launch d placeholder)
  /\ (forall m,
        Py.str_in (FwDoc.state d) ["WAITING"; "READY"] = false ->
        _get_launch_by_fw_id fw_id (Some 0) lp = Ok (OneLaunch (Some m)) ->
        get_fw_dict_by_id fw_id (- len) lp = Ok (fw_with_launch d m))
  /\ (forall idx,
        Py.str_in (FwDoc.state d) ["WAITING"; "READY"] = true ->
        get_fw_dict_by_id fw_id idx lp = Ok (fw_with_launch d placeholder)).
Proof.
  intros Hd. cbv zeta. split; [|split].
  - unfold get_fw_dict_by_id. now rewrite Hd.
  - intros m Hst H0. unfold get_fw_dict_by_id. rewrite Hd, Hst.
    set (len := Z.of_nat (List.length (FwDoc.launches d))).
    assert (Hlen : 0 < len).
    { unfold _get_launch_by_fw_id, launch_by_idx in H0. rewrite Hd in H0.
      fold len in H0. destruct (len =? 0) eqn:E0; [discriminate|].
      apply Z.eqb_neq in E0. unfold len in *. lia. }
    rewrite (@eqb_false (- len) 0) by lia.
    cbn [negb andb].
    pose proof (@launch_by_idx_wraps fw_id 0 lp d Hd
                  (conj (Z.le_refl 0) Hlen)) as Hwrap.
    fold len in Hwrap. replace (0 - len) with (- len) in Hwrap by lia.
    rewrite Hwrap. unfold _get_launch_by_fw_id in H0.
    destruct (launch_by_idx fw_id 0 lp) as [[m'|]|e];
      cbn [rbind] in H0; try discriminate.
    injection H0 as ->. reflexivity.
  - intros idx Hst. unfold get_fw_dict_by_id. rewrite Hd, Hst.
    now rewrite andb_false_r.
Qed.

End Readers.

Section ReadBack.

Variable too_large : Launch.t -> bool.
Variable json_dumps : Dict -> string.
Variable json_loads : string -> option Dict.
Variable new_object_id : GridFS.t -> string.

Local Abbreviation checkin := (_checkin_fw too_large json_dumps new_object_id).

(** What the reader makes of a launch just written under the id
    [lid]. *)
Lemma launch_by_idx_written (fw_id idx lid : Z) (lp0 : LP.t) (d : FwDoc.t)
  (doc : Launch.t) (a : option Dict) :
  find_one FwDoc.view [("fw_id", QEq (JInt fw_id))] [] (LP.fireworks lp0)
  = Some d ->
  Py.index (FwDoc.launches d) idx = Some lid ->
  Launch.launch_id doc = lid ->
  get_action_from_gridfs json_loads (Launch.action doc)
    (LP.gridfs_fallback lp0) = Ok a ->
  exists m,
    launch_by_idx json_loads fw_id idx (written lid doc lp0) = Ok (Some m)
    /\ Py.get "action" m = Some (action_value a)
    /\ Py.get "launch_id" m = None
    /\ Py.get "fw_id" m = Some (JInt (Launch.fw_id doc))
    /\ Py.get "state" m = Some (JStr (Launch.state doc))
    /\ Py.get "state_history" m
       = Some (JList (map Hist.view (Launch.state_history doc)))
    /\ Py.get "trackers" m = Some (JList (Launch.trackers doc)).
Proof.
  intros Hd Hi Hid Ha. unfold launch_by_idx.
  cbn [written LP.fireworks LP.with_launches LP.launches LP.gridfs_fallback].
  rewrite Hd. pose proof (index_in_range _ _ Hi) as Hr.
  set (len := Z.of_nat (List.length (FwDoc.launches d))) in *.
  rewrite (@eqb_false len 0), (@geb_false idx len),
    (@ltb_false idx (- len)) by lia.
  cbn [orb]. rewrite Hi.
  rewrite find_one_after_replace_upsert
    by (rewrite <- Hid; apply matches_launch_id).
  rewrite Ha. cbn [rbind]. eexists. split; [reflexivity|].
  repeat split; reflexivity.
Qed.

(** X19.  What is checked in is what is read back: after a
    [_checkin_fw] that returns for the launch at [launch_idx],
    [_get_launch_by_fw_id] for the same firework and index returns a
    launch with the action, the state, the history and the trackers of
    the launch checked in, whether the action was stored inline or went
    to the blob store, for an action without a [gridfs_id] entry that
    survives the JSON round trip and a blob store that gives the new
    file an unused id. *)
Theorem checkin_then_read (m_fw : Firework.t) (action : option Dict)
  (state : string) (lp lp' : LP.t) (l : Launch.t) (ids : list Z) (idx : Z) :
  checkin m_fw action state lp = (Ok (l, ids), lp') ->
  Firework.launch_idx m_fw = Some idx ->
  (forall a, Launch.action (Firework.launch m_fw) = Some a ->
             Py.get "gridfs_id" a = None
             /\ json_loads (json_dumps a) = Some a) ->
  (forall fs, LP.gridfs_fallback lp = Some fs ->
              GridFS.get (new_object_id fs) fs = None) ->
  let given := Firework.launch m_fw in
  exists m,
    _get_launch_by_fw_id json_loads (Firework.fw_id m_fw) (Some idx) lp'
    = Ok (OneLaunch (Some m))
    /\ Py.get "action" m = Some (action_value (Launch.action given))
    /\ Py.get "state" m = Some (JStr (Launch.state given))
    /\ Py.get "state_history" m
       = Some (JList (map Hist.view (Launch.state_history given)))
    /\ Py.get "trackers" m = Some (JList (Launch.trackers given)).
Proof.
  intros H Hidx Hact Hfresh. cbv zeta.
  rewrite checkin_total, Hidx in H.
  destruct (find_one FwDoc.view
              [("fw_id", QEq (JInt (Firework.fw_id m_fw)))] []
              (LP.fireworks lp)) as [d|] eqn:Ed; [|discriminate].
  destruct (Py.index (FwDoc.launches d) idx) as [lid|] eqn:El;
    [|discriminate].
  unfold _get_launch_by_fw_id.
  destruct (too_large (first_doc m_fw lid)).
  - destruct (Launch.action (Firework.launch m_fw)) as [[|kv rest]|] eqn:Ea;
      try discriminate.
    destruct (LP.gridfs_fallback lp) as [fs|] eqn:Eg; [|discriminate].
    destruct (GridFS.has_launch lid fs); [discriminate|].
    destruct (too_large (token_doc new_object_id m_fw lid fs));
      [discriminate|].
    injection H as <- <- <-.
    destruct (Hact _ eq_refl) as [_ Hjson].
    destruct (@launch_by_idx_written (Firework.fw_id m_fw) idx lid
                (blob_stored json_dumps new_object_id lid (kv :: rest) fs lp)
                d (token_doc new_object_id m_fw lid fs)
                (Some (kv :: rest)) Ed El eq_refl)
      as [m [Hm [H1 [_ [_ [H2 [H3 H4]]]]]]].
    { cbn [blob_stored LP.with_gridfs LP.gridfs_fallback token_doc
             Launch.set_action Launch.action].
      unfold get_action_from_gridfs, gridfs_token.
      cbn [Py.get String.eqb Ascii.eqb Bool.eqb].
      rewrite gridfs_get_new by exact (Hfresh fs eq_refl).
      now rewrite Hjson. }
    exists m. rewrite Hm. cbn [rbind]. split; [reflexivity|].
    split; [exact H1|]. split; [exact H2|]. split; [exact H3 | exact H4].
  - injection H as <- <- <-.
    destruct (@launch_by_idx_written (Firework.fw_id m_fw) idx lid lp d
                (first_doc m_fw lid)
                (Launch.action (Firework.launch m_fw)) Ed El eq_refl)
      as [m [Hm [H1 [_ [_ [H2 [H3 H4]]]]]]].
    { cbn [first_doc Launch.set_launch_id Launch.action].
      unfold get_action_from_gridfs.
      destruct (Launch.action (Firework.launch m_fw)) as [[|kv rest]|] eqn:Ea;
        try reflexivity.
      destruct (Hact _ eq_refl) as [Hno _]. now rewrite Hno. }
    exists m. rewrite Hm. cbn [rbind]. split; [reflexivity|].
    split; [exact H1|]. split; [exact H2|]. split; [exact H3 | exact H4].
Qed.

End ReadBack.

(* ===================================================================== *)
(** ** [LazyFirework] *)
(* ===================================================================== *)

(** The attributes of a [LazyFirework] that its index depends on.
    [_fw] is the partial firework once loaded, kept here as the document
    it was built from ([Firework.from_dict] is not part of the sources;
    a firework object counts as true). *)
Module Lazy.
Record t : Type := mk {
  fw_id : Z;
  _launch_idx : Z;
  _fw : option FwDoc.t;
  _lids : option (list Z)
}.

(** [LazyFirework(fw_id, launch_idx, ...)] *)
Definition init (fw_id launch_idx : Z) : t := mk fw_id launch_idx None None.
End Lazy.

(** The property [partial_fw], for its effect on the object: the first
    access reads the document and keeps its launch ids. *)
Definition partial_fw (self : Lazy.t) (lp : LP.t) : Result Lazy.t :=
  match Lazy._fw self with
  | Some _ => Ok self
  | None =>
      match find_one FwDoc.view [("fw_id", QEq (JInt (Lazy.fw_id self)))] []
              (LP.fireworks lp) with
      | None => Raise (TypeError "NoneType")
      | Some data =>
          Ok (Lazy.mk (Lazy.fw_id self) (Lazy._launch_idx self) (Some data)
                (Some (FwDoc.launches data)))
      end
  end.

(** The property [launch_idx]: the value read and the object as the read
    leaves it. *)
Definition lazy_launch_idx (self : Lazy.t) (lp : LP.t)
  : Result (Z * Lazy.t) :=
  rbind (partial_fw self lp)
    (fun self =>
       match Lazy._lids self with
       | None => Raise (TypeError "NoneType")
       | Some lids =>
           let self :=
             if Lazy._launch_idx self <? 0
             then Lazy.mk (Lazy.fw_id self)
                    (Z.of_nat (List.length lids) + Lazy._launch_idx self)
                    (Lazy._fw self) (Lazy._lids self)
             else self in
           Ok (Lazy._launch_idx self, self)
       end).

(** The value of the read number [n + 1] of the property. *)
Fixpoint lazy_read (n : nat) (self : Lazy.t) (lp : LP.t) : Result Z :=
  match n with
  | O => rbind (lazy_launch_idx self lp) (fun r => Ok (fst r))
  | S n' => rbind (lazy_launch_idx self lp) (fun r => lazy_read n' (snd r) lp)
  end.

(** One read of the index, on the value alone. *)
Definition climb (len i : Z) : Z := if i <? 0 then len + i else i.

Fixpoint climbs (n : nat) (len i : Z) : Z :=
  match n with
  | O => climb len i
  | S n' => climbs n' len (climb len i)
  end.

Lemma lazy_read_loaded (n : nat) :
  forall (self : Lazy.t) (lp : LP.t) (data : FwDoc.t) (lids : list Z),
    Lazy._fw self = Some data ->
    Lazy._lids self = Some lids ->
    lazy_read n self lp
    = Ok (climbs n (Z.of_nat (List.length lids)) (Lazy._launch_idx self)).
Proof.
  induction n as [|n IH]; intros self lp data lids Hfw Hl;
    cbn [lazy_read climbs]; unfold lazy_launch_idx, partial_fw;
    rewrite Hfw; cbn [rbind]; rewrite Hl; unfold climb.
  - now destruct (Lazy._launch_idx self <? 0).
  - cbn [rbind snd].
    destruct (Lazy._launch_idx self <? 0);
      now rewrite (IH _ lp data lids).
Qed.

Lemma lazy_read_fresh (n : nat) (self : Lazy.t) (lp : LP.t) (d : FwDoc.t) :
  Lazy._fw self = None ->
  find_one FwDoc.view [("fw_id", QEq (JInt (Lazy.fw_id self)))] []
    (LP.fireworks lp) = Some d ->
  lazy_read n self lp
  = Ok (climbs n (Z.of_nat (List.length (FwDoc.launches d)))
          (Lazy._launch_idx self)).
Proof.
  intros Hfw Hd. destruct n as [|n]; cbn [lazy_read climbs];
    unfold lazy_launch_idx, partial_fw; rewrite Hfw, Hd;
    cbn [rbind Lazy._lids Lazy._launch_idx Lazy._fw Lazy.fw_id];
    unfold climb.
  - now destruct (Lazy._launch_idx self <? 0).
  - cbn [rbind snd].
    destruct (Lazy._launch_idx self <? 0);
      now rewrite (@lazy_read_loaded n _ lp d (FwDoc.launches d)).
Qed.

Lemma climbs_nonneg (n : nat) (len i : Z) : 0 <= i -> climbs n len i = i.
Proof.
  revert i. induction n as [|n IH]; intros i Hi; cbn [climbs]; unfold climb;
    rewrite (@ltb_false i 0) by lia; [reflexivity | now apply IH].
Qed.

Lemma climbs_lands (k : nat) :
  forall (len i : Z) (n : nat),
    0 < len -> - (Z.of_nat (S k) * len) <= i < 0 -> (k <= n)%nat ->
    climbs n len i = i mod len.
Proof.
  induction k as [|k IH]; intros len i n Hlen Hi Hn.
  - assert (Hm : i mod len = len + i).
    { symmetry. apply Z.mod_unique_pos with (q := -1); lia. }
    destruct n as [|n]; cbn [climbs]; unfold climb;
      rewrite (@ltb_true i 0) by lia; [now rewrite Hm|].
    rewrite climbs_nonneg by lia. now rewrite Hm.
  - destruct n as [|n]; [lia|]. cbn [climbs]. unfold climb.
    rewrite (@ltb_true i 0) by lia.
    destruct (Z_lt_ge_dec (len + i) 0) as [Hneg | Hpos].
    + rewrite (IH len (len + i) n) by lia.
      replace (len + i) with (i + 1 * len) by lia. apply Z.mod_add. lia.
    + rewrite climbs_nonneg by lia.
      apply Z.mod_unique_pos with (q := -1); lia.
Qed.

(** X20.  Reading [LazyFirework.launch_idx] rewrites the index it
    reads.  For a firework with [len] launches: an index that is not
    negative is returned as it is, in range or not; an index from
    [- len] to [-1] is counted from the end once and then stays; an
    index below [- len] is not refused: the first two reads return
    different values, each read adds [len], and from some read on the
    value is the index modulo [len], a position of the list. *)
Theorem lazy_launch_idx_drifts (fw_id i0 : Z) (lp : LP.t) (d : FwDoc.t) :
  find_one FwDoc.view [("fw_id", QEq (JInt fw_id))] [] (LP.fireworks lp)
  = Some d ->
  let len := Z.of_nat (List.length (FwDoc.launches d)) in
  let read := fun n => lazy_read n (Lazy.init fw_id i0) lp in
  (0 <= i0 -> forall n, read n = Ok i0)
  /\ (- len <= i0 < 0 -> forall n, read n = Ok (len + i0))
  /\ (i0 < - len -> 0 < len ->
      read 0%nat = Ok (len + i0)
      /\ read 1%nat = Ok (len + (len + i0))
      /\ exists N, forall n, (N <= n)%nat ->
           read n = Ok (i0 mod len) /\ 0 <= i0 mod len < len).
Proof.
  intros Hd. cbv zeta.
  assert (Hread : forall n,
             lazy_read n (Lazy.init fw_id i0) lp
             = Ok (climbs n (Z.of_nat (List.length (FwDoc.launches d))) i0)).
  { intros n. now rewrite (@lazy_read_fresh n (Lazy.init fw_id i0) lp d). }
  set (len := Z.of_nat (List.length (FwDoc.launches d))) in *.
  split; [|split].
  - intros Hi n. now rewrite Hread, climbs_nonneg.
  - intros Hi n. rewrite Hread. destruct n as [|n]; cbn [climbs];
      unfold climb; rewrite (@ltb_true i0 0) by lia; [reflexivity|].
    now rewrite climbs_nonneg by lia.
  - intros Hi Hlen. rewrite !Hread. cbn [climbs]. unfold climb.
    rewrite (@ltb_true i0 0), (@ltb_true (len + i0) 0) by lia.
    split; [reflexivity|]. split; [reflexivity|].
    exists (Z.to_nat (- i0)). intros n Hn. rewrite Hread. split.
    + f_equal. apply climbs_lands with (k := Z.to_nat (- i0)); [lia| |lia].
      nia.
    + apply Z.mod_pos_bound. lia.
Qed.

(* ===================================================================== *)
(** ** Replacing a firework *)
(* ===================================================================== *)

(** [fw_dict['launches'] = launch_ids] *)
Definition with_launch_ids (ids : list Z) (d : FwDoc.t) : FwDoc.t :=
  FwDoc.mk (FwDoc.fw_id d) (FwDoc.state d) (FwDoc.created_on d)
    (FwDoc.updated_on d) (FwDoc.spec d) ids.

(** The query of [_replace_fw]: [fw_id or m_fw.fw_id], and the state
    when one is given ([if state:], so the empty string gives none). *)
Definition replace_query (m_fw : Firework.t) (state : Allowed)
  (fw_id : option Z) : Query :=
  let i :=
    match fw_id with
    | Some i => if i =? 0 then Firework.fw_id m_fw else i
    | None => Firework.fw_id m_fw
    end in
  let query := [("fw_id", QEq (JInt i))] in
  match state with
  | AllowedList l => Py.set "state" (QIn (map JStr l)) query
  | AllowedStr s =>
      if Py.truthy (JStr s) then Py.set "state" (QEq (JStr s)) query
      else query
  | AllowedNone => query
  end.

(** [tuneup] builds a unique index on [fw_id] of the fireworks.  A write
    that brings the id of the new document into the index is refused
    when a stored document has that id: an insertion by [upsert], or a
    replacement of a document of another id.  A replacement that keeps
    the id of the replaced document does not touch the index. *)
Definition fw_id_collision (upsert : bool) (query : Query) (doc : FwDoc.t)
  (coll : list FwDoc.t) : bool :=
  existsb (fun d => FwDoc.fw_id d =? FwDoc.fw_id doc) coll
  && match find_one FwDoc.view query [] coll with
     | Some old => negb (FwDoc.fw_id old =? FwDoc.fw_id doc)
     | None => upsert
     end.

(** [self.fireworks.find_one_and_replace(query, fw_dict, upsert=upsert)]:
    refused by the unique index, with nothing written, or carried out. *)
Definition fireworks_replace_with (upsert : bool) (query : Query)
  (doc : FwDoc.t) : M unit :=
  fun lp =>
    if fw_id_collision upsert query doc (LP.fireworks lp)
    then (Raise (DuplicateKeyError "fw_id"), lp)
    else (Ok tt,
          LP.with_fireworks
            ((if upsert then find_one_and_replace_upsert FwDoc.view
              else find_one_and_replace FwDoc.view)
               query doc (LP.fireworks lp)) lp).

Section ReplaceFw.

Variable too_large : Launch.t -> bool.
(** [Firework.to_db_dict], of the base class, as [_replace_fw] takes it
    apart: the document without its launch, the launch, and the launch's
    [launch_idx]. *)
Variable Firework_to_db_dict : Firework.t -> FwDoc.t * Launch.t * option Z.
Variable json_loads : string -> option Dict.

(** [self.launches.find_one_and_replace(lquery, launch, upsert=upsert)].
    The launch written has the id the query asks for, so the unique
    index on [launch_id] is never in its way. *)
Definition launches_replace_with (upsert : bool) (i : Z) (doc : Launch.t)
  : M unit :=
  fun lp =>
    if too_large doc then (Raise (DocumentTooLarge too_large_msg), lp)
    else (Ok tt,
          LP.with_launches
            ((if upsert then find_one_and_replace_upsert Launch.view
              else find_one_and_replace Launch.view)
               [("launch_id", QEq (JInt i))] doc (LP.launches lp)) lp).

Definition _replace_fw (m_fw : Firework.t) (state : Allowed)
  (upsert : bool) (fw_id : option Z) : M unit :=
  let query := replace_query m_fw state fw_id in
  let '(fw_dict, launch, launch_idx) := Firework_to_db_dict m_fw in
  let stored_ids :=
    read (fun lp =>
            Ok (match find_one FwDoc.view query [] (LP.fireworks lp) with
                | Some launches => FwDoc.launches launches
                | None => []
                end)) in
  launch_ids <-
    match launch_idx, Launch.action launch with
    | Some launch_idx, None =>
        launch_ids <- stored_ids;;
        r <- (if launch_idx >=? Z.of_nat (List.length launch_ids) then
                i <- get_new_launch_id;;
                ret (i, launch_ids ++ [i])
              else
                match Py.index launch_ids launch_idx with
                | Some i => ret (i, launch_ids)
                | None => raise IndexError
                end);;
        launches_replace_with upsert (fst r)
          (Launch.set_launch_id (fst r) launch) ;;;
        ret (snd r)
    | _, _ => stored_ids
    end;;
  let fw_dict := with_launch_ids launch_ids fw_dict in
  fireworks_replace_with upsert query fw_dict.

End ReplaceFw.

Lemma find_one_at_all_fail (D : Type) (view : D -> J) (q : Query)
  (sortby : list (string * Direction)) (coll : list D) :
  (forall x, In x coll -> matches q (view x) = false) ->
  find_one_at view q sortby coll = None.
Proof.
  intros H. destruct (find_one_at view q sortby coll) as [[i d]|] eqn:E;
    [|reflexivity].
  destruct (find_one_at_some _ _ _ _ E) as [Hn [Hm _]].
  rewrite (H d (nth_error_In _ _ Hn)) in Hm. discriminate.
Qed.

Lemma find_one_after_replace (D : Type) (view : D -> J) (q : Query)
  (doc d : D) (coll : list D) :
  find_one view q [] coll = Some d ->
  matches q (view doc) = true ->
  find_one view q [] (find_one_and_replace view q doc coll) = Some doc.
Proof.
  intros Hd Hdoc. unfold find_one, find_one_and_replace, find_one_and_update
    in *. rewrite !find_one_at_unsorted in *.
  destruct (first_at view q 0 coll) as [[i d0]|] eqn:E; [|discriminate].
  cbn [snd].
  pose proof (@first_at_replace D view q doc coll Hdoc 0%nat i d0 E) as H.
  rewrite Nat.sub_0_r in H. now rewrite H.
Qed.

Lemma index_app_last (A : Type) (l : list A) (x : A) :
  Py.index (l ++ [x]) (Z.of_nat (List.length l)) = Some x.
Proof.
  unfold Py.index. rewrite length_app. cbn [List.length].
  set (n := Z.of_nat (List.length l)).
  replace (Z.of_nat (List.length l + 1)) with (n + 1) by (unfold n; lia).
  rewrite (@geb_false n (n + 1)), (@ltb_false n (- (n + 1))),
    (@ltb_false n 0) by lia.
  cbn [orb]. unfold n. rewrite Nat2Z.id.
  rewrite nth_error_app2 by lia. now rewrite Nat.sub_diag.
Qed.

Lemma matches_fw_id (d : FwDoc.t) :
  matches [("fw_id", QEq (JInt (FwDoc.fw_id d)))] (FwDoc.view d) = true.
Proof.
  unfold matches. cbn [forallb fst snd].
  now rewrite holds_fw_id_eq, Z.eqb_refl.
Qed.

Section ReplaceFwFacts.

Variable too_large : Launch.t -> bool.
Variable Firework_to_db_dict : Firework.t -> FwDoc.t * Launch.t * option Z.
Variable json_loads : string -> option Dict.

Local Abbreviation replace_fw := (_replace_fw too_large Firework_to_db_dict).

(** The call for a launch without action whose index is past the stored
    launch list. *)
Lemma replace_fw_new_launch (m_fw : Firework.t) (state : Allowed)
  (upsert : bool) (fw_id : option Z) (lp : LP.t) (fw_dict : FwDoc.t)
  (launch : Launch.t) (idx f n : Z) (ids : list Z) :
  Firework_to_db_dict m_fw = (fw_dict, launch, Some idx) ->
  Launch.action launch = None ->
  match find_one FwDoc.view (replace_query m_fw state fw_id) []
          (LP.fireworks lp) with
  | Some d => FwDoc.launches d
  | None => []
  end = ids ->
  Z.of_nat (List.length ids) <= idx ->
  LP.fw_id_assigner lp = Some (f, n) ->
  too_large (Launch.set_launch_id n launch) = false ->
  fw_id_collision upsert (replace_query m_fw state fw_id)
    (with_launch_ids (ids ++ [n]) fw_dict) (LP.fireworks lp) = false ->
  replace_fw m_fw state upsert fw_id lp
  = (Ok tt,
     LP.with_fireworks
       ((if upsert then find_one_and_replace_upsert FwDoc.view
         else find_one_and_replace FwDoc.view)
          (replace_query m_fw state fw_id)
          (with_launch_ids (ids ++ [n]) fw_dict) (LP.fireworks lp))
       (LP.with_launches
          ((if upsert then find_one_and_replace_upsert Launch.view
            else find_one_and_replace Launch.view)
             [("launch_id", QEq (JInt n))] (Launch.set_launch_id n launch)
             (LP.launches lp))
          (LP.with_assigner (Some (f, n + 1)) lp))).
Proof.
  intros Hdb Hact Hids Hidx Hasg Hfit Hfree. unfold _replace_fw.
  rewrite Hdb, Hact. unfold bind at 1. unfold bind at 1, read at 1.
  rewrite Hids. unfold bind at 1.
  rewrite (@geb_true idx (Z.of_nat (List.length ids))) by lia.
  unfold bind at 1, get_new_launch_id at 1. rewrite Hasg. unfold ret at 1.
  unfold bind at 1, launches_replace_with at 1. cbn [fst snd].
  rewrite Hfit. unfold ret, fireworks_replace_with.
  cbn [LP.fireworks LP.with_launches LP.with_assigner].
  rewrite Hfree. reflexivity.
Qed.

(** No collision when the stored document the query finds has the id of
    the new one, or when nothing is found and nothing is inserted. *)
Lemma fw_id_collision_same (upsert : bool) (q : Query) (doc d : FwDoc.t)
  (coll : list FwDoc.t) :
  find_one FwDoc.view q [] coll = Some d ->
  FwDoc.fw_id d = FwDoc.fw_id doc ->
  fw_id_collision upsert q doc coll = false.
Proof.
  intros Hd Hid. unfold fw_id_collision. rewrite Hd, Hid, Z.eqb_refl.
  apply andb_false_r.
Qed.

Lemma fw_id_collision_none (q : Query) (doc : FwDoc.t)
  (coll : list FwDoc.t) :
  find_one FwDoc.view q [] coll = None ->
  fw_id_collision false q doc coll = false.
Proof.
  intros Hd. unfold fw_id_collision. rewrite Hd. apply andb_false_r.
Qed.

Lemma find_one_by_fw_id (i : Z) (d : FwDoc.t) (coll : list FwDoc.t) :
  find_one FwDoc.view [("fw_id", QEq (JInt i))] [] coll = Some d ->
  FwDoc.fw_id d = i.
Proof.
  unfold find_one.
  destruct (find_one_at FwDoc.view [("fw_id", QEq (JInt i))] [] coll)
    as [[k d0]|] eqn:E; [|discriminate].
  cbn. intros [= ->].
  destruct (find_one_at_some _ _ _ _ E) as [_ [Hm _]].
  unfold matches in Hm. cbn [forallb fst snd] in Hm.
  rewrite holds_fw_id_eq, andb_true_r in Hm. now apply Z.eqb_eq.
Qed.

(** X21.  A new launch needs [upsert].  For a launch without action
    whose index is past the launch list of the stored firework,
    [_replace_fw] takes a new launch id and records it in the
    firework's launch list.  With [upsert] false the launch itself is
    not stored: the launches collection is as before, and reading the
    launch at its index fails.  With [upsert] true the launch is stored
    and read back. *)
Theorem replace_fw_new_launch_needs_upsert (m_fw : Firework.t) (lp : LP.t)
  (fw_dict d : FwDoc.t) (launch : Launch.t) (idx f n : Z) :
  Firework_to_db_dict m_fw = (fw_dict, launch, Some idx) ->
  Launch.action launch = None ->
  FwDoc.fw_id fw_dict = Firework.fw_id m_fw ->
  find_one FwDoc.view [("fw_id", QEq (JInt (Firework.fw_id m_fw)))] []
    (LP.fireworks lp) = Some d ->
  Z.of_nat (List.length (FwDoc.launches d)) <= idx ->
  LP.fw_id_assigner lp = Some (f, n) ->
  (forall l, In l (LP.launches lp) -> Launch.launch_id l <> n) ->
  too_large (Launch.set_launch_id n launch) = false ->
  let len := Z.of_nat (List.length (FwDoc.launches d)) in
  let without := replace_fw m_fw AllowedNone false None lp in
  let with_upsert := replace_fw m_fw AllowedNone true None lp in
  let read := launch_by_idx json_loads (Firework.fw_id m_fw) len in
  fst without = Ok tt
  /\ LP.fw_id_assigner (snd without) = Some (f, n + 1)
  /\ find_one FwDoc.view [("fw_id", QEq (JInt (Firework.fw_id m_fw)))] []
       (LP.fireworks (snd without))
     = Some (with_launch_ids (FwDoc.launches d ++ [n]) fw_dict)
  /\ LP.launches (snd without) = LP.launches lp
  /\ read (snd without) = Raise (TypeError "NoneType")
  /\ fst with_upsert = Ok tt
  /\ LP.launches (snd with_upsert)
     = LP.launches lp ++ [Launch.set_launch_id n launch]
  /\ exists m,
       read (snd with_upsert) = Ok (Some m)
       /\ Py.get "launch_idx" m = Some (JInt len)
       /\ Py.get "state_history" m
          = Some (JList (map Hist.view (Launch.state_history launch)))
       /\ Py.get "trackers" m = Some (JList (Launch.trackers launch)).
Proof.
  intros Hdb Hact Hid Hd Hidx Hasg Hfresh Hfit. cbv zeta.
  assert (Hnone : find_one_at Launch.view [("launch_id", QEq (JInt n))] []
                    (LP.launches lp) = None).
  { apply find_one_at_all_fail. intros l Hl. unfold matches.
    cbn [forallb fst snd]. rewrite holds_launch_id_eq, andb_true_r.
    apply Z.eqb_neq. now apply Hfresh. }
  assert (Hq : replace_query m_fw AllowedNone None
               = [("fw_id", QEq (JInt (Firework.fw_id m_fw)))])
    by reflexivity.
  assert (Hdoc : matches [("fw_id", QEq (JInt (Firework.fw_id m_fw)))]
                   (FwDoc.view
                      (with_launch_ids (FwDoc.launches d ++ [n]) fw_dict))
                 = true).
  { rewrite <- Hid. apply (matches_fw_id (with_launch_ids _ fw_dict)). }
  assert (Hfree : forall upsert,
             fw_id_collision upsert (replace_query m_fw AllowedNone None)
               (with_launch_ids (FwDoc.launches d ++ [n]) fw_dict)
               (LP.fireworks lp) = false).
  { intros upsert. rewrite Hq.
    apply fw_id_collision_same with (d := d); [exact Hd|].
    cbn [with_launch_ids FwDoc.fw_id]. rewrite Hid.
    now apply find_one_by_fw_id with (coll := LP.fireworks lp). }
  rewrite !(@replace_fw_new_launch m_fw AllowedNone _ None lp fw_dict launch
              idx f n (FwDoc.launches d) Hdb Hact)
    by (try exact Hidx; try exact Hasg; try exact Hfit; try apply Hfree;
        rewrite Hq, Hd; reflexivity).
  rewrite Hq.
  cbn [fst snd LP.fireworks LP.launches LP.fw_id_assigner LP.with_fireworks
         LP.with_launches LP.with_assigner].
  assert (Hrange : forall (coll : list Launch.t) (g : option GridFS.t)
                          (a : option (Z * Z)) (fws : list FwDoc.t) (r : Result (option Dict)),
             find_one FwDoc.view
               [("fw_id", QEq (JInt (Firework.fw_id m_fw)))] [] fws
             = Some (with_launch_ids (FwDoc.launches d ++ [n]) fw_dict) ->
             match find_one Launch.view [("launch_id", QEq (JInt n))] [] coll
             with
             | None => Raise (TypeError "NoneType")
             | Some l =>
                 rbind (get_action_from_gridfs json_loads (Launch.action l) g)
                   (fun act =>
                      Ok (Some
                            (Py.set "action" (action_value act)
                               (Py.remove "launch_id"
                                  (Py.set "launch_idx"
                                     (JInt (Z.of_nat
                                              (List.length (FwDoc.launches d))))
                                     (launch_dict l))))))
             end = r ->
             launch_by_idx json_loads (Firework.fw_id m_fw)
               (Z.of_nat (List.length (FwDoc.launches d)))
               (LP.mk fws coll (LP.workflows lp) g a (LP.utcnow lp)) = r).
  { intros coll g a fws r Hf Hr. unfold launch_by_idx.
    cbn [LP.fireworks LP.launches LP.gridfs_fallback]. rewrite Hf.
    cbn [with_launch_ids FwDoc.launches]. rewrite length_app.
    cbn [List.length].
    set (k := Z.of_nat (List.length (FwDoc.launches d))).
    replace (Z.of_nat (List.length (FwDoc.launches d) + 1)) with (k + 1)
      by (unfold k; lia).
    rewrite (@eqb_false (k + 1) 0), (@geb_false k (k + 1)),
      (@ltb_false k (- (k + 1))), (@geb_true k 0) by (unfold k; lia).
    cbn [orb]. unfold k. rewrite index_app_last. exact Hr. }
  split; [reflexivity|]. split; [reflexivity|]. split.
  { now apply find_one_after_replace with (d := d). }
  assert (Hsame : find_one_and_replace Launch.view
                    [("launch_id", QEq (JInt n))]
                    (Launch.set_launch_id n launch) (LP.launches lp)
                  = LP.launches lp).
  { unfold find_one_and_replace, find_one_and_update. now rewrite Hnone. }
  split; [exact Hsame|]. split.
  { unfold LP.with_fireworks, LP.with_launches, LP.with_assigner.
    cbn [LP.fireworks LP.launches LP.workflows LP.gridfs_fallback
           LP.fw_id_assigner LP.utcnow].
    apply Hrange.
    - now apply find_one_after_replace with (d := d).
    - rewrite Hsame. unfold find_one. now rewrite Hnone. }
  split; [reflexivity|].
  assert (Happ : find_one_and_replace_upsert Launch.view
                   [("launch_id", QEq (JInt n))]
                   (Launch.set_launch_id n launch) (LP.launches lp)
                 = LP.launches lp ++ [Launch.set_launch_id n launch]).
  { unfold find_one_and_replace_upsert. now rewrite Hnone. }
  split; [exact Happ|].
  eexists. split.
  { unfold LP.with_fireworks, LP.with_launches, LP.with_assigner.
    cbn [LP.fireworks LP.launches LP.workflows LP.gridfs_fallback
           LP.fw_id_assigner LP.utcnow].
    apply Hrange.
    - unfold find_one, find_one_and_replace_upsert in *.
      destruct (find_one_at FwDoc.view
                  [("fw_id", QEq (JInt (Firework.fw_id m_fw)))] []
                  (LP.fireworks lp)) as [[i d0]|] eqn:Ef; [|discriminate].
      rewrite find_one_at_unsorted in Ef |- *.
      pose proof (@first_at_replace FwDoc.t FwDoc.view _ _ _ Hdoc 0%nat i d0
                    Ef) as H.
      rewrite Nat.sub_0_r in H. now rewrite H.
    - rewrite find_one_after_replace_upsert
        by apply (matches_launch_id (Launch.set_launch_id n launch)).
      cbn [Launch.set_launch_id Launch.action]. rewrite Hact.
      cbn [get_action_from_gridfs rbind]. reflexivity. }
  repeat split; reflexivity.
Qed.

(** X22.  [_replace_fw] without [upsert] when no stored firework
    matches its query, for a launch without action: the stored launch
    list counts as empty, so an index from 0 on uses up a launch id that
    nothing will refer to, the only change made; a negative index is an
    [IndexError] and nothing is changed. *)
Theorem replace_fw_without_document (m_fw : Firework.t) (state : Allowed)
  (fw_id : option Z) (lp : LP.t) (fw_dict : FwDoc.t) (launch : Launch.t)
  (idx : Z) :
  Firework_to_db_dict m_fw = (fw_dict, launch, Some idx) ->
  Launch.action launch = None ->
  (forall d, In d (LP.fireworks lp) ->
             matches (replace_query m_fw state fw_id) (FwDoc.view d) = false) ->
  (idx < 0 ->
   replace_fw m_fw state false fw_id lp = (Raise IndexError, lp))
  /\ (forall f n,
        0 <= idx ->
        LP.fw_id_assigner lp = Some (f, n) ->
        too_large (Launch.set_launch_id n launch) = false ->
        (forall l, In l (LP.launches lp) -> Launch.launch_id l <> n) ->
        replace_fw m_fw state false fw_id lp
        = (Ok tt, LP.with_assigner (Some (f, n + 1)) lp)).
Proof.
  intros Hdb Hact Hnone.
  assert (Hfind : find_one_at FwDoc.view (replace_query m_fw state fw_id) []
                    (LP.fireworks lp) = None)
    by (now apply find_one_at_all_fail).
  split.
  - intros Hneg. unfold _replace_fw. rewrite Hdb, Hact.
    unfold bind at 1. unfold bind at 1, read at 1.
    unfold find_one. rewrite Hfind. cbn [option_map List.length].
    change (Z.of_nat 0) with 0. rewrite (@geb_false idx 0) by lia.
    unfold Py.index. cbn [List.length]. change (Z.of_nat 0) with 0.
    rewrite (@geb_false idx 0), (@ltb_true idx (- 0)) by lia.
    reflexivity.
  - intros f n Hpos Hasg Hfit Hfresh.
    rewrite (@replace_fw_new_launch m_fw state false fw_id lp fw_dict launch
               idx f n [] Hdb Hact)
      by (try exact Hasg; try exact Hfit; try (cbn; lia);
          try (apply fw_id_collision_none);
          unfold find_one; now rewrite Hfind).
    unfold find_one_and_replace, find_one_and_update. rewrite Hfind.
    rewrite find_one_at_all_fail.
    + cbn [snd]. now destruct lp.
    + intros l Hl. unfold matches. cbn [forallb fst snd].
      rewrite holds_launch_id_eq, andb_true_r.
      apply Z.eqb_neq. now apply Hfresh.
Qed.

Lemma fw_id_taken_iff (k : Z) (coll : list FwDoc.t) :
  existsb (fun d => FwDoc.fw_id d =? k) coll = true
  <-> exists x, In x coll /\ FwDoc.fw_id x = k.
Proof.
  rewrite existsb_exists. split; intros [x [Hx Hk]]; exists x;
    (split; [exact Hx|]); now apply Z.eqb_eq.
Qed.

(** X23.  A launch that carries an action, or has no index, is not
    written by [_replace_fw]: the launches, the id counters and the blob
    store are left alone, whatever the outcome.  The firework the query
    finds is replaced by the object's document with the launch list of
    the stored document, not the object's; without a stored document the
    object's document is added with an empty launch list when [upsert]
    is set, and nothing is written otherwise.  The unique index on
    [fw_id] refuses the write, nothing being written, when it would
    bring into the collection an id that a stored document has: an
    insertion, or the replacement of a document of another id. *)
Theorem replace_fw_keeps_stored_launches (m_fw : Firework.t)
  (state : Allowed) (upsert : bool) (fw_id : option Z) (lp : LP.t)
  (fw_dict : FwDoc.t) (launch : Launch.t) (launch_idx : option Z) :
  Firework_to_db_dict m_fw = (fw_dict, launch, launch_idx) ->
  launch_idx = None \/ (exists a, Launch.action launch = Some a) ->
  let q := replace_query m_fw state fw_id in
  let res := replace_fw m_fw state upsert fw_id lp in
  let taken :=
    exists x, In x (LP.fireworks lp)
              /\ FwDoc.fw_id x = FwDoc.fw_id fw_dict in
  LP.launches (snd res) = LP.launches lp
  /\ LP.fw_id_assigner (snd res) = LP.fw_id_assigner lp
  /\ LP.gridfs_fallback (snd res) = LP.gridfs_fallback lp
  /\ match find_one_at FwDoc.view q [] (LP.fireworks lp) with
     | Some (i, d) =>
         (FwDoc.fw_id d = FwDoc.fw_id fw_dict \/ ~ taken ->
          fst res = Ok tt
          /\ LP.fireworks (snd res)
             = replace_at i
                 (fun _ => with_launch_ids (FwDoc.launches d) fw_dict)
                 (LP.fireworks lp))
         /\ (FwDoc.fw_id d <> FwDoc.fw_id fw_dict -> taken ->
             res = (Raise (DuplicateKeyError "fw_id"), lp))
     | None =>
         (upsert = false -> res = (Ok tt, lp))
         /\ (upsert = true -> ~ taken ->
             fst res = Ok tt
             /\ LP.fireworks (snd res)
                = LP.fireworks lp ++ [with_launch_ids [] fw_dict])
         /\ (upsert = true -> taken ->
             res = (Raise (DuplicateKeyError "fw_id"), lp))
     end.
Proof.
  intros Hdb Hcase. cbv zeta.
  assert (Hres : replace_fw m_fw state upsert fw_id lp
                 = fireworks_replace_with upsert
                     (replace_query m_fw state fw_id)
                     (with_launch_ids
                        match find_one FwDoc.view
                                (replace_query m_fw state fw_id) []
                                (LP.fireworks lp) with
                        | Some d => FwDoc.launches d
                        | None => []
                        end fw_dict) lp).
  { unfold _replace_fw. rewrite Hdb.
    destruct Hcase as [-> | [a Ha]].
    - reflexivity.
    - rewrite Ha. now destruct launch_idx. }
  rewrite Hres. clear Hres.
  unfold fireworks_replace_with, fw_id_collision.
  cbn [with_launch_ids FwDoc.fw_id].
  pose proof (fw_id_taken_iff (FwDoc.fw_id fw_dict) (LP.fireworks lp))
    as Htaken.
  unfold find_one.
  destruct (find_one_at FwDoc.view (replace_query m_fw state fw_id) []
              (LP.fireworks lp)) as [[i d]|] eqn:E; cbn [option_map snd].
  - assert (Hrep : forall doc,
               (if upsert then find_one_and_replace_upsert FwDoc.view
                else find_one_and_replace FwDoc.view)
                 (replace_query m_fw state fw_id) doc (LP.fireworks lp)
               = replace_at i (fun _ => doc) (LP.fireworks lp)).
    { intros doc. destruct upsert;
        unfold find_one_and_replace_upsert, find_one_and_replace,
          find_one_and_update; now rewrite E. }
    rewrite Hrep.
    destruct (existsb (fun d0 => FwDoc.fw_id d0 =? FwDoc.fw_id fw_dict)
                (LP.fireworks lp)) eqn:Et;
      destruct (Z.eqb_spec (FwDoc.fw_id d) (FwDoc.fw_id fw_dict)) as [Hid|Hid];
      cbn [negb andb fst snd LP.launches LP.fw_id_assigner LP.gridfs_fallback
             LP.fireworks LP.with_fireworks];
      (split; [reflexivity|]); (split; [reflexivity|]);
      (split; [reflexivity|]); split.
    + intros _. split; reflexivity.
    + intros Hne. contradiction.
    + intros [Heq | Hfree]; [contradiction|].
      exfalso. apply Hfree. now apply Htaken.
    + intros _ _. reflexivity.
    + intros _. split; reflexivity.
    + intros Hne. contradiction.
    + intros _. split; reflexivity.
    + intros _ Ht. apply Htaken in Ht. discriminate Ht.
  - assert (Hrep : forall doc,
               (if upsert then find_one_and_replace_upsert FwDoc.view
                else find_one_and_replace FwDoc.view)
                 (replace_query m_fw state fw_id) doc (LP.fireworks lp)
               = if upsert then LP.fireworks lp ++ [doc]
                 else LP.fireworks lp).
    { intros doc. destruct upsert;
        unfold find_one_and_replace_upsert, find_one_and_replace,
          find_one_and_update; now rewrite E. }
    rewrite Hrep.
    destruct (existsb (fun d0 => FwDoc.fw_id d0 =? FwDoc.fw_id fw_dict)
                (LP.fireworks lp)) eqn:Et;
      destruct upsert;
      cbn [negb andb fst snd LP.launches LP.fw_id_assigner LP.gridfs_fallback
             LP.fireworks LP.with_fireworks];
      (split; [reflexivity|]); (split; [reflexivity|]);
      (split; [reflexivity|]); (split; [|split]);
      try discriminate.
    + intros _ Hfree. exfalso. apply Hfree. now apply Htaken.
    + intros _ _. reflexivity.
    + intros _. now rewrite with_fireworks_same.
    + intros _ _. split; reflexivity.
    + intros _ Ht. apply Htaken in Ht. discriminate Ht.
    + intros _. now rewrite with_fireworks_same.
Qed.

End ReplaceFwFacts.

(* ===================================================================== *)
(** ** Duplicates of a firework *)
(* ===================================================================== *)

(** The clauses of [_get_duplicates]: those of the queries above and
    [{"$ne": v}], which holds when the field neither equals [v] nor is an
    array holding [v]. *)
Inductive DClause : Type :=
| Plain (c : Clause)
| QNe (v : J).

Definition dholds (k : string) (c : DClause) (d : J) : bool :=
  match c with
  | Plain c => holds k c d
  | QNe v => negb (eq_match (field k d) v)
  end.

Definition dmatches (q : list (string * DClause)) (d : J) : bool :=
  forallb (fun kc => dholds (fst kc) (snd kc) d) q.

(** The answer of [_get_duplicates]: the ids, or the failure of the
    store on a query it cannot read ([$in] applied to a string). *)
Inductive Duplicates : Type :=
| Dups (ids : list Z)
| BadQuery (msg : string).

(** The value left in [allowed_states] after the first test: a string
    is wrapped in [{'$in': ...}] as it is, a list is left as it is. *)
Inductive StateClause : Type :=
| InString (s : string)
| EqList (l : list string).

Definition _get_duplicates (fw_id : Z) (include_self : bool)
  (allowed_states : Allowed) (lp : LP.t) : Duplicates :=
  let allowed_states :=
    match allowed_states with
    | AllowedStr s => Some (InString s)
    | AllowedList l => Some (EqList l)
    | AllowedNone => None
    end in
  match find_one FwDoc.view
          [("fw_id", QEq (JInt fw_id)); ("spec._dupefinder", QExists true)]
          [] (LP.fireworks lp) with
  | None => Dups (py_set [])
  | Some f =>
      let query :=
        [("launches", Plain (QIn (map JInt (FwDoc.launches f))))] in
      let run (query : list (string * DClause)) :=
        let query :=
          if negb include_self then Py.set "fw_id" (QNe (JInt fw_id)) query
          else query in
        Dups (py_set
                (map FwDoc.fw_id
                   (filter (fun d => dmatches query (FwDoc.view d))
                      (LP.fireworks lp)))) in
      match allowed_states with
      | None => run query
      | Some (EqList []) => run query
      | Some (EqList (s :: l)) =>
          run (Py.set "state"
                 (Plain (QEq (JList (map JStr (s :: l))))) query)
      | Some (InString s) => BadQuery "$in needs an array"
      end
  end.

Lemma holds_launches_in (ids : list Z) (d : FwDoc.t) :
  holds "launches" (QIn (map JInt ids)) (FwDoc.view d) = true
  <-> exists i, In i ids /\ In i (FwDoc.launches d).
Proof.
  cbn [holds]. change (field "launches" (FwDoc.view d))
    with (Some (JList (map JInt (FwDoc.launches d)))).
  rewrite existsb_exists. split.
  - intros [v [Hv Hm]]. apply in_map_iff in Hv. destruct Hv as [i [<- Hi]].
    exists i. split; [exact Hi|]. cbn [eq_match J_eqb orb] in Hm.
    apply existsb_exists in Hm. destruct Hm as [e [He Heq]].
    apply in_map_iff in He. destruct He as [j [<- Hj]].
    cbn in Heq. apply Z.eqb_eq in Heq. now subst.
  - intros [i [Hi Hd]]. exists (JInt i). split; [now apply in_map|].
    cbn [eq_match J_eqb orb]. apply existsb_exists. exists (JInt i).
    split; [now apply in_map | cbn; apply Z.eqb_refl].
Qed.

Lemma holds_fw_state_list (l : list string) (d : FwDoc.t) :
  holds "state" (QEq (JList (map JStr l))) (FwDoc.view d) = false.
Proof. reflexivity. Qed.

Lemma dholds_fw_id_ne (i : Z) (d : FwDoc.t) :
  dholds "fw_id" (QNe (JInt i)) (FwDoc.view d) = negb (FwDoc.fw_id d =? i).
Proof. cbn. now rewrite orb_false_r. Qed.

(** X24.  Without [allowed_states], [_get_duplicates] returns, without
    repetition, exactly the ids of the fireworks that share a launch
    with the firework asked about, itself among them only when
    [include_self] is set and only when it has a launch.  A firework
    without a [_dupefinder] in its spec, or without a document, has no
    duplicates. *)
Theorem get_duplicates_share_a_launch (fw_id : Z) (include_self : bool)
  (lp : LP.t) :
  match _get_duplicates fw_id include_self AllowedNone lp with
  | BadQuery _ => False
  | Dups ids =>
      NoDup ids
      /\ ((forall d, In d (LP.fireworks lp) -> FwDoc.fw_id d = fw_id ->
                     Py.get "_dupefinder" (FwDoc.spec d) = None) ->
          ids = [])
      /\ forall f,
           find_one FwDoc.view
             [("fw_id", QEq (JInt fw_id));
              ("spec._dupefinder", QExists true)] [] (LP.fireworks lp)
           = Some f ->
           forall i,
             In i ids
             <-> (exists d l,
                    In d (LP.fireworks lp) /\ FwDoc.fw_id d = i
                    /\ In l (FwDoc.launches f) /\ In l (FwDoc.launches d))
                 /\ (include_self = false -> i <> fw_id)
  end.
Proof.
  unfold _get_duplicates.
  destruct (find_one FwDoc.view
              [("fw_id", QEq (JInt fw_id));
               ("spec._dupefinder", QExists true)] [] (LP.fireworks lp))
    as [f|] eqn:Ef.
  - split; [apply NoDup_nodup|]. split.
    + intros Hno. exfalso. unfold find_one in Ef.
      destruct (find_one_at FwDoc.view
                  [("fw_id", QEq (JInt fw_id));
                   ("spec._dupefinder", QExists true)] []
                  (LP.fireworks lp)) as [[k d]|] eqn:E; [|discriminate].
      destruct (find_one_at_some _ _ _ _ E) as [Hn [Hm _]].
      unfold matches in Hm. cbn [forallb fst snd] in Hm.
      rewrite holds_fw_id_eq, andb_true_r in Hm.
      apply andb_true_iff in Hm. destruct Hm as [Hid Hdf].
      apply Z.eqb_eq in Hid.
      specialize (Hno d (nth_error_In _ _ Hn) Hid).
      cbn [holds] in Hdf.
      replace (field "spec._dupefinder" (FwDoc.view d))
        with (Py.get "_dupefinder" (FwDoc.spec d)) in Hdf
        by (cbn; now destruct (Py.get "_dupefinder" (FwDoc.spec d))).
      rewrite Hno in Hdf. discriminate.
    + intros f0 [= <-] i. unfold py_set. rewrite nodup_In, in_map_iff.
      split.
      * intros [d [Hid Hin]]. apply filter_In in Hin.
        destruct Hin as [Hin Hm].
        destruct include_self; cbn [negb] in Hm; unfold dmatches in Hm;
          cbn [Py.set String.eqb Ascii.eqb Bool.eqb forallb fst snd dholds]
            in Hm.
        -- rewrite andb_true_r in Hm. apply holds_launches_in in Hm.
           destruct Hm as [l [Hl Hd]]. split; [|discriminate].
           now exists d, l.
        -- rewrite andb_true_r in Hm. apply andb_true_iff in Hm.
           destruct Hm as [Hm Hne]. apply holds_launches_in in Hm.
           destruct Hm as [l [Hl Hd]].
           change (negb (eq_match (field "fw_id" (FwDoc.view d))
                           (JInt fw_id)))
             with (dholds "fw_id" (QNe (JInt fw_id)) (FwDoc.view d)) in Hne.
           rewrite dholds_fw_id_ne in Hne. apply negb_true_iff in Hne.
           apply Z.eqb_neq in Hne. split; [now exists d, l|].
           intros _. congruence.
      * intros [[d [l [Hin [Hid [Hl Hd]]]]] Hself]. exists d.
        split; [exact Hid|]. apply filter_In. split; [exact Hin|].
        assert (Hshare : holds "launches"
                           (QIn (map JInt (FwDoc.launches f)))
                           (FwDoc.view d) = true)
          by (apply holds_launches_in; now exists l).
        destruct include_self; cbn [negb]; unfold dmatches;
          cbn [Py.set String.eqb Ascii.eqb Bool.eqb forallb fst snd dholds].
        -- now rewrite Hshare.
        -- rewrite Hshare.
           change (negb (eq_match (field "fw_id" (FwDoc.view d))
                           (JInt fw_id)))
             with (dholds "fw_id" (QNe (JInt fw_id)) (FwDoc.view d)).
           rewrite dholds_fw_id_ne. cbn [andb]. rewrite andb_true_r.
           apply negb_true_iff, Z.eqb_neq. rewrite Hid. now apply Hself.
  - split; [constructor|]. split; [reflexivity|]. discriminate.
Qed.

(** X25.  The filter [allowed_states] of [_get_duplicates] selects
    nothing.  Given as a list of states, the list is compared with the
    state of each firework as a whole, which no state equals: the answer
    is empty whatever the fireworks share.  Given as a string, it is put
    under [$in] as it is, which the store refuses for a firework that
    has a [_dupefinder]. *)
Theorem get_duplicates_allowed_states (fw_id : Z) (include_self : bool)
  (lp : LP.t) (s : string) (l : list string) :
  _get_duplicates fw_id include_self (AllowedList (s :: l)) lp = Dups []
  /\ (_get_duplicates fw_id include_self (AllowedStr s) lp = Dups []
      \/ exists msg,
           _get_duplicates fw_id include_self (AllowedStr s) lp
           = BadQuery msg)
  /\ (forall f,
        find_one FwDoc.view
          [("fw_id", QEq (JInt fw_id)); ("spec._dupefinder", QExists true)]
          [] (LP.fireworks lp) = Some f ->
        exists msg,
          _get_duplicates fw_id include_self (AllowedStr s) lp
          = BadQuery msg).
Proof.
  unfold _get_duplicates.
  destruct (find_one FwDoc.view
              [("fw_id", QEq (JInt fw_id));
               ("spec._dupefinder", QExists true)] [] (LP.fireworks lp))
    as [f|].
  - split; [|split; [right; eauto | eauto]].
    f_equal. unfold py_set.
    replace (filter _ (LP.fireworks lp)) with (@nil FwDoc.t); [reflexivity|].
    symmetry. induction (LP.fireworks lp) as [|d coll IH]; [reflexivity|].
    cbn [filter].
    replace (dmatches _ (FwDoc.view d)) with false; [exact IH|].
    symmetry. destruct include_self; cbn [negb]; unfold dmatches;
      cbn [Py.set String.eqb Ascii.eqb Bool.eqb forallb fst snd dholds];
      rewrite holds_fw_state_list;
      now rewrite ?andb_false_r, ?andb_false_l.
  - split; [reflexivity|]. split; [now left | discriminate].
Qed.

(* ===================================================================== *)
(** ** Listing firework ids *)
(* ===================================================================== *)

From Stdlib Require Import Permutation Sorted.

Section Cursor.

Variable D : Type.
Variable view : D -> J.

(** [find(..., sort=sortby)]: the documents in the cursor's order;
    documents the sort does not tell apart stay in natural order, as for
    [find_one]. *)
Fixpoint insert_doc (sortby : list (string * Direction)) (x : D)
  (l : list D) : list D :=
  match l with
  | [] => [x]
  | y :: t =>
      if before sortby (view y) (view x) then y :: insert_doc sortby x t
      else x :: l
  end.

Definition sort_docs (sortby : list (string * Direction)) (l : list D)
  : list D :=
  fold_right (insert_doc sortby) [] l.

(** [b] does not come strictly before [a]. *)
Definition in_order (sortby : list (string * Direction)) (a b : D) : Prop :=
  before sortby (view b) (view a) = false.

Lemma insert_doc_perm (sortby : list (string * Direction)) (x : D)
  (l : list D) :
  Permutation (insert_doc sortby x l) (x :: l).
Proof.
  induction l as [|y t IH]; cbn [insert_doc]; [reflexivity|].
  destruct (before sortby (view y) (view x)); [|reflexivity].
  rewrite IH. apply perm_swap.
Qed.

Lemma sort_docs_perm (sortby : list (string * Direction)) (l : list D) :
  Permutation (sort_docs sortby l) l.
Proof.
  induction l as [|x t IH]; cbn [sort_docs fold_right]; [reflexivity|].
  fold (sort_docs sortby t). rewrite insert_doc_perm. now constructor.
Qed.

Lemma insert_doc_sorted (sortby : list (string * Direction)) (x : D)
  (l : list D) :
  StronglySorted (in_order sortby) l ->
  StronglySorted (in_order sortby) (insert_doc sortby x l).
Proof.
  induction l as [|y t IH]; intros Hs; cbn [insert_doc].
  - repeat constructor.
  - inversion Hs as [|? ? Ht Hy]; subst.
    destruct (before sortby (view y) (view x)) eqn:E.
    + constructor; [now apply IH|].
      apply (Permutation_Forall (Permutation_sym (insert_doc_perm sortby x t))).
      constructor; [|exact Hy]. unfold in_order. now apply before_asym.
    + constructor; [exact Hs|]. constructor; [exact E|].
      apply Forall_forall. intros z Hz. unfold in_order.
      destruct (before sortby (view z) (view x)) eqn:Ez; [|reflexivity].
      destruct (before_split sortby _ (view y) _ Ez) as [H | H].
      * rewrite Forall_forall in Hy. specialize (Hy z Hz).
        unfold in_order in Hy. congruence.
      * congruence.
Qed.

Lemma sort_docs_sorted (sortby : list (string * Direction)) (l : list D) :
  StronglySorted (in_order sortby) (sort_docs sortby l).
Proof.
  induction l as [|x t IH]; cbn [sort_docs fold_right]; [constructor|].
  now apply insert_doc_sorted.
Qed.

Lemma sort_docs_head (sortby : list (string * Direction))
  (l : list (nat * D)) :
  hd_error (sort_docs sortby (map snd l))
  = option_map snd (pick_first view sortby l).
Proof.
  induction l as [|x t IH]; cbn [map sort_docs fold_right pick_first];
    [reflexivity|].
  fold (sort_docs sortby (map snd t)).
  destruct (pick_first view sortby t) as [y|].
  - destruct (sort_docs sortby (map snd t)) as [|z s]; [discriminate|].
    cbn in IH. injection IH as ->. cbn [insert_doc].
    now destruct (before sortby (view (snd y)) (view (snd x))).
  - destruct (sort_docs sortby (map snd t)) as [|z s]; [reflexivity|].
    discriminate.
Qed.

Lemma find_enum (q : Query) (coll : list D) (s : nat) :
  map snd (filter (fun p => matches q (view (snd p))) (enum_from s coll))
  = find view q coll.
Proof.
  revert s. induction coll as [|x t IH]; intros s; cbn; [reflexivity|].
  destruct (matches q (view x)); cbn; now rewrite IH.
Qed.

Lemma sort_docs_find_one (q : Query) (sortby : list (string * Direction))
  (coll : list D) :
  hd_error (sort_docs sortby (find view q coll)) = find_one view q sortby coll.
Proof.
  unfold find_one, find_one_at. rewrite <- sort_docs_head.
  now rewrite find_enum.
Qed.

End Cursor.

(** What [get_fw_ids] returns: the ids, the count, or the exception
    object that the count with a limit returns instead of raising it. *)
Inductive FwIds : Type :=
| Ids (fw_ids : list Z)
| Count (n : nat)
| Returned (e : Exc).

(** [criteria = query if query else {}] *)
Definition criteria_of (query : option Query) : Query :=
  match query with
  | Some (c :: rest) => c :: rest
  | _ => []
  end.

(** [coll] is ["fireworks"] whatever [launches_mode]; a limit of 0 is no
    limit. *)
Definition get_fw_ids (query : option Query)
  (sort : list (string * Direction)) (limit : Z)
  (count_only launches_mode : bool) (lp : LP.t) : FwIds :=
  let coll := LP.fireworks lp in
  let criteria := criteria_of query in
  if count_only then
    if negb (limit =? 0)
    then Returned (ValueError "Cannot count_only and limit at the same time!")
    else Count (List.length (find FwDoc.view criteria coll))
  else
    let cursor := sort_docs FwDoc.view sort (find FwDoc.view criteria coll) in
    let cursor :=
      if limit =? 0 then cursor
      else firstn (Z.to_nat (Z.abs limit)) cursor in
    Ids (map FwDoc.fw_id cursor).

(** X26.  [get_fw_ids] lists the ids of the fireworks matching the
    query, each matching firework once, in the order of the sort: the
    first id is that of the firework [find_one] returns for the same
    query and sort.  A limit of 0 is no limit, a limit [n] keeps the
    first [n] ids.  The count is the length of the unlimited list; asked
    with a limit, the call raises nothing and returns the exception
    object.  [launches_mode] and the launches have no effect: the
    fireworks collection is read in either mode. *)
Theorem get_fw_ids_lists_matches (query : option Query)
  (sort : list (string * Direction)) (launches_mode : bool) (lp : LP.t) :
  exists docs,
    get_fw_ids query sort 0 false launches_mode lp
    = Ids (map FwDoc.fw_id docs)
    /\ Permutation docs
         (find FwDoc.view (criteria_of query) (LP.fireworks lp))
    /\ StronglySorted (in_order FwDoc.view sort) docs
    /\ hd_error docs
       = find_one FwDoc.view (criteria_of query) sort (LP.fireworks lp)
    /\ get_fw_ids query sort 0 true launches_mode lp
       = Count (List.length docs)
    /\ (forall n, 0 < n ->
          get_fw_ids query sort n false launches_mode lp
          = Ids (map FwDoc.fw_id (firstn (Z.to_nat n) docs))
          /\ exists e,
               get_fw_ids query sort n true launches_mode lp = Returned e)
    /\ (forall n count_only other,
          LP.fireworks other = LP.fireworks lp ->
          get_fw_ids query sort n count_only (negb launches_mode) other
          = get_fw_ids query sort n count_only launches_mode lp).
Proof.
  exists (sort_docs FwDoc.view sort
            (find FwDoc.view (criteria_of query) (LP.fireworks lp))).
  split; [reflexivity|]. split; [apply sort_docs_perm|].
  split; [apply sort_docs_sorted|]. split; [apply sort_docs_find_one|].
  split.
  { unfold get_fw_ids. cbn [Z.eqb negb]. f_equal.
    symmetry. apply Permutation_length, sort_docs_perm. }
  split.
  - intros n Hn. unfold get_fw_ids. rewrite (@eqb_false n 0) by lia.
    cbn [negb]. rewrite Z.abs_eq by lia. split; [reflexivity | eauto].
  - intros n count_only other Hsame. unfold get_fw_ids. now rewrite Hsame.
Qed.

(* ===================================================================== *)
(** ** More on timed-out launches *)
(* ===================================================================== *)

Lemma timed_out_earlier (s : string) (c c' : Z) (l : Launch.t) :
  c <= c' -> timed_out s c l -> timed_out s c' l.
Proof.
  intros Hc [Hs [h [Hin [Hh Hle]]]]. split; [exact Hs|].
  exists h. split; [exact Hin|]. split; [exact Hh | lia].
Qed.

(** The ids reported, with and without an extra query. *)
Lemma find_timeout_plain (s : string) (e : Z) (lp : LP.t) (fid : Z) :
  In fid (_find_timeout_fws s e None lp)
  <-> exists l, In l (LP.launches lp) /\ Launch.fw_id l = fid
                /\ timed_out s (LP.utcnow lp - e) l.
Proof.
  unfold _find_timeout_fws, py_set, find. rewrite nodup_In, in_map_iff.
  split.
  - intros [l [Hf Hl]]. apply filter_In in Hl. destruct Hl as [Hl Hm].
    apply matches_lostruns in Hm. now exists l.
  - intros [l [Hl [Hf Ht]]]. exists l. split; [exact Hf|].
    apply filter_In. split; [exact Hl|]. now apply matches_lostruns.
Qed.

Lemma find_timeout_narrowed (s : string) (e : Z) (c : string * Clause)
  (rest : Query) (lp : LP.t) (fid : Z) :
  In fid (_find_timeout_fws s e (Some (c :: rest)) lp)
  <-> (exists d, In d (LP.fireworks lp)
                 /\ matches (c :: rest) (FwDoc.view d) = true
                 /\ FwDoc.fw_id d = fid)
      /\ exists l, In l (LP.launches lp) /\ Launch.fw_id l = fid
                   /\ timed_out s (LP.utcnow lp - e) l.
Proof.
  unfold _find_timeout_fws, py_set, find. rewrite nodup_In, in_map_iff.
  split.
  - intros [l [Hf Hl]]. apply filter_In in Hl. destruct Hl as [Hl Hm].
    rewrite matches_set, holds_launch_fw_id_in in Hm.
    apply andb_true_iff in Hm. destruct Hm as [Hi Hm].
    change (Py.remove "fw_id" (lostruns_query s (LP.utcnow lp - e)))
      with (lostruns_query s (LP.utcnow lp - e)) in Hm.
    apply matches_lostruns in Hm.
    apply int_in_In, in_map_iff in Hi. destruct Hi as [d [Hd Hin]].
    apply filter_In in Hin. destruct Hin as [Hin Hq].
    split; [|now exists l].
    exists d. split; [exact Hin|]. split; [exact Hq | congruence].
  - intros [[d [Hd [Hq Hdf]]] [l [Hl [Hf Ht]]]]. exists l.
    split; [exact Hf|]. apply filter_In. split; [exact Hl|].
    rewrite matches_set, holds_launch_fw_id_in. apply andb_true_iff.
    split.
    + apply int_in_In, in_map_iff. exists d. split; [congruence|].
      apply filter_In. now split.
    + change (Py.remove "fw_id" (lostruns_query s (LP.utcnow lp - e)))
        with (lostruns_query s (LP.utcnow lp - e)).
      now apply matches_lostruns.
Qed.

(** X27.  What [_find_timeout_fws] reports it goes on reporting: with
    the collections unchanged, a firework reported at some time for
    some expiration window is reported at every later time and for
    every shorter window.  An extra query only narrows the report; an
    empty query narrows nothing; and without a query the fireworks
    collection is not consulted: a launch is reported under its [fw_id]
    whether or not a firework with this id is stored. *)
Theorem find_timeout_fws_monotone (state : string) (e e' : Z)
  (query : option Query) (lp lp' : LP.t) :
  LP.launches lp' = LP.launches lp ->
  LP.fireworks lp' = LP.fireworks lp ->
  LP.utcnow lp <= LP.utcnow lp' ->
  e' <= e ->
  (forall fid, In fid (_find_timeout_fws state e query lp) ->
               In fid (_find_timeout_fws state e' query lp'))
  /\ (forall fid, In fid (_find_timeout_fws state e query lp) ->
                  In fid (_find_timeout_fws state e None lp))
  /\ _find_timeout_fws state e (Some []) lp
     = _find_timeout_fws state e None lp
  /\ (forall other,
        LP.launches other = LP.launches lp ->
        LP.utcnow other = LP.utcnow lp ->
        _find_timeout_fws state e None other
        = _find_timeout_fws state e None lp).
Proof.
  intros Hl Hf Hnow He.
  assert (Hcut : LP.utcnow lp - e <= LP.utcnow lp' - e') by lia.
  split; [|split; [|split]].
  - intros fid. destruct query as [[|c rest]|].
    + change (_find_timeout_fws state e (Some []) lp)
        with (_find_timeout_fws state e None lp).
      change (_find_timeout_fws state e' (Some []) lp')
        with (_find_timeout_fws state e' None lp').
      rewrite !find_timeout_plain, Hl. intros [l [Hin [Hid Ht]]].
      exists l. split; [exact Hin|]. split; [exact Hid|].
      now apply timed_out_earlier with (c := LP.utcnow lp - e).
    + rewrite !find_timeout_narrowed, Hl, Hf.
      intros [Hd [l [Hin [Hid Ht]]]]. split; [exact Hd|].
      exists l. split; [exact Hin|]. split; [exact Hid|].
      now apply timed_out_earlier with (c := LP.utcnow lp - e).
    + rewrite !find_timeout_plain, Hl. intros [l [Hin [Hid Ht]]].
      exists l. split; [exact Hin|]. split; [exact Hid|].
      now apply timed_out_earlier with (c := LP.utcnow lp - e).
  - intros fid. destruct query as [[|c rest]|]; try (intros H; exact H).
    rewrite find_timeout_narrowed, find_timeout_plain. now intros [_ H].
  - reflexivity.
  - intros other Ho Hn. unfold _find_timeout_fws. now rewrite Ho, Hn.
Qed.

Lemma find_timeout_fws_monotone_witness :
  In 7 (_find_timeout_fws "RESERVED" 60 None (Scenario.reserved_at 1060))
  /\ In 7 (_find_timeout_fws "RESERVED" 30 None (Scenario.reserved_at 2000)).
Proof.
  split; [cbv; auto|].
  apply (@find_timeout_fws_monotone "RESERVED" 60 30 None
           (Scenario.reserved_at 1060) (Scenario.reserved_at 2000)
           eq_refl eq_refl); [cbn; lia | lia | cbv; auto].
Defined.

(* ===================================================================== *)
(** ** Scenarios for the readers and the replacement *)
(* ===================================================================== *)

Module Runs.

(** A [to_db_dict] that gives the object's fields; the launch list is
    filled in by the caller. *)
Definition to_db_dict (fw : Firework.t) : FwDoc.t * Launch.t * option Z :=
  (FwDoc.mk (Firework.fw_id fw) (Firework.state fw) (Firework.created_on fw)
     (Firework.updated_on fw) (Firework.spec fw) [],
   Firework.launch fw, Firework.launch_idx fw).

(** A second attempt of the running firework, not launched yet, and a
    firework the store does not know. *)
Definition second_try : Firework.t :=
  Firework.mk 5 "RESERVED" 1 4 []
    (Launch.mk 0 5 "RESERVED" [Hist.mk "RESERVED" 4 4] [] None) (Some 1) [].

Definition stray : Firework.t :=
  Firework.mk 99 "RESERVED" 1 4 []
    (Launch.mk 0 99 "RESERVED" [Hist.mk "RESERVED" 4 4] [] None) (Some 0) [].

End Runs.

Lemma get_launch_index_witness :
  _get_launch_by_fw_id Scenario.loads 1 (Some (0 - 1)) Scenario.with_duplicate
  = _get_launch_by_fw_id Scenario.loads 1 (Some 0) Scenario.with_duplicate.
Proof.
  destruct (@get_launch_index Scenario.loads 1 0 Scenario.with_duplicate
              Scenario.done_fw eq_refl) as [_ [_ [Hwrap _]]].
  apply Hwrap. cbn. lia.
Defined.

Lemma get_fw_dict_first_launch_witness :
  get_fw_dict_by_id Scenario.loads 1 0 Scenario.with_duplicate
  = Ok (fw_with_launch Scenario.done_fw [("state", JStr "COMPLETED")]).
Proof.
  exact (proj1 (@get_fw_dict_first_launch Scenario.loads 1
                  Scenario.with_duplicate Scenario.done_fw eq_refl)).
Defined.

Lemma checkin_then_read_witness :
  exists m,
    _get_launch_by_fw_id Scenario.loads 5 (Some 0)
      (written 20 (first_doc Cases.small_obj 20) (Scenario.running None))
    = Ok (OneLaunch (Some m))
    /\ Py.get "action" m = Some (JDict [("stored_data", JStr "x")]).
Proof.
  destruct (@checkin_then_read Scenario.refuses Scenario.dumps Scenario.loads
              Scenario.new_id Cases.small_obj None "COMPLETED"
              (Scenario.running None)
              (written 20 (first_doc Cases.small_obj 20)
                 (Scenario.running None))
              (first_doc Cases.small_obj 20)
              (ids_sharing 20 (Scenario.running None)) 0 eq_refl eq_refl)
    as [m [Hm [Ha _]]].
  - intros a [= <-]. split; reflexivity.
  - intros fs Hfs. discriminate Hfs.
  - exists m. split; [exact Hm | exact Ha].
Defined.

Lemma lazy_launch_idx_drifts_witness :
  lazy_read 0 (Lazy.init 1 (-3)) Scenario.with_duplicate = Ok (1 + -3)
  /\ lazy_read 1 (Lazy.init 1 (-3)) Scenario.with_duplicate
     = Ok (1 + (1 + -3)).
Proof.
  destruct (@lazy_launch_idx_drifts 1 (-3) Scenario.with_duplicate
              Scenario.done_fw eq_refl) as [_ [_ H]].
  destruct H as [H0 [H1 _]]; [cbn; lia | cbn; lia|].
  split; [exact H0 | exact H1].
Defined.

Lemma replace_fw_new_launch_needs_upsert_witness :
  fst (_replace_fw Scenario.refuses Runs.to_db_dict Runs.second_try
         AllowedNone false None (Scenario.running None)) = Ok tt
  /\ launch_by_idx Scenario.loads 5 1
       (snd (_replace_fw Scenario.refuses Runs.to_db_dict Runs.second_try
               AllowedNone false None (Scenario.running None)))
     = Raise (TypeError "NoneType").
Proof.
  destruct (@replace_fw_new_launch_needs_upsert Scenario.refuses
              Runs.to_db_dict Scenario.loads Runs.second_try
              (Scenario.running None)
              (FwDoc.mk 5 "RESERVED" 1 4 [] [])
              Scenario.running_fw
              (Launch.mk 0 5 "RESERVED" [Hist.mk "RESERVED" 4 4] [] None)
              1 6 21 eq_refl eq_refl eq_refl eq_refl)
    as [H1 [_ [_ [_ [H2 _]]]]].
  - cbn. lia.
  - reflexivity.
  - intros l [<- | []]. cbn. lia.
  - reflexivity.
  - split; [exact H1 | exact H2].
Defined.

Lemma replace_fw_without_document_witness :
  _replace_fw Scenario.refuses Runs.to_db_dict Runs.stray AllowedNone false
    None (Scenario.running None)
  = (Ok tt, LP.with_assigner (Some (6, 21 + 1)) (Scenario.running None)).
Proof.
  destruct (@replace_fw_without_document Scenario.refuses Runs.to_db_dict
              Runs.stray AllowedNone None (Scenario.running None)
              (FwDoc.mk 99 "RESERVED" 1 4 [] [])
              (Launch.mk 0 99 "RESERVED" [Hist.mk "RESERVED" 4 4] [] None)
              0 eq_refl eq_refl) as [_ H].
  - intros d [<- | []]. reflexivity.
  - apply H; [lia | reflexivity | reflexivity|].
    intros l [<- | []]. cbn. lia.
Defined.

(** A replacement under the stored id goes through; an upsert that
    misses the stored document because of its state would insert a
    second document of the id, and is refused. *)
Lemma replace_fw_keeps_stored_launches_witness :
  LP.launches
    (snd (_replace_fw Scenario.refuses Runs.to_db_dict Scenario.finished_obj
            AllowedNone false None (Scenario.running None)))
  = LP.launches (Scenario.running None)
  /\ fst (_replace_fw Scenario.refuses Runs.to_db_dict Scenario.finished_obj
            AllowedNone false None (Scenario.running None)) = Ok tt
  /\ LP.fireworks
       (snd (_replace_fw Scenario.refuses Runs.to_db_dict
               Scenario.finished_obj AllowedNone false None
               (Scenario.running None)))
     = [FwDoc.mk 5 "COMPLETED" 1 3 [] [20]]
  /\ _replace_fw Scenario.refuses Runs.to_db_dict Scenario.finished_obj
       (AllowedStr "READY") true None (Scenario.running None)
     = (Raise (DuplicateKeyError "fw_id"), Scenario.running None).
Proof.
  destruct (@replace_fw_keeps_stored_launches Scenario.refuses
              Runs.to_db_dict Scenario.finished_obj AllowedNone false None
              (Scenario.running None)
              (FwDoc.mk 5 "COMPLETED" 1 3 [] [])
              (Scenario.running_launch [JInt 1] (Some Scenario.result_action))
              (Some 0) eq_refl) as [H1 [_ [_ [H2 _]]]].
  { right. now exists Scenario.result_action. }
  destruct (H2 (or_introl eq_refl)) as [Hok Hfws].
  destruct (@replace_fw_keeps_stored_launches Scenario.refuses
              Runs.to_db_dict Scenario.finished_obj (AllowedStr "READY") true
              None (Scenario.running None)
              (FwDoc.mk 5 "COMPLETED" 1 3 [] [])
              (Scenario.running_launch [JInt 1] (Some Scenario.result_action))
              (Some 0) eq_refl) as [_ [_ [_ [_ [_ H3]]]]].
  { right. now exists Scenario.result_action. }
  split; [exact H1|]. split; [exact Hok|]. split; [exact Hfws|].
  apply H3; [reflexivity|].
  exists Scenario.running_fw. split; [now left | reflexivity].
Defined.

(* ===================================================================== *)
(** ** The launchpad's settings: [__init__], [to_dict], [from_dict] *)
(* ===================================================================== *)

(** The arguments of [MongoLaunchPad(...)] and the attributes they are
    kept in.  The connection they open is outside the model. *)
Module Conf.
Record t (W : Type) : Type := mk {
  host : J;
  port : J;
  name : J;
  username : J;
  password : J;
  logdir : J;
  strm_lvl : J;
  user_indices : J;
  wf_user_indices : J;
  ssl : J;
  ssl_ca_certs : J;
  ssl_certfile : J;
  ssl_keyfile : J;
  ssl_pem_passphrase : J;
  authsource : J;
  fworker : W
}.
End Conf.

(** The [fworker] argument: absent, the path of a file to load, or an
    object, [None] standing for an empty dictionary. *)
Inductive WorkerArg : Type :=
| NoWorker
| WorkerFile (path : string)
| WorkerObj (w : option FWorker.t).

Definition default_fworker : FWorker.t :=
  FWorker.mk (JStr "my first fireworker") (JStr EmptyString) [].

Section Config.

(** [FWORKER_LOC] of [fw_config] ([None] when unset), [loadfn] of
    monty, and the worker as the dictionary [to_dict] exports. *)
Variable FWORKER_LOC : option string.
Variable loadfn : string -> Result (option FWorker.t).
Variable fworker_json : FWorker.t -> J.

Definition init_fworker (fworker : WorkerArg) : Result FWorker.t :=
  rbind
    (match fworker with
     | NoWorker =>
         match FWORKER_LOC with
         | Some loc => loadfn loc
         | None => Ok None
         end
     | WorkerFile path => loadfn path
     | WorkerObj w => Ok w
     end)
    (fun fworker =>
       Ok (match fworker with
           | Some w => w
           | None => default_fworker
           end)).

Definition __init__ (a : Conf.t WorkerArg) : Result (Conf.t FWorker.t) :=
  rbind
    (match Conf.host a with
     | JNull => Ok false
     | JStr h =>
         Ok (String.prefix "mongodb://" h || String.prefix "mongodb+srv://" h)
     | _ => Raise (AttributeError "startswith")
     end)
    (fun host_uri_mode =>
       let host :=
         if Py.truthy (Conf.host a) || host_uri_mode then Conf.host a
         else JStr "localhost" in
       let port :=
         if Py.truthy (Conf.port a) || host_uri_mode then Conf.port a
         else JInt 27017 in
       let name :=
         if Py.truthy (Conf.name a) || host_uri_mode then Conf.name a
         else JStr "fireworks" in
       let authsource :=
         if Py.truthy (Conf.authsource a) then Conf.authsource a else name in
       let strm_lvl :=
         if Py.truthy (Conf.strm_lvl a) then Conf.strm_lvl a
         else JStr "INFO" in
       let user_indices :=
         if Py.truthy (Conf.user_indices a) then Conf.user_indices a
         else JList [] in
       let wf_user_indices :=
         if Py.truthy (Conf.wf_user_indices a) then Conf.wf_user_indices a
         else JList [] in
       rbind (init_fworker (Conf.fworker a))
         (fun fworker =>
            Ok (Conf.mk host port name (Conf.username a) (Conf.password a)
                  (Conf.logdir a) strm_lvl user_indices wf_user_indices
                  (Conf.ssl a) (Conf.ssl_ca_certs a) (Conf.ssl_certfile a)
                  (Conf.ssl_keyfile a) (Conf.ssl_pem_passphrase a)
                  authsource fworker))).

Definition to_dict (self : Conf.t FWorker.t) : Dict :=
  [("host", Conf.host self);
   ("port", Conf.port self);
   ("name", Conf.name self);
   ("username", Conf.username self);
   ("password", Conf.password self);
   ("logdir", Conf.logdir self);
   ("strm_lvl", Conf.strm_lvl self);
   ("user_indices", Conf.user_indices self);
   ("wf_user_indices", Conf.wf_user_indices self);
   ("ssl", Conf.ssl self);
   ("ssl_ca_certs", Conf.ssl_ca_certs self);
   ("ssl_certfile", Conf.ssl_certfile self);
   ("ssl_keyfile", Conf.ssl_keyfile self);
   ("ssl_pem_passphrase", Conf.ssl_pem_passphrase self);
   ("authsource", Conf.authsource self);
   ("fworker", fworker_json (Conf.fworker self))].

(** [d.get(k, default)] *)
Definition get_or (k : string) (default : J) (d : Dict) : J :=
  match Py.get k d with Some v => v | None => default end.

(** [from_dict]: the entry [fworker] is not read, the launchpad is built
    without a worker argument. *)
Definition from_dict (d : Dict) : Result (Conf.t FWorker.t) :=
  let port := get_or "port" JNull d in
  let name := get_or "name" JNull d in
  let username := get_or "username" JNull d in
  let password := get_or "password" JNull d in
  let logdir := get_or "logdir" JNull d in
  let strm_lvl := get_or "strm_lvl" JNull d in
  let user_indices := get_or "user_indices" (JList []) d in
  let wf_user_indices := get_or "wf_user_indices" (JList []) d in
  let ssl := get_or "ssl" (JBool false) d in
  let ssl_ca_certs :=
    get_or "ssl_ca_certs" (get_or "ssl_ca_file" JNull d) d in
  let ssl_certfile := get_or "ssl_certfile" JNull d in
  let ssl_keyfile := get_or "ssl_keyfile" JNull d in
  let ssl_pem_passphrase := get_or "ssl_pem_passphrase" JNull d in
  let authsource := get_or "authsource" JNull d in
  match Py.get "host" d with
  | None => Raise (KeyError "host")
  | Some host =>
      __init__ (Conf.mk host port name username password logdir strm_lvl
                  user_indices wf_user_indices ssl ssl_ca_certs ssl_certfile
                  ssl_keyfile ssl_pem_passphrase authsource NoWorker)
  end.

(** The settings with another worker. *)
Definition with_fworker (w : FWorker.t) (c : Conf.t FWorker.t)
  : Conf.t FWorker.t :=
  Conf.mk (Conf.host c) (Conf.port c) (Conf.name c) (Conf.username c)
    (Conf.password c) (Conf.logdir c) (Conf.strm_lvl c) (Conf.user_indices c)
    (Conf.wf_user_indices c) (Conf.ssl c) (Conf.ssl_ca_certs c)
    (Conf.ssl_certfile c) (Conf.ssl_keyfile c) (Conf.ssl_pem_passphrase c)
    (Conf.authsource c) w.

Lemma default_kept (v w : J) (b : bool) :
  Py.truthy w = true ->
  (if Py.truthy (if Py.truthy v || b then v else w) || b
   then (if Py.truthy v || b then v else w) else w)
  = (if Py.truthy v || b then v else w).
Proof.
  intros Hw. destruct (Py.truthy v) eqn:Ev, b; cbn [orb];
    rewrite ?Ev, ?Hw, ?orb_true_r; reflexivity.
Qed.

Lemma default_kept_plain (v w : J) :
  Py.truthy w = true ->
  (if Py.truthy (if Py.truthy v then v else w)
   then (if Py.truthy v then v else w) else w)
  = (if Py.truthy v then v else w).
Proof.
  intros Hw. destruct (Py.truthy v) eqn:Ev; rewrite ?Ev, ?Hw; reflexivity.
Qed.

Lemma empty_list_kept (v : J) :
  (if Py.truthy (if Py.truthy v then v else JList [])
   then (if Py.truthy v then v else JList []) else JList [])
  = (if Py.truthy v then v else JList []).
Proof. destruct (Py.truthy v) eqn:Ev; rewrite ?Ev; reflexivity. Qed.

(** X28.  [from_dict (to_dict ())] gives back every setting of a
    launchpad but its worker.  The dictionary exported holds the worker,
    [from_dict] does not read it: the launchpad rebuilt has the worker
    that [__init__] gives a launchpad created without one, the default
    worker when [FWORKER_LOC] is unset.  A dictionary without [host] is
    refused with [KeyError], although [__init__] has a default for the
    host. *)
Theorem settings_round_trip_drops_worker (a : Conf.t WorkerArg)
  (c : Conf.t FWorker.t) :
  __init__ a = Ok c ->
  from_dict (to_dict c)
  = rbind (init_fworker NoWorker) (fun w => Ok (with_fworker w c))
  /\ (FWORKER_LOC = None ->
      from_dict (to_dict c) = Ok (with_fworker default_fworker c))
  /\ (forall d, Py.get "host" d = None -> from_dict d = Raise (KeyError "host")).
Proof.
  intros Hinit.
  assert (Hmain : from_dict (to_dict c)
                  = rbind (init_fworker NoWorker)
                      (fun w => Ok (with_fworker w c))).
  { unfold __init__ in Hinit.
    destruct (match Conf.host a with
              | JNull => Ok false
              | JStr h =>
                  Ok (String.prefix "mongodb://" h
                      || String.prefix "mongodb+srv://" h)
              | _ => Raise (AttributeError "startswith")
              end) as [uri|e] eqn:Euri; [|discriminate].
    cbn [rbind] in Hinit.
    destruct (init_fworker (Conf.fworker a)) as [w|e]; [|discriminate].
    cbn [rbind] in Hinit. injection Hinit as <-.
    unfold from_dict, to_dict, get_or.
    cbn [Py.get String.eqb Ascii.eqb Bool.eqb Conf.host Conf.port Conf.name
           Conf.username Conf.password Conf.logdir Conf.strm_lvl
           Conf.user_indices Conf.wf_user_indices Conf.ssl Conf.ssl_ca_certs
           Conf.ssl_certfile Conf.ssl_keyfile Conf.ssl_pem_passphrase
           Conf.authsource Conf.fworker].
    unfold __init__.
    cbn [Conf.host Conf.port Conf.name Conf.username Conf.password
           Conf.logdir Conf.strm_lvl Conf.user_indices Conf.wf_user_indices
           Conf.ssl Conf.ssl_ca_certs Conf.ssl_certfile Conf.ssl_keyfile
           Conf.ssl_pem_passphrase Conf.authsource Conf.fworker].
    assert (Huri : match
                     (if Py.truthy (Conf.host a) || uri then Conf.host a
                      else JStr "localhost")
                   with
                   | JNull => Ok false
                   | JStr h =>
                       Ok (String.prefix "mongodb://" h
                           || String.prefix "mongodb+srv://" h)
                   | _ => Raise (AttributeError "startswith")
                   end = Ok uri).
    { destruct (Conf.host a) as [| | |h| | |]; try discriminate.
      - injection Euri as <-. reflexivity.
      - injection Euri as <-.
        destruct (Py.truthy (JStr h)) eqn:Eh; cbn [orb]; [reflexivity|].
        cbn [Py.truthy] in Eh. apply negb_false_iff, String.eqb_eq in Eh.
        subst h. reflexivity. }
    rewrite Huri. cbn [rbind].
    rewrite !default_kept by reflexivity.
    rewrite default_kept_plain by reflexivity.
    rewrite !empty_list_kept.
    destruct (init_fworker NoWorker) as [w0|e0]; [|reflexivity].
    cbn [rbind]. unfold with_fworker.
    cbn [Conf.host Conf.port Conf.name Conf.username Conf.password
           Conf.logdir Conf.strm_lvl Conf.user_indices Conf.wf_user_indices
           Conf.ssl Conf.ssl_ca_certs Conf.ssl_certfile Conf.ssl_keyfile
           Conf.ssl_pem_passphrase Conf.authsource Conf.fworker].
    do 2 f_equal.
    destruct (Py.truthy (Conf.authsource a)) eqn:Ea; rewrite ?Ea;
      [reflexivity|].
    now destruct (Py.truthy
                    (if Py.truthy (Conf.name a) || uri then Conf.name a
                     else JStr "fireworks")). }
  split; [exact Hmain|]. split.
  - intros Hloc. rewrite Hmain. unfold init_fworker. now rewrite Hloc.
  - intros d Hd. unfold from_dict. now rewrite Hd.
Qed.

End Config.

Lemma settings_round_trip_drops_worker_witness :
  from_dict None (fun _ => Ok None)
    (to_dict (fun _ => JNull)
       (Conf.mk (JStr "localhost") (JInt 27017) (JStr "fireworks") JNull
          JNull JNull (JStr "INFO") (JList []) (JList []) (JBool false)
          JNull JNull JNull JNull (JStr "fireworks") Cases.plain_worker))
  = Ok (Conf.mk (JStr "localhost") (JInt 27017) (JStr "fireworks") JNull
          JNull JNull (JStr "INFO") (JList []) (JList []) (JBool false)
          JNull JNull JNull JNull (JStr "fireworks") default_fworker).
Proof.
  refine (proj1 (proj2
            (@settings_round_trip_drops_worker None (fun _ => Ok None)
               (fun _ => JNull)
               (Conf.mk JNull JNull JNull JNull JNull JNull JNull JNull JNull
                  (JBool false) JNull JNull JNull JNull JNull
                  (WorkerObj (Some Cases.plain_worker)))
               _ eq_refl)) eq_refl).
Defined.

(* ===================================================================== *)
(** ** All the launches of a firework *)
(* ===================================================================== *)

Section AllLaunchesFacts.

Variable json_loads : string -> option Dict.

Lemma launches_from_spec (lp : LP.t) (launch_ids : list Z) :
  forall (i : Z) (ls : list Dict),
    launches_from json_loads i launch_ids lp = Ok ls ->
    List.length ls = List.length launch_ids
    /\ forall k m,
         nth_error ls k = Some m ->
         Py.get "launch_idx" m = Some (JInt (i + Z.of_nat k))
         /\ exists lid l,
              nth_error launch_ids k = Some lid
              /\ In l (LP.launches lp)
              /\ Launch.launch_id l = lid
              /\ Py.get "launch_id" m = Some (JInt lid)
              /\ Py.get "state_history" m
                 = Some (JList (map Hist.view (Launch.state_history l))).
Proof.
  induction launch_ids as [|lid rest IH]; intros i ls H;
    cbn [launches_from] in H.
  - injection H as <-. split; [reflexivity|]. intros [|k] m Hk; discriminate.
  - destruct (find_one Launch.view [("launch_id", QEq (JInt lid))] []
                (LP.launches lp)) as [l|] eqn:El; [|discriminate].
    destruct (get_action_from_gridfs json_loads (Launch.action l)
                (LP.gridfs_fallback lp)) as [a|e]; [|discriminate].
    cbn [rbind] in H.
    destruct (launches_from json_loads (i + 1) rest lp) as [ms|e] eqn:Er;
      [|discriminate].
    cbn [rbind] in H. injection H as <-.
    destruct (IH _ _ Er) as [Hlen Hall].
    split; [cbn; now rewrite Hlen|].
    intros [|k] m Hk; cbn [nth_error] in Hk |- *.
    + injection Hk as <-. split; [cbn; do 2 f_equal; lia|].
      unfold find_one in El.
      destruct (find_one_at Launch.view [("launch_id", QEq (JInt lid))] []
                  (LP.launches lp)) as [[j l0]|] eqn:Ef; [|discriminate].
      cbn in El. injection El as ->.
      destruct (find_one_at_some _ _ _ _ Ef) as [Hn [Hm _]].
      unfold matches in Hm. cbn [forallb fst snd] in Hm.
      rewrite holds_launch_id_eq, andb_true_r in Hm. apply Z.eqb_eq in Hm.
      exists lid, l. split; [reflexivity|].
      split; [now apply nth_error_In with (n := j)|].
      split; [exact Hm|]. split; [cbn; now rewrite Hm | reflexivity].
    + destruct (Hall k m Hk) as [Hidx Hrest]. split; [|exact Hrest].
      rewrite Hidx. do 2 f_equal. lia.
Qed.

Lemma launches_from_dangling (lp : LP.t) (lid : Z) (launch_ids : list Z) :
  In lid launch_ids ->
  (forall l, In l (LP.launches lp) -> Launch.launch_id l <> lid) ->
  forall i, exists e, launches_from json_loads i launch_ids lp = Raise e.
Proof.
  intros Hin Hno. induction launch_ids as [|x rest IH]; [destruct Hin|].
  intros i. cbn [launches_from].
  destruct (find_one Launch.view [("launch_id", QEq (JInt x))] []
              (LP.launches lp)) as [l|] eqn:El; [|eauto].
  destruct (get_action_from_gridfs json_loads (Launch.action l)
              (LP.gridfs_fallback lp)) as [a|e]; [|cbn; eauto].
  cbn [rbind]. destruct Hin as [-> | Hin].
  - exfalso. unfold find_one in El.
    destruct (find_one_at Launch.view [("launch_id", QEq (JInt lid))] []
                (LP.launches lp)) as [[j l0]|] eqn:Ef; [|discriminate].
    destruct (find_one_at_some _ _ _ _ Ef) as [Hn [Hm _]].
    unfold matches in Hm. cbn [forallb fst snd] in Hm.
    rewrite holds_launch_id_eq, andb_true_r in Hm. apply Z.eqb_eq in Hm.
    exact (Hno l0 (nth_error_In _ _ Hn) Hm).
  - destruct (IH Hin (i + 1)) as [e He]. rewrite He. cbn. eauto.
Qed.

(** X29.  [_get_launch_by_fw_id] without an index returns one launch
    for each id of the firework's launch list, in the order of the list,
    each with its position as [launch_idx] and, unlike the launch
    returned for an index, with its [launch_id].  When one id of the
    list has no launch document the whole call fails. *)
Theorem get_all_launches (fw_id : Z) (lp : LP.t) (d : FwDoc.t) :
  find_one FwDoc.view [("fw_id", QEq (JInt fw_id))] [] (LP.fireworks lp)
  = Some d ->
  (forall r,
      _get_launch_by_fw_id json_loads fw_id None lp = Ok r ->
      exists ls,
        r = AllLaunches ls
        /\ List.length ls = List.length (FwDoc.launches d)
        /\ forall k m,
             nth_error ls k = Some m ->
             Py.get "launch_idx" m = Some (JInt (Z.of_nat k))
             /\ exists lid l,
                  nth_error (FwDoc.launches d) k = Some lid
                  /\ In l (LP.launches lp)
                  /\ Launch.launch_id l = lid
                  /\ Py.get "launch_id" m = Some (JInt lid)
                  /\ Py.get "state_history" m
                     = Some (JList (map Hist.view (Launch.state_history l))))
  /\ (forall lid,
        In lid (FwDoc.launches d) ->
        (forall l, In l (LP.launches lp) -> Launch.launch_id l <> lid) ->
        exists e, _get_launch_by_fw_id json_loads fw_id None lp = Raise e).
Proof.
  intros Hd. unfold _get_launch_by_fw_id. rewrite Hd. split.
  - intros r H.
    destruct (launches_from json_loads 0 (FwDoc.launches d) lp) as [ls|e]
      eqn:El; [|discriminate].
    cbn [rbind] in H. injection H as <-.
    destruct (@launches_from_spec lp (FwDoc.launches d) 0 ls El)
      as [Hlen Hall].
    exists ls. split; [reflexivity|]. split; [exact Hlen|].
    intros k m Hk. exact (Hall k m Hk).
  - intros lid Hin Hno.
    destruct (@launches_from_dangling lp lid (FwDoc.launches d) Hin Hno 0)
      as [e He].
    rewrite He. cbn. eauto.
Qed.

End AllLaunchesFacts.

Lemma get_all_launches_witness :
  exists e,
    _get_launch_by_fw_id Scenario.loads 5 None
      (snd (_replace_fw Scenario.refuses Runs.to_db_dict Runs.second_try
              AllowedNone false None (Scenario.running None)))
    = Raise e.
Proof.
  refine (proj2
            (@get_all_launches Scenario.loads 5
               (snd (_replace_fw Scenario.refuses Runs.to_db_dict
                       Runs.second_try AllowedNone false None
                       (Scenario.running None)))
               (FwDoc.mk 5 "RESERVED" 1 4 [] [20; 21]) eq_refl) 21 _ _).
  - right. now left.
  - intros l [<- | []]. cbn. lia.
Defined.

(* ===================================================================== *)
(** ** More on the workflow rewrite *)
(* ===================================================================== *)

Lemma collect_fws_fails (wf : Workflow.t) (ids : list Z) (e : Exc) :
  collect_fws wf ids = Raise e ->
  e = KeyError "id_fw"
  /\ exists fid, In fid ids /\ id_fw_get fid (Workflow.id_fw wf) = None.
Proof.
  induction ids as [|fid rest IH]; cbn [collect_fws]; [discriminate|].
  destruct (id_fw_get fid (Workflow.id_fw wf)) as [fw|] eqn:Eg.
  - destruct (collect_fws wf rest) as [fws|e0]; cbn [rbind];
      [discriminate|].
    intros [= <-]. destruct (IH eq_refl) as [He [f [Hf Hn]]].
    split; [exact He|]. exists f. split; [now right | exact Hn].
  - intros [= <-]. split; [reflexivity|]. exists fid.
    split; [now left | exact Eg].
Qed.

Section WorkflowFailures.

Variable _upsert_fws : list Firework.t -> M (list (Z * Z)).
Variable _reassign_ids : list (Z * Z) -> Workflow.t -> Workflow.t.
Variable Workflow_to_db_dict : Workflow.t -> Dict.

Local Abbreviation update_wf :=
  (_update_wf _upsert_fws _reassign_ids Workflow_to_db_dict).

(** X30.  How [_update_wf] fails, and what it leaves.  A firework id
    the workflow does not hold is a [KeyError] before anything is
    written.  Every other failure comes after [_upsert_fws] has run and
    leaves the launchpad as [_upsert_fws] left it, the fireworks written
    and the workflow document not: a failure of [_upsert_fws] itself; an
    [AssertionError] when every node of the workflow got a new id; a
    [ValueError] when no workflow document holds the node that kept its
    id. *)
Theorem update_wf_failures (wf : Workflow.t) (updated_ids : list Z)
  (lp lp' : LP.t) (e : Exc) :
  update_wf wf updated_ids lp = (Raise e, lp') ->
  (lp' = lp
   /\ e = KeyError "id_fw"
   /\ exists fid, In fid updated_ids
                  /\ id_fw_get fid (Workflow.id_fw wf) = None)
  \/ exists fws,
       collect_fws wf updated_ids = Ok fws
       /\ lp' = snd (_upsert_fws fws lp)
       /\ (fst (_upsert_fws fws lp) = Raise e
           \/ exists old_new,
                fst (_upsert_fws fws lp) = Ok old_new
                /\ ((e = AssertionError
                     /\ forall f,
                          In f (map fst
                                  (Workflow.id_fw (_reassign_ids old_new wf))) ->
                          In f (map snd old_new)
                          /\ zget f old_new <> Some f)
                    \/ exists node,
                         find_query_node (_reassign_ids old_new wf) old_new
                         = Some node
                         /\ e = ValueError "BAD QUERY_NODE!"
                         /\ forall d, In d (LP.workflows lp') ->
                              matches [("nodes", QEq (JInt node))] (wf_view d)
                              = false)).
Proof.
  unfold _update_wf, bind, read.
  destruct (collect_fws wf updated_ids) as [fws|e0] eqn:Ec.
  2:{ intros [= <- <-]. left. split; [reflexivity|].
      now apply collect_fws_fails. }
  destruct (_upsert_fws fws lp) as [[old_new|e1] mid] eqn:Eu.
  2:{ intros [= <- <-]. right. exists fws. rewrite Eu. cbn [fst snd].
    split; [reflexivity|].
      split; [reflexivity | now left]. }
  destruct (find_query_node (_reassign_ids old_new wf) old_new)
    as [node|] eqn:Eq.
  - unfold find_one.
    destruct (find_one_at wf_view [("nodes", QEq (JInt node))] []
                (LP.workflows mid)) as [[i old]|] eqn:Ef;
      cbn [option_map]; [discriminate|].
    intros [= <- <-]. right. exists fws. rewrite Eu. cbn [fst snd].
    split; [reflexivity|].
    split; [reflexivity|]. right. exists old_new. split; [reflexivity|].
    right. exists node. split; [exact Eq|]. split; [reflexivity|].
    intros d Hd. eapply find_one_at_none; [exact Ef | exact Hd].
  - intros [= <- <-]. right. exists fws. rewrite Eu. cbn [fst snd].
    split; [reflexivity|].
    split; [reflexivity|]. right. exists old_new. split; [reflexivity|].
    left. split; [reflexivity|]. intros f Hf.
    unfold find_query_node in Eq.
    pose proof (find_none _ _ Eq f Hf) as Hnone. cbv beta in Hnone.
    apply orb_false_iff in Hnone. destruct Hnone as [Hin Hz].
    apply negb_false_iff, int_in_In in Hin. split; [exact Hin|].
    intros Hsome. rewrite Hsome, Z.eqb_refl in Hz. discriminate.
Qed.

End WorkflowFailures.

Lemma update_wf_failures_witness :
  _update_wf Scenario.upsert Scenario.reassign Scenario.to_db_dict
    Scenario.flow [2] Scenario.queue
  = (Raise (ValueError "BAD QUERY_NODE!"), Scenario.queue)
  /\ exists fws, collect_fws Scenario.flow [2] = Ok fws.
Proof.
  split; [reflexivity|].
  destruct (@update_wf_failures Scenario.upsert Scenario.reassign
              Scenario.to_db_dict Scenario.flow [2] Scenario.queue
              Scenario.queue (ValueError "BAD QUERY_NODE!") eq_refl)
    as [[_ [He _]] | [fws [Hc _]]]; [discriminate He|].
  now exists fws.
Defined.
